(** * stravalib.model: the entity layer, embedded in Rocq

    The development follows [stravalib/model.py]: the class bodies are
    tables of class-level bindings, attribute access follows Python's
    lookup order (data descriptor of the type, instance dictionary, other
    class binding), and the methods of the module are computations in a
    small state-and-exception monad over the instance they mutate. *)

From Stdlib Require Import ZArith String List Floats.
From stdpp Require Import base gmap strings list option pretty.

Set Warnings "-register-all".
#[local] Open Scope string_scope.
#[local] Open Scope Z_scope.
#[local] Open Scope list_scope.

(** ** The classes of the module *)

Inductive class_name : Type :=
| BaseEntity | ResourceStateEntity | IdentifiableEntity | BoundEntity
| LoadableEntity | Club | Bike | Shoe | Athlete | ActivityComment | Map
| BaseSplit | MetricSplit | StandardSplit | Segment | BaseEffort
| BestEffort | SegmentEffort | Activity | SegmentLeaderboard
| DistributionBucket | BaseActivityZone | HeartrateActivityZone
| PowerActivityZone.

#[global] Instance class_name_eq_dec : EqDecision class_name.
Proof. solve_decision. Defined.

(** ** Descriptors, as the class bodies apply them

    [stravalib.attributes] supplies the descriptor classes; what a class
    body of [model.py] writes is a constructor applied to a value type, a
    tuple of resource states and an optional unit. *)

Inductive resource_state : Type := META | SUMMARY | DETAILED.

Inductive prim : Type := t_int | t_float | t_str | t_bool.

Inductive unit_tag : Type := meters | seconds | feet | kgs.

(** An entity type is referenced by the class object or, to break the
    cycle between efforts and activities, by its name. *)
Inductive entity_ref : Type :=
| ByClass (c : class_name)
| ByName (s : string).

Inductive descriptor : Type :=
| Attribute (t : prim) (states : option (list resource_state))
            (units : option unit_tag)
| TimestampAttribute (states : list resource_state)
| LocationAttribute (states : list resource_state)
| TimeIntervalAttribute (states : list resource_state)
| TimezoneAttribute (states : list resource_state)
| EntityAttribute (ref : entity_ref) (states : list resource_state)
| EntityCollection (ref : entity_ref) (states : list resource_state).

(** The three lazily loaded relations. *)
Inductive property_name : Type := p_members | p_activities | p_gear.

(** What a class body binds a name to. *)
Inductive class_attr : Type :=
| CDescr (d : descriptor)        (* name = Attribute(...)             *)
| CTuple (d : descriptor)        (* name = Attribute(...),            *)
| CNone                          (* name = None                       *)
| CProperty (p : property_name)  (* @property def name(self)          *)
| CMethod (owner : class_name)   (* def name(self, ...), classmethods *)
| CMeta.                         (* __metaclass__ = abc.ABCMeta       *)

(** ** Values *)

Inductive value : Type :=
| VNone
| VBool (b : bool)
| VInt (n : Z)
| VFloat (f : float)
| VStr (s : string)
| VList (xs : list value)
| VTuple (xs : list value)
| VDict (kvs : list (string * value))     (* a mapping, in iteration order *)
| VDescr (d : descriptor)                 (* a descriptor object           *)
| VFunction (owner : class_name) (name : string)
| VProperty (p : property_name)           (* a property object             *)
| VMetaclass
| VLogger (c : class_name)                (* logging.getLogger(<class>)    *)
| VClient (ref : nat)                     (* a fetch client                *)
| VQuantity (v : value) (u : unit_tag)    (* a unit-tagged quantity        *)
| VStruct (kind : string) (parts : list value)
                                          (* date-time, location, timezone *)
| VEntity (o : instance)
with instance : Type :=
| Instance (cls : class_name)
           (dict : gmap string value)     (* the instance __dict__         *)
           (slots : gmap string value).   (* values held by descriptors    *)

Definition cls (o : instance) : class_name :=
  match o with Instance c _ _ => c end.
Definition dict (o : instance) : gmap string value :=
  match o with Instance _ d _ => d end.
Definition slots (o : instance) : gmap string value :=
  match o with Instance _ _ s => s end.

Definition set_dict (o : instance) (k : string) (v : value) : instance :=
  Instance (cls o) (<[k := v]> (dict o)) (slots o).
Definition set_slot (o : instance) (k : string) (v : value) : instance :=
  Instance (cls o) (dict o) (<[k := v]> (slots o)).

(** Python truth value, as [not x] and [if x] compute it. *)
Definition truthy (v : value) : bool :=
  match v with
  | VNone => false
  | VBool b => b
  | VInt n => negb (n =? 0)
  | VFloat f => negb (PrimFloat.eqb f 0%float)
  | VStr s => negb (String.eqb s "")
  | VList xs | VTuple xs => negb (Nat.eqb (List.length xs) 0)
  | VDict kvs => negb (Nat.eqb (List.length kvs) 0)
  | _ => true
  end.

Definition is_none (v : value) : bool :=
  match v with VNone => true | _ => false end.

(** ** The class bodies

    [own_attrs] lists, class by class, the names that the class statement
    binds, in the order of the source.  The names that every Python class
    has without binding them are listed apart, in [object_names]. *)

Definition MSD : list resource_state := [META; SUMMARY; DETAILED].
Definition SD : list resource_state := [SUMMARY; DETAILED].
Definition D : list resource_state := [DETAILED].

(** [att t s] is [Attribute(t, s)], [attu t s u] is
    [Attribute(t, s, units=u)], [att0 t] is [Attribute(t)] and [attu0 t u]
    is [Attribute(t, units=u)]. *)
Definition att (t : prim) (s : list resource_state) : class_attr :=
  CDescr (Attribute t (Some s) None).
Definition attu (t : prim) (s : list resource_state) (u : unit_tag) : class_attr :=
  CDescr (Attribute t (Some s) (Some u)).
Definition att0 (t : prim) : class_attr := CDescr (Attribute t None None).
Definition attu0 (t : prim) (u : unit_tag) : class_attr :=
  CDescr (Attribute t None (Some u)).
(** [att_comma t s] is [Attribute(t, s),]: the trailing comma makes the
    bound value a one-element tuple. *)
Definition att_comma (t : prim) (s : list resource_state) : class_attr :=
  CTuple (Attribute t (Some s) None).

Definition own_attrs (c : class_name) : list (string * class_attr) :=
  match c with
  | BaseEntity =>
      [ ("__metaclass__", CMeta);
        ("__init__", CMethod BaseEntity);
        ("from_dict", CMethod BaseEntity);
        ("deserialize", CMethod BaseEntity);
        ("__repr__", CMethod BaseEntity) ]
  | ResourceStateEntity =>
      [ ("resource_state", att t_int MSD) ]
  | IdentifiableEntity =>
      [ ("id", att t_int MSD) ]
  | BoundEntity =>
      [ ("bind_client", CNone);
        ("__init__", CMethod BoundEntity);
        ("deserialize", CMethod BoundEntity);
        ("assert_bind_client", CMethod BoundEntity) ]
  | LoadableEntity =>
      [ ("hydrate", CMethod LoadableEntity) ]
  | Club =>
      [ ("name", att t_str SD);
        ("members", CProperty p_members);
        ("activities", CProperty p_activities) ]
  | Bike | Shoe =>
      [ ("id", att t_str MSD);
        ("name", att t_str SD);
        ("distance", att t_float SD);
        ("primary", att t_bool SD) ]
  | Athlete =>
      [ ("firstname", att t_str SD);
        ("lastname", att t_str SD);
        ("profile_medium", att t_str SD);
        ("profile", att t_str SD);
        ("city", att t_str SD);
        ("state", att t_str SD);
        ("sex", att t_str SD);
        ("friend", att t_str SD);
        ("follower", att t_str SD);
        ("preimum", att t_bool SD);
        ("created_at", CDescr (TimestampAttribute SD));
        ("updated_at", CDescr (TimestampAttribute SD));
        ("follower_count", att t_int D);
        ("friend_count", att t_int D);
        ("mutual_friend_count", att t_int D);
        ("date_preference", att t_str D);
        ("measurement_preference", att t_str D);
        ("clubs", CDescr (EntityCollection (ByClass Club) D));
        ("bikes", CDescr (EntityCollection (ByClass Bike) D));
        ("shoes", CDescr (EntityCollection (ByClass Shoe) D)) ]
  | ActivityComment =>
      [ ("activity_id", att t_int MSD);
        ("text", att t_str MSD);
        ("created_at", CDescr (TimestampAttribute SD));
        ("athlete", CNone) ]
  | Map =>
      [ ("id", att t_str SD);
        ("polyline", att t_str SD);
        ("summary_polyline", att t_str SD) ]
  | BaseSplit => []
  | MetricSplit =>
      [ ("distance", attu0 t_float meters);
        ("elapsed_time", attu0 t_int seconds);
        ("elevation_difference", attu0 t_float meters);
        ("moving_time", attu0 t_int seconds);
        ("split", att0 t_int) ]
  | StandardSplit =>
      [ ("distance", attu0 t_float feet);
        ("elapsed_time", attu0 t_int seconds);
        ("elevation_difference", attu0 t_float feet);
        ("moving_time", attu0 t_int seconds);
        ("split", att0 t_int) ]
  | Segment =>
      [ ("name", att t_str SD);
        ("activity_type", att t_str SD);
        ("distance", attu t_float SD meters);
        ("average_grade", att t_float SD);
        ("maximum_grade", att t_float SD);
        ("elevation_high", attu t_float SD meters);
        ("elevation_low", attu t_float SD meters);
        ("start_latlng", CDescr (LocationAttribute SD));
        ("end_latlng", CDescr (LocationAttribute SD));
        ("start_latitude", att t_float SD);
        ("end_latitude", att t_float SD);
        ("start_longitude", att t_float SD);
        ("end_longitude", att t_float SD);
        ("climb_category", att t_int SD);
        ("city", att t_str SD);
        ("state", att t_str SD);
        ("private", att t_bool SD);
        ("created_at", CDescr (TimestampAttribute D));
        ("updated_at", CDescr (TimestampAttribute D));
        ("total_elevation_gain", attu t_float D meters);
        ("map", CDescr (EntityAttribute (ByClass Map) D));
        ("effort_count", att t_int D);
        ("athlete_count", att t_int D);
        ("hazardous", att t_bool D);
        ("pr_time", attu t_int D seconds);
        ("pr_distance", attu t_float D meters);
        ("starred", att t_bool D) ]
  | BaseEffort =>
      [ ("name", att t_str SD);
        ("segment", CDescr (EntityAttribute (ByClass Segment) SD));
        ("activity", CDescr (EntityAttribute (ByName "Activity") SD));
        ("athlete", CDescr (EntityAttribute (ByClass Athlete) SD));
        ("kom_rank", att t_int SD);
        ("pr_rank", att t_int SD);
        ("moving_time", CDescr (TimeIntervalAttribute SD));
        ("elapsed_time", CDescr (TimeIntervalAttribute SD));
        ("start_date", CDescr (TimestampAttribute SD));
        ("start_date_local", CDescr (TimestampAttribute SD));
        ("distance", attu t_int SD meters) ]
  | BestEffort => []
  | SegmentEffort =>
      [ ("start_index", att t_int SD);
        ("end_index", att t_int SD) ]
  | Activity =>
      [ ("guid", att t_str SD);
        ("external_id", att t_str SD);
        ("upload_id", att t_str SD);
        ("athlete", CNone);
        ("name", att t_str SD);
        ("distance", attu t_float SD meters);
        ("moving_time", CDescr (TimeIntervalAttribute SD));
        ("elapsed_time", CDescr (TimeIntervalAttribute SD));
        ("total_elevation_gain", attu t_float SD meters);
        ("type", att t_str SD);
        ("start_date", CDescr (TimestampAttribute SD));
        ("start_date_local", CDescr (TimestampAttribute SD));
        ("timezone", CDescr (TimezoneAttribute SD));
        ("start_latlng", CDescr (LocationAttribute SD));
        ("end_latlng", CDescr (LocationAttribute SD));
        ("location_city", att_comma t_str SD);
        ("location_state", att_comma t_str SD);
        ("start_latitude", att_comma t_float SD);
        ("start_longitude", att_comma t_float SD);
        ("achievement_count", att_comma t_int SD);
        ("kudos_count", att_comma t_int SD);
        ("comment_count", att_comma t_int SD);
        ("athlete_count", att_comma t_int SD);
        ("photo_count", att_comma t_int SD);
        ("map", CDescr (EntityAttribute (ByClass Map) SD));
        ("trainer", att t_bool SD);
        ("commute", att t_bool SD);
        ("manual", att t_bool SD);
        ("private", att t_bool SD);
        ("flagged", att t_bool SD);
        ("_gear", CNone);
        ("gear_id", att t_str SD);
        ("average_speed", att t_float SD);
        ("max_speed", att t_float SD);
        ("calories", att t_float SD);
        ("truncated", att t_int SD);
        ("has_kudoed", att t_bool SD);
        ("segment_efforts", CDescr (EntityCollection (ByClass SegmentEffort) D));
        ("splits_metric", CDescr (EntityCollection (ByClass MetricSplit) D));
        ("splits_standard", CDescr (EntityCollection (ByClass StandardSplit) D));
        ("best_efforts", CDescr (EntityCollection (ByClass BestEffort) D));
        ("gear", CProperty p_gear) ]
  | SegmentLeaderboard => []
  | DistributionBucket =>
      [ ("max", att0 t_int);
        ("min", att0 t_int);
        ("time", attu0 t_int seconds) ]
  | BaseActivityZone =>
      [ ("distribution_buckets",
         CDescr (EntityCollection (ByClass DistributionBucket) SD));
        ("type", att t_str SD);
        ("sensor_based", att t_bool SD) ]
  | HeartrateActivityZone =>
      [ ("score", att t_int SD);
        ("points", att t_int SD);
        ("custom_zones", att t_bool SD);
        ("max", att t_int SD) ]
  | PowerActivityZone =>
      [ ("bike_weight", attu t_float SD kgs);
        ("athlete_weight", attu t_float SD kgs) ]
  end.

(** The base classes, in the order of the [class] statement. *)
Definition bases (c : class_name) : list class_name :=
  match c with
  | BaseEntity => []
  | ResourceStateEntity => [BaseEntity]
  | IdentifiableEntity => [ResourceStateEntity]
  | BoundEntity => [BaseEntity]
  | LoadableEntity => [BoundEntity; IdentifiableEntity]
  | Club | Athlete | ActivityComment | Segment | BaseEffort | Activity
  | BaseActivityZone => [LoadableEntity]
  | Bike | Shoe | Map => [IdentifiableEntity]
  | BaseSplit | DistributionBucket => [BaseEntity]
  | MetricSplit | StandardSplit => [BaseSplit]
  | BestEffort | SegmentEffort => [BaseEffort]
  | SegmentLeaderboard => [BoundEntity]
  | HeartrateActivityZone | PowerActivityZone => [BaseActivityZone]
  end.

(** Method resolution order (C3 linearisation of [bases]; [object] is left
    out).  Only [LoadableEntity] has two bases, and its linearisation puts
    [BoundEntity] before [IdentifiableEntity] and [BaseEntity] last. *)
Definition mro_LoadableEntity : list class_name :=
  [LoadableEntity; BoundEntity; IdentifiableEntity; ResourceStateEntity;
   BaseEntity].
Definition mro_IdentifiableEntity : list class_name :=
  [IdentifiableEntity; ResourceStateEntity; BaseEntity].

Definition mro (c : class_name) : list class_name :=
  match c with
  | BaseEntity => [BaseEntity]
  | ResourceStateEntity => [ResourceStateEntity; BaseEntity]
  | IdentifiableEntity => mro_IdentifiableEntity
  | BoundEntity => [BoundEntity; BaseEntity]
  | LoadableEntity => mro_LoadableEntity
  | Club | Athlete | ActivityComment | Segment | BaseEffort | Activity
  | BaseActivityZone => c :: mro_LoadableEntity
  | Bike | Shoe | Map => c :: mro_IdentifiableEntity
  | BaseSplit | DistributionBucket => [c; BaseEntity]
  | MetricSplit | StandardSplit => [c; BaseSplit; BaseEntity]
  | BestEffort | SegmentEffort => c :: BaseEffort :: mro_LoadableEntity
  | SegmentLeaderboard => [SegmentLeaderboard; BoundEntity; BaseEntity]
  | HeartrateActivityZone | PowerActivityZone =>
      c :: BaseActivityZone :: mro_LoadableEntity
  end.

(** First binding of [k] in an association list. *)
Fixpoint assoc {A : Type} (k : string) (l : list (string * A)) : option A :=
  match l with
  | [] => None
  | (k', a) :: l' => if String.eqb k k' then Some a else assoc k l'
  end.

Fixpoint lookup_in (cs : list class_name) (k : string) : option class_attr :=
  match cs with
  | [] => None
  | c :: cs' =>
      match assoc k (own_attrs c) with
      | Some a => Some a
      | None => lookup_in cs' k
      end
  end.

(** The binding a class gives to a name: the first class of the MRO whose
    body binds it. *)
Definition class_lookup (c : class_name) (k : string) : option class_attr :=
  lookup_in (mro c) k.

(** The class statement of [c], or that of a base, binds [k]. *)
Definition declares (c : class_name) (k : string) : bool :=
  match class_lookup c k with Some _ => true | None => false end.

(** The names that every class of the module has without binding them:
    the attributes of [object], the three names that a class statement
    adds ([__dict__], [__module__], [__weakref__]), and the attributes
    of [type], which a class shows as its own.  The list is that of
    CPython 3.11.  It leaves out [__abstractmethods__], whose lookup
    fails on a class without abstract methods.  Other versions of the
    interpreter differ from it by a few names, and so does a class whose
    [__metaclass__] line takes effect; all of these names fall under
    [reserved] below. *)
Definition object_names : list string :=
  [ "__class__"; "__delattr__"; "__dir__"; "__doc__"; "__eq__"; "__format__";
    "__ge__"; "__getattribute__"; "__getstate__"; "__gt__"; "__hash__";
    "__init__"; "__init_subclass__"; "__le__"; "__lt__"; "__ne__"; "__new__";
    "__reduce__"; "__reduce_ex__"; "__repr__"; "__setattr__"; "__sizeof__";
    "__str__"; "__subclasshook__";
    "__dict__"; "__module__"; "__weakref__";
    "__annotations__"; "__base__"; "__bases__"; "__basicsize__"; "__call__";
    "__dictoffset__"; "__flags__"; "__instancecheck__"; "__itemsize__";
    "__mro__"; "__name__"; "__or__"; "__prepare__"; "__qualname__";
    "__ror__"; "__subclasscheck__"; "__subclasses__"; "__text_signature__";
    "__weakrefoffset__"; "mro" ].

Definition is_object_name (k : string) : bool :=
  existsb (String.eqb k) object_names.

(** [hasattr(self.__class__, k)]: the class has the names it binds and
    the names it has from [object] and [type]. *)
Definition hasattr_class (c : class_name) (k : string) : bool :=
  declares c k || is_object_name k.

(** The object a class body binds to a name. *)
Definition class_value (k : string) (a : class_attr) : value :=
  match a with
  | CDescr d => VDescr d
  | CTuple d => VTuple [VDescr d]
  | CNone => VNone
  | CProperty p => VProperty p
  | CMethod owner => VFunction owner k
  | CMeta => VMetaclass
  end.

(** ** Exceptions, log records, client calls *)

Inductive exn : Type :=
| AttributeError
| TypeError
| ValueError
| UnboundEntity
| NotImplementedError
| ClientError (code : Z).          (* raised inside the fetch client *)

Inductive outcome (A : Type) : Type :=
| Return (a : A)
| Raise (e : exn).
Arguments Return {A} a.
Arguments Raise {A} e.

(** [self.log.debug("Setting attribute k ... with value v")] and
    [self.log.warning("No such attribute k ...")]. *)
Inductive event : Type :=
| LogDebug (logger : value) (k : string) (v : value)
| LogWarning (logger : value) (k : string).

(** A call [client.method(arg)]. *)
Record call : Type := Call { c_client : nat; c_method : string; c_arg : value }.

(** ** The monad of the methods

    A method runs on the instance it is called on and may mutate it; it
    appends to the log and to the trace of client calls; it returns or
    raises.  The state reached when an exception is raised is kept: Python
    does not undo the assignments made before the exception. *)

Record state : Type := State {
  self : instance;
  log : list event;
  trace : list call
}.

Definition M (A : Type) : Type := state -> outcome A * state.

#[global] Instance M_ret : MRet M := fun A a st => (Return a, st).
#[global] Instance M_bind : MBind M := fun A B f m st =>
  match m st with
  | (Return a, st') => f a st'
  | (Raise e, st') => (Raise e, st')
  end.

Definition raise {A : Type} (e : exn) : M A := fun st => (Raise e, st).
Definition get_self : M instance := fun st => (Return (self st), st).
Definition put_self (o : instance) : M unit :=
  fun st => (Return tt, State o (log st) (trace st)).
Definition emit (evs : list event) : M unit :=
  fun st => (Return tt, State (self st) (log st ++ evs) (trace st)).
Definition lift {A : Type} (r : outcome A) : M A := fun st => (r, st).

(** ** Attribute access *)

(** Modelled from the spec: the read access of the descriptors of
    [stravalib.attributes], which is not among the sources at hand.  A
    descriptor answers with the converted value it holds for the
    instance, and with [None] when the field was never set. *)
Definition descriptor_get (o : instance) (k : string) : value :=
  default VNone (slots o !! k).

(** [o.k] for a name that is not bound to a property (the names that the
    methods of the module read are of this kind, lemma
    [method_reads_are_plain]; [getattr] below covers the properties): a
    descriptor of the class answers; otherwise the instance dictionary is
    read before the class binding; a name bound nowhere raises
    [AttributeError].  Of [object_names] the module reads only
    [__class__] on an instance, which is [cls]; what [object] itself
    would answer for such a name is not part of this function. *)
Definition read_attr (o : instance) (k : string) : outcome value :=
  match class_lookup (cls o) k with
  | Some (CDescr _) => Return (descriptor_get o k)
  | Some a => Return (default (class_value k a) (dict o !! k))
  | None =>
      match dict o !! k with
      | Some v => Return v
      | None => Raise AttributeError
      end
  end.

Definition load (k : string) : M value :=
  o ← get_self; lift (read_attr o k).

(** Modelled from the spec: the client that a descriptor of
    [stravalib.attributes] passes to the entities nested in an entity is
    the client of that owning entity ([None] when it has none). *)
Definition owner_client (o : instance) : value :=
  match read_attr o "bind_client" with
  | Return v => v
  | Raise _ => VNone
  end.

Section Entities.

(** The store-time conversion of the descriptors: the descriptor, the
    owning entity's client and the raw value give the value to store, or
    an exception, and the log records of the nested populations. *)
Variable unmarshal : descriptor -> value -> value -> list event * outcome value.

(** The fetch client: its answer to a call, given the calls made before. *)
Variable respond : list call -> call -> outcome value.

(** Modelled from the spec: the write access of the descriptors of
    [stravalib.attributes], which is not among the sources at hand.  The
    raw value goes through the store-time conversion of the descriptor,
    and the converted value is kept for the instance; a conversion that
    raises keeps nothing. *)
Definition descriptor_set (d : descriptor) (k : string) (v : value) : M unit :=
  o ← get_self;
  let '(evs, r) := unmarshal d (owner_client o) v in
  emit evs;;
  v' ← lift r;
  put_self (set_slot o k v').

(** [setattr(self, k, v)]: a descriptor of the class takes the value; a
    property has no setter; any other name that the class binds goes to
    the instance dictionary.  Of the names that the class does not bind,
    three belong to data descriptors of [object]: [__class__] takes a
    class of the same layout only, which no value here is; [__dict__]
    takes a mapping, which becomes the instance dictionary; [__weakref__]
    cannot be written.  Every other name goes to the instance
    dictionary. *)
Definition setattr (k : string) (v : value) : M unit :=
  o ← get_self;
  match class_lookup (cls o) k with
  | Some (CDescr d) => descriptor_set d k v
  | Some (CProperty _) => raise AttributeError
  | Some _ => put_self (set_dict o k v)
  | None =>
      if String.eqb k "__class__" then raise TypeError
      else if String.eqb k "__dict__" then
        match v with
        | VDict kvs => put_self (Instance (cls o) (list_to_map kvs) (slots o))
        | _ => raise TypeError
        end
      else if String.eqb k "__weakref__" then raise AttributeError
      else put_self (set_dict o k v)
  end.

(** The two calls of the logger in [from_dict]: [self.log] is read, and
    only a logger has the methods [debug] and [warning].  The record
    keeps the logger, the key and the value; the text of the message is
    not kept. *)
Definition log_debug (k : string) (v : value) : M unit :=
  l ← load "log";
  match l with
  | VLogger _ => emit [LogDebug l k v]
  | _ => raise AttributeError
  end.
Definition log_warning (k : string) : M unit :=
  l ← load "log";
  match l with
  | VLogger _ => emit [LogWarning l k]
  | _ => raise AttributeError
  end.

(** [BaseEntity.from_dict]: the loop over [d.items()]. *)
Fixpoint from_dict_items (items : list (string * value)) : M unit :=
  match items with
  | [] => mret tt
  | (k, v) :: rest =>
      o ← get_self;
      (if hasattr_class (cls o) k
       then log_debug k v;; setattr k v
       else log_warning k);;
      from_dict_items rest
  end.

Definition from_dict (d : value) : M unit :=
  match d with
  | VDict items => from_dict_items items
  | _ => raise AttributeError          (* d.items() *)
  end.

(** [BaseEntity.__init__(self, **kwargs)].  No class binds [log], so the
    assignment [self.log = ...] writes the instance dictionary (lemma
    [init_assignments_plain] below).  When [self.from_dict] is looked up,
    the instance dictionary holds [log] and at most [bind_client], so the
    method of the class is what is called. *)
Definition BaseEntity_init (kwargs : list (string * value)) : M unit :=
  o ← get_self;
  put_self (set_dict o "log" (VLogger (cls o)));;
  from_dict (VDict kwargs).

(** [BoundEntity.__init__(self, bind_client=None, **kwargs)].  The class
    binding of [bind_client] is the plain value [None], so the assignment
    [self.bind_client = bind_client] writes the instance dictionary. *)
Definition BoundEntity_init (bind_client : value)
    (kwargs : list (string * value)) : M unit :=
  o ← get_self;
  put_self (set_dict o "bind_client" bind_client);;
  BaseEntity_init kwargs.

(** The classes below [BoundEntity].  They inherit its [__init__] and its
    [deserialize]; every other class inherits those of [BaseEntity] (lemma
    [bound_dispatch] below). *)
Definition is_bound (c : class_name) : bool :=
  bool_decide (BoundEntity ∈ mro c).

(** Instantiating the class with keyword arguments [args]: a new object,
    initialised by the [__init__] the class inherits.  Both initialisers
    name their first parameter [self], so a keyword of that name is a
    [TypeError] when the arguments are bound; [BoundEntity]'s takes the
    keyword [bind_client] for itself. *)
Definition construct (c : class_name) (args : list (string * value)) : M unit :=
  put_self (Instance c ∅ ∅);;
  match assoc "self" args with
  | Some _ => raise TypeError
  | None =>
      if is_bound c
      then BoundEntity_init (default VNone (assoc "bind_client" args))
             (filter (fun kv => kv.1 ≠ "bind_client") args)
      else BaseEntity_init args
  end.

(** [cls.deserialize(v)] of [BaseEntity], which builds [cls()], and
    [cls.deserialize(v, bind_client)] of [BoundEntity], which builds
    [cls(bind_client=bind_client)]; then [o.from_dict(v)].
    [bind_client] is the optional second argument of the call.  Below
    [BoundEntity] it defaults to [None].  The class method of
    [BaseEntity] has no such parameter: a second argument is a
    [TypeError], raised before anything is built. *)
Definition deserialize (c : class_name) (v : value)
    (bind_client : option value) : M unit :=
  if is_bound c then
    put_self (Instance c ∅ ∅);;
    BoundEntity_init (default VNone bind_client) [];;
    from_dict v
  else
    match bind_client with
    | Some _ => raise TypeError
    | None =>
        put_self (Instance c ∅ ∅);;
        BaseEntity_init [];;
        from_dict v
    end.

(** A method call on the bound client.  Only a client object has the
    fetch methods; the call is recorded and answered by the client. *)
Definition call_client (recv : value) (method : string) (arg : value) : M value :=
  match recv with
  | VClient c => fun st =>
      let q := Call c method arg in
      (respond (trace st) q, State (self st) (log st) (trace st ++ [q]))
  | _ => raise AttributeError
  end.

(** [BoundEntity.assert_bind_client]. *)
Definition assert_bind_client : M unit :=
  bc ← load "bind_client";
  if is_none bc then raise UnboundEntity else mret tt.

(** [LoadableEntity.hydrate]: the statements after the unconditional
    [raise NotImplementedError()] are never reached. *)
Definition hydrate : M unit :=
  bc ← load "bind_client";
  if negb (truthy bc) then raise UnboundEntity
  else raise NotImplementedError.

(** The call [self.assert_bind_client()] in the getters.  The name is
    looked up on the instance before the class, whose binding is a plain
    function; none of the values that an instance dictionary holds here
    can be called without arguments. *)
Definition call_assert_bind_client : M unit :=
  o ← get_self;
  match dict o !! "assert_bind_client" with
  | Some _ => raise TypeError
  | None => assert_bind_client
  end.

(** The getter of [Club.members]. *)
Definition Club_members : M value :=
  m ← load "_members";
  (if is_none m then
     call_assert_bind_client;;
     bc ← load "bind_client";
     i ← load "id";
     r ← call_client bc "get_club_members" i;
     setattr "_members" r
   else mret tt);;
  load "_members".

(** The getter of [Club.activities]. *)
Definition Club_activities : M value :=
  m ← load "_activities";
  (if is_none m then
     call_assert_bind_client;;
     bc ← load "bind_client";
     i ← load "id";
     r ← call_client bc "get_club_activities" i;
     setattr "_activities" r
   else mret tt);;
  load "_activities".

(** The getter of [Activity.gear]. *)
Definition Activity_gear : M value :=
  g ← load "_gear";
  (if is_none g then
     call_assert_bind_client;;
     gid ← load "gear_id";
     if is_none gid then mret tt
     else
       bc ← load "bind_client";
       gid' ← load "gear_id";
       r ← call_client bc "get_gear" gid';
       setattr "_gear" r
   else mret tt);;
  load "_gear".

Definition property_get (p : property_name) : M value :=
  match p with
  | p_members => Club_members
  | p_activities => Club_activities
  | p_gear => Activity_gear
  end.

(** [getattr(self, k)] in full: a property runs its getter, any other
    name is read as [read_attr] reads it. *)
Definition getattr (k : string) : M value :=
  o ← get_self;
  match class_lookup (cls o) k with
  | Some (CProperty p) => property_get p
  | _ => load k
  end.

End Entities.

(** ** The entity descriptors *)

(** The classes by name, as the module's namespace binds them. *)
Definition class_named (s : string) : option class_name :=
  assoc s
    [ ("BaseEntity", BaseEntity); ("ResourceStateEntity", ResourceStateEntity);
      ("IdentifiableEntity", IdentifiableEntity); ("BoundEntity", BoundEntity);
      ("LoadableEntity", LoadableEntity); ("Club", Club); ("Bike", Bike);
      ("Shoe", Shoe); ("Athlete", Athlete);
      ("ActivityComment", ActivityComment); ("Map", Map);
      ("BaseSplit", BaseSplit); ("MetricSplit", MetricSplit);
      ("StandardSplit", StandardSplit); ("Segment", Segment);
      ("BaseEffort", BaseEffort); ("BestEffort", BestEffort);
      ("SegmentEffort", SegmentEffort); ("Activity", Activity);
      ("SegmentLeaderboard", SegmentLeaderboard);
      ("DistributionBucket", DistributionBucket);
      ("BaseActivityZone", BaseActivityZone);
      ("HeartrateActivityZone", HeartrateActivityZone);
      ("PowerActivityZone", PowerActivityZone) ].

(** Modelled from the spec: the resolution of an entity reference, which
    [stravalib.attributes] performs and which is not among the sources at
    hand.  A class object is the type itself; a name is looked up among
    the module's classes when the descriptor is used, not when it is
    declared. *)
Definition resolve (r : entity_ref) : option class_name :=
  match r with
  | ByClass c => Some c
  | ByName s => class_named s
  end.

(** Runs a population on a new object and gives the log it wrote and the
    entity it built. *)
Definition build (m : M unit) (c : class_name) : list event * outcome value :=
  match m (State (Instance c ∅ ∅) [] []) with
  | (Return _, st) => (log st, Return (VEntity (self st)))
  | (Raise e, st) => (log st, Raise e)
  end.

Section Descriptors.

(** The conversions this file does not model: the scalar, timestamp,
    interval, location and timezone descriptors of [stravalib.attributes],
    and the entity descriptors on raw values that are not mappings or
    sequences. *)
Variable other : descriptor -> value -> value -> outcome value.

(** Modelled from the spec: the store-time conversion of
    [EntityAttribute] and [EntityCollection], which [stravalib.attributes]
    defines and which is not among the sources at hand.  A nested mapping
    is deserialized with the referenced entity type and, where that type
    takes a client, the owning entity's client; a sequence is
    deserialized element by element, in order; [None] for a collection
    gives the empty sequence. *)
Fixpoint unmarshal (d : descriptor) (bc : value) (v : value) {struct v}
  : list event * outcome value :=
  match d with
  | EntityAttribute r _ =>
      match v with
      | VDict _ =>
          match resolve r with
          | Some c =>
              build (deserialize unmarshal c v
                       (if is_bound c then Some bc else None)) c
          | None => ([], Raise AttributeError)
          end
      | _ => ([], other d bc v)
      end
  | EntityCollection r s =>
      match v with
      | VNone => ([], Return (VList []))
      | VList xs =>
          let each :=
            fix each (xs : list value) : list event * outcome (list value) :=
              match xs with
              | [] => ([], Return [])
              | x :: xs' =>
                  match unmarshal (EntityAttribute r s) bc x with
                  | (evs, Return e) =>
                      match each xs' with
                      | (evs', Return es) => (evs ++ evs', Return (e :: es))
                      | (evs', Raise ex) => (evs ++ evs', Raise ex)
                      end
                  | (evs, Raise ex) => (evs, Raise ex)
                  end
              end in
          match each xs with
          | (evs, Return es) => (evs, Return (VList es))
          | (evs, Raise ex) => (evs, Raise ex)
          end
      | _ => ([], other d bc v)
      end
  | _ => ([], other d bc v)
  end.

End Descriptors.

(** ** Auxiliary definitions for the statements *)

(** The value that the assignment [o.k = v] keeps, or the exception it
    raises. *)
Definition stored_form (u : descriptor -> value -> value -> list event * outcome value)
    (o : instance) (k : string) (v : value) : outcome value :=
  match class_lookup (cls o) k with
  | Some (CDescr d) => (u d (owner_client o) v).2
  | Some (CProperty _) => Raise AttributeError
  | Some _ => Return v
  | None =>
      if String.eqb k "__class__" then Raise TypeError
      else if String.eqb k "__dict__" then
        match v with VDict _ => Return v | _ => Raise TypeError end
      else if String.eqb k "__weakref__" then Raise AttributeError
      else Return v
  end.

(** The instance after the assignment [o.k = v], when it keeps [w]. *)
Definition assign (o : instance) (k : string) (w : value) : instance :=
  match class_lookup (cls o) k with
  | Some (CDescr _) => set_slot o k w
  | Some _ => set_dict o k w
  | None =>
      if String.eqb k "__dict__" then
        match w with
        | VDict kvs => Instance (cls o) (list_to_map kvs) (slots o)
        | _ => o
        end
      else set_dict o k w
  end.

(** The log records that the conversion of [v] for [o.k] writes. *)
Definition nested_log (u : descriptor -> value -> value -> list event * outcome value)
    (o : instance) (k : string) (v : value) : list event :=
  match class_lookup (cls o) k with
  | Some (CDescr d) => (u d (owner_client o) v).1
  | _ => []
  end.

(** The object that [cls()] and [cls(bind_client=bc)] build: its
    dictionary holds the logger and, below [BoundEntity], the client,
    which is [None] when none is given. *)
Definition fresh (c : class_name) (bc : option value) : instance :=
  if is_bound c
  then Instance c (<["log" := VLogger c]>
                     (<["bind_client" := default VNone bc]> ∅)) ∅
  else Instance c (<["log" := VLogger c]> ∅) ∅.

(** The keys of a mapping. *)
Definition keys (items : list (string * value)) : list string := items.*1.

(** The state in which [deserialize] starts [from_dict]: the new object,
    the log and the trace as they were. *)
Definition start (c : class_name) (bc : option value) (st : state) : state :=
  State (fresh c bc) (log st) (trace st).

(** A call of [deserialize] that the class accepts: the classes outside
    [BoundEntity] take no client. *)
Definition accepts (c : class_name) (bc : option value) : bool :=
  is_bound c || match bc with None => true | Some _ => false end.

(** The names that are no field names of the API: those that begin with
    two underscores, among them every double-underscore name that a
    class has from [object], from [type] or from its own statement,
    whatever the version of the interpreter; and the other names that a
    class has from [type] ([mro]) and, where it is the metaclass, from
    [abc.ABCMeta]. *)
Definition reserved (k : string) : bool :=
  String.prefix "__" k || String.prefix "_abc_" k
  || existsb (String.eqb k) ["mro"; "register"; "_dump_registry"].

(** A payload whose keys are field names. *)
Definition api_keys (items : list (string * value)) : Prop :=
  Forall (fun kv => reserved kv.1 = false) items.

(** The kinds of value that a decoded JSON document is made of. *)
Definition is_json (v : value) : bool :=
  match v with
  | VNone | VBool _ | VInt _ | VFloat _ | VStr _ | VList _ | VDict _ => true
  | _ => false
  end.

(** A key that [from_dict] handles by a binding of the class or not at
    all: either the class binds it, or it is none of [object_names]. *)
Definition ordinary (c : class_name) (k : string) : bool :=
  declares c k || negb (is_object_name k).

(** The part of a payload whose keys the class has. *)
Definition declared_part (c : class_name) (items : list (string * value))
  : list (string * value) :=
  List.filter (fun kv => hasattr_class c kv.1) items.

(** The nine names that [Activity] binds with a trailing comma. *)
Definition comma_names : list string :=
  [ "location_city"; "location_state"; "start_latitude"; "start_longitude";
    "achievement_count"; "kudos_count"; "comment_count"; "athlete_count";
    "photo_count" ].

(** [n] successive evaluations of a getter, with their results. *)
Fixpoint accesses (get : M value) (n : nat) : M (list value) :=
  match n with
  | O => mret []
  | S n' => v ← get; vs ← accesses get n'; mret (v :: vs)
  end.

(** A name that is bound neither to a descriptor nor to a property, and
    is none of the three names that [object] keeps for itself, is kept
    in the instance dictionary and read back from it. *)
Definition plain_name (c : class_name) (k : string) : Prop :=
  match class_lookup c k with
  | Some (CDescr _) | Some (CProperty _) => False
  | Some _ => True
  | None => k ∉ ["__class__"; "__dict__"; "__weakref__"]
  end.

(** The three relations, as their getters name things: the property, the
    class that defines it, the instance attribute used as cache, the
    fetch method of the client, and the attribute passed to it. *)
Definition name_of (p : property_name) : string :=
  match p with
  | p_members => "members" | p_activities => "activities" | p_gear => "gear"
  end.
Definition owner_of (p : property_name) : class_name :=
  match p with p_members | p_activities => Club | p_gear => Activity end.
Definition cache_of (p : property_name) : string :=
  match p with
  | p_members => "_members" | p_activities => "_activities" | p_gear => "_gear"
  end.
Definition fetch_of (p : property_name) : string :=
  match p with
  | p_members => "get_club_members"
  | p_activities => "get_club_activities"
  | p_gear => "get_gear"
  end.
Definition key_of (p : property_name) : string :=
  match p with p_members | p_activities => "id" | p_gear => "gear_id" end.

(** What one round of the loop of [from_dict] makes of the object, when
    the round does not raise. *)
Definition item_result
    (u : descriptor -> value -> value -> list event * outcome value)
    (k : string) (v : value) (o : instance) : option instance :=
  if hasattr_class (cls o) k
  then match stored_form u o k v with
       | Return w => Some (assign o k w)
       | Raise _ => None
       end
  else Some o.

(** [cls.__name__]. *)
Definition class_str (c : class_name) : string :=
  match c with
  | BaseEntity => "BaseEntity"
  | ResourceStateEntity => "ResourceStateEntity"
  | IdentifiableEntity => "IdentifiableEntity"
  | BoundEntity => "BoundEntity"
  | LoadableEntity => "LoadableEntity"
  | Club => "Club"
  | Bike => "Bike"
  | Shoe => "Shoe"
  | Athlete => "Athlete"
  | ActivityComment => "ActivityComment"
  | Map => "Map"
  | BaseSplit => "BaseSplit"
  | MetricSplit => "MetricSplit"
  | StandardSplit => "StandardSplit"
  | Segment => "Segment"
  | BaseEffort => "BaseEffort"
  | BestEffort => "BestEffort"
  | SegmentEffort => "SegmentEffort"
  | Activity => "Activity"
  | SegmentLeaderboard => "SegmentLeaderboard"
  | DistributionBucket => "DistributionBucket"
  | BaseActivityZone => "BaseActivityZone"
  | HeartrateActivityZone => "HeartrateActivityZone"
  | PowerActivityZone => "PowerActivityZone"
  end.

Section Repr.

Variable unmarshal : descriptor -> value -> value -> list event * outcome value.
Variable respond : list call -> call -> outcome value.

(** Python's [str] and [repr] of a value, as ['{0}'.format(x)] and
    ['{0!r}'.format(x)] apply them; either may raise. *)
Variable py_str py_repr : value -> outcome string.

(** [BaseEntity.__repr__]. *)
Definition BaseEntity_repr : M string :=
  o ← get_self;
  attrs1 ←
    (if hasattr_class (cls o) "id"
     then x ← getattr unmarshal respond "id"; s ← lift (py_str x);
          mret ["id=" +:+ s]
     else mret []);
  attrs2 ←
    (if hasattr_class (cls o) "name"
     then x ← getattr unmarshal respond "name"; s ← lift (py_repr x);
          mret (attrs1 ++ ["name=" +:+ s])
     else mret attrs1);
  attrs3 ←
    (if hasattr_class (cls o) "resource_state"
     then x ← getattr unmarshal respond "resource_state"; s ← lift (py_str x);
          mret (attrs2 ++ ["resource_state=" +:+ s])
     else mret attrs2);
  mret ("<" +:+ class_str (cls o) +:+ " " +:+ String.concat " " attrs3 +:+ ">").

End Repr.

(** ** The instance at which the examples are run *)

Definition has_prim (t : prim) (v : value) : bool :=
  match t, v with
  | t_int, VInt _ | t_float, VFloat _ | t_str, VStr _ | t_bool, VBool _ => true
  | _, _ => false
  end.

(** Modelled from the spec: the conversion of the scalar descriptors of
    [stravalib.attributes], which is not among the sources at hand, on
    the raw values whose result the spec fixes without parsing: a value
    that already has the declared primitive type is kept as it is and
    tagged with the declared unit, and integer seconds become a quantity
    in seconds.  Every other raw value is outside this fragment and is
    rejected here. *)
Definition typed_scalars (d : descriptor) (bc v : value) : outcome value :=
  match d with
  | Attribute t _ units =>
      if has_prim t v
      then Return (match units with Some x => VQuantity v x | None => v end)
      else Raise ValueError
  | TimeIntervalAttribute _ =>
      match v with
      | VInt _ => Return (VQuantity v seconds)
      | _ => Raise ValueError
      end
  | _ => Raise ValueError
  end.

(** The payload [[{"id": 1, "name": "Alice"}]] and a stub client whose
    [get_club_members] returns it. *)
Definition alice : list (string * value) :=
  [("id", VInt 1); ("name", VStr "Alice")].
Definition alice_client (before : list call) (q : call) : outcome value :=
  if String.eqb (c_method q) "get_club_members"
  then Return (VList [VDict alice])
  else Raise (ClientError 404).

(** A stub client that has one bike and nothing else. *)
Definition bike_client (before : list call) (q : call) : outcome value :=
  if String.eqb (c_method q) "get_gear"
  then Return (VDict [("id", VStr "b77"); ("name", VStr "Tarmac")])
  else Raise (ClientError 404).

(** A stub client that knows no gear: [get_gear] returns [None]. *)
Definition no_gear_client (before : list call) (q : call) : outcome value :=
  Return VNone.

(** A stub client whose first call fails and whose later calls return a
    bike. *)
Definition flaky_client (before : list call) (q : call) : outcome value :=
  match before with
  | [] => Raise (ClientError 503)
  | _ => Return (VDict [("id", VStr "b77"); ("name", VStr "Tarmac")])
  end.

(** Python's [str] and [repr] on the values that the examples format:
    [None], integers, and strings of plain letters.  Other values are not
    formatted in the examples and are rejected here. *)
Definition example_str (v : value) : outcome string :=
  match v with
  | VNone => Return "None"
  | VInt n => Return (pretty n)
  | VStr s => Return s
  | _ => Raise TypeError
  end.
Definition example_repr (v : value) : outcome string :=
  match v with
  | VNone => Return "None"
  | VInt n => Return (pretty n)
  | VStr s => Return ("'" +:+ s +:+ "'")
  | _ => Raise TypeError
  end.

Definition st0 : state := State (Instance BaseEntity ∅ ∅) [] [].

(** ** Running the computations *)

Lemma bind_run {A B : Type} (m : M A) (f : A -> M B) (st : state) :
  (m ≫= f) st =
  match m st with
  | (Return a, st') => f a st'
  | (Raise e, st') => (Raise e, st')
  end.
Proof. reflexivity. Qed.

Lemma load_run (k : string) (st : state) :
  load k st = (read_attr (self st) k, st).
Proof. reflexivity. Qed.

Lemma class_never_binds_log (c : class_name) : class_lookup c "log" = None.
Proof. destruct c; reflexivity. Qed.

Lemma read_log (o : instance) (l : value) :
  dict o !! "log" = Some l -> read_attr o "log" = Return l.
Proof.
  intros H. unfold read_attr, descriptor_get.
  rewrite class_never_binds_log, H. reflexivity.
Qed.

(** ** What a class has *)

Lemma declares_true (c : class_name) (k : string) :
  declares c k = true <-> is_Some (class_lookup c k).
Proof.
  unfold declares. destruct (class_lookup c k); split; intros H;
    try reflexivity; try discriminate; eauto.
  destruct H as [? H]; discriminate.
Qed.

Lemma declares_false (c : class_name) (k : string) :
  declares c k = false <-> class_lookup c k = None.
Proof.
  unfold declares. destruct (class_lookup c k); split; intros H;
    try reflexivity; discriminate.
Qed.

Lemma hasattr_declares (c : class_name) (k : string) :
  declares c k = true -> hasattr_class c k = true.
Proof. intros H. unfold hasattr_class. rewrite H. reflexivity. Qed.

(** On an ordinary key, the test of [from_dict] is whether the class
    binds the key. *)
Lemma hasattr_ordinary (c : class_name) (k : string) :
  ordinary c k = true -> hasattr_class c k = declares c k.
Proof.
  unfold ordinary, hasattr_class.
  destruct (declares c k), (is_object_name k); first [reflexivity|discriminate].
Qed.

Lemma declares_ordinary (c : class_name) (k : string) :
  declares c k = true -> ordinary c k = true.
Proof. intros H. unfold ordinary. rewrite H. reflexivity. Qed.

(** The names of [object] and [type] are all reserved. *)
Lemma object_names_reserved (k : string) :
  is_object_name k = true -> reserved k = true.
Proof.
  unfold is_object_name. intros H.
  apply existsb_exists in H as (n & Hin & Hn).
  apply String.eqb_eq in Hn as ->.
  assert (Hall : forallb reserved object_names = true) by reflexivity.
  rewrite forallb_forall in Hall. apply Hall, Hin.
Qed.

Lemma reserved_ordinary (c : class_name) (k : string) :
  reserved k = false -> ordinary c k = true.
Proof.
  intros H. unfold ordinary.
  destruct (is_object_name k) eqn:Ho.
  - apply object_names_reserved in Ho. congruence.
  - apply orb_true_r.
Qed.

Lemma api_keys_ordinary (c : class_name) (items : list (string * value)) :
  api_keys items -> Forall (fun kv => ordinary c kv.1 = true) items.
Proof.
  unfold api_keys. intros H. eapply list.Forall_impl; [exact H|].
  intros kv. apply reserved_ordinary.
Qed.

Lemma hasattr_not_log (c : class_name) (k : string) :
  hasattr_class c k = true -> k <> "log".
Proof.
  intros H ->. destruct c; discriminate H.
Qed.

Lemma declares_not_dict (c : class_name) (k : string) :
  declares c k = true -> k <> "__dict__".
Proof.
  intros H ->. destruct c; discriminate H.
Qed.

(** ** Assignments *)

Lemma cls_assign (o : instance) (k : string) (w : value) :
  cls (assign o k w) = cls o.
Proof.
  unfold assign. destruct (class_lookup (cls o) k) as [[]|]; try reflexivity.
  destruct (String.eqb k "__dict__"); [destruct w|]; reflexivity.
Qed.

Lemma dict_assign_ne (o : instance) (k n : string) (w : value) :
  k <> n -> k <> "__dict__" -> dict (assign o k w) !! n = dict o !! n.
Proof.
  intros H Hd. unfold assign.
  destruct (class_lookup (cls o) k) as [[]|]; cbn;
    rewrite ?lookup_insert_ne by exact H; try reflexivity.
  destruct (String.eqb_spec k "__dict__") as [E|_]; [contradiction|].
  cbn. rewrite lookup_insert_ne by exact H. reflexivity.
Qed.

Lemma slots_assign_ne (o : instance) (k n : string) (w : value) :
  k <> n -> slots (assign o k w) !! n = slots o !! n.
Proof.
  intros H. unfold assign.
  destruct (class_lookup (cls o) k) as [[]|]; cbn;
    rewrite ?lookup_insert_ne by exact H; try reflexivity.
  destruct (String.eqb k "__dict__"); [destruct w|]; reflexivity.
Qed.

(** Reading back what an assignment kept. *)
Lemma read_assign (u : descriptor -> value -> value -> list event * outcome value)
    (o : instance) (k : string) (v w : value) :
  is_Some (class_lookup (cls o) k) ->
  stored_form u o k v = Return w ->
  read_attr (assign o k w) k = Return w.
Proof.
  intros [a Ha] Hs. unfold read_attr, descriptor_get. rewrite cls_assign.
  unfold stored_form in Hs. unfold assign. rewrite Ha in *.
  destruct a; cbn; rewrite ?lookup_insert_eq; reflexivity.
Qed.

(** Two instances of a class that agree on a name read it alike. *)
Lemma read_attr_ext (o o' : instance) (k : string) :
  cls o' = cls o -> dict o' !! k = dict o !! k ->
  slots o' !! k = slots o !! k ->
  read_attr o' k = read_attr o k.
Proof.
  intros Hc Hd Hs. unfold read_attr, descriptor_get.
  rewrite Hc, Hd, Hs. reflexivity.
Qed.

Section Runs.

Variable u : descriptor -> value -> value -> list event * outcome value.

Lemma setattr_run (k : string) (v : value) (st : state) :
  setattr u k v st =
  match stored_form u (self st) k v with
  | Return w =>
      (Return tt,
       State (assign (self st) k w) (log st ++ nested_log u (self st) k v)
             (trace st))
  | Raise e =>
      (Raise e, State (self st) (log st ++ nested_log u (self st) k v) (trace st))
  end.
Proof.
  unfold setattr, descriptor_set, stored_form, assign, nested_log.
  rewrite bind_run. cbn [get_self].
  destruct st as [o l t]; cbn [self log trace].
  destruct (class_lookup (cls o) k) as [[d| | |p| |]|]; cbn;
    rewrite ?app_nil_r; try reflexivity.
  - rewrite bind_run. cbn [get_self self].
    destruct (u d (owner_client o) v) as [evs [w|e]]; reflexivity.
  - destruct (String.eqb k "__class__"); [reflexivity|].
    destruct (String.eqb k "__dict__"); [destruct v; reflexivity|].
    destruct (String.eqb k "__weakref__"); reflexivity.
Qed.

(** One round of the loop of [from_dict].  Both branches begin by
    reading [self.log] and asking it for a method of a logger. *)
Lemma from_dict_items_round (k : string) (v : value)
    (rest : list (string * value)) (st : state) :
  from_dict_items u ((k, v) :: rest) st =
  match read_attr (self st) "log" with
  | Return (VLogger c0) =>
      if hasattr_class (cls (self st)) k then
        match stored_form u (self st) k v with
        | Return w =>
            from_dict_items u rest
              (State (assign (self st) k w)
                     ((log st ++ [LogDebug (VLogger c0) k v])
                        ++ nested_log u (self st) k v)
                     (trace st))
        | Raise e =>
            (Raise e,
             State (self st)
                   ((log st ++ [LogDebug (VLogger c0) k v])
                      ++ nested_log u (self st) k v)
                   (trace st))
        end
      else
        from_dict_items u rest
          (State (self st) (log st ++ [LogWarning (VLogger c0) k]) (trace st))
  | Return _ => (Raise AttributeError, st)
  | Raise e => (Raise e, st)
  end.
Proof.
  cbn [from_dict_items].
  rewrite bind_run. cbn [get_self]. rewrite bind_run.
  destruct (hasattr_class (cls (self st)) k).
  - rewrite bind_run. unfold log_debug. rewrite bind_run, load_run.
    destruct (read_attr (self st) "log") as [l|e]; [|reflexivity].
    destruct l; try reflexivity.
    cbn [emit self log trace]. rewrite setattr_run. cbn [self log trace].
    destruct (stored_form u (self st) k v); reflexivity.
  - unfold log_warning. rewrite bind_run, load_run.
    destruct (read_attr (self st) "log") as [l|e]; [|reflexivity].
    destruct l; reflexivity.
Qed.

(** The same round on an object that has its logger. *)
Lemma from_dict_items_cons (k : string) (v : value)
    (rest : list (string * value)) (st : state) (c0 : class_name) :
  dict (self st) !! "log" = Some (VLogger c0) ->
  from_dict_items u ((k, v) :: rest) st =
  if hasattr_class (cls (self st)) k then
    match stored_form u (self st) k v with
    | Return w =>
        from_dict_items u rest
          (State (assign (self st) k w)
                 ((log st ++ [LogDebug (VLogger c0) k v])
                    ++ nested_log u (self st) k v)
                 (trace st))
    | Raise e =>
        (Raise e,
         State (self st)
               ((log st ++ [LogDebug (VLogger c0) k v])
                  ++ nested_log u (self st) k v)
               (trace st))
    end
  else
    from_dict_items u rest
      (State (self st) (log st ++ [LogWarning (VLogger c0) k]) (trace st)).
Proof.
  intros Hl. rewrite from_dict_items_round, (read_log _ _ Hl). reflexivity.
Qed.

(** What the loop keeps whatever the payload and the outcome: the class,
    the trace, and what the descriptors hold for every name that is no
    key of the payload. *)
Lemma from_dict_items_class (items : list (string * value)) :
  forall (st st' : state) (r : outcome unit),
  from_dict_items u items st = (r, st') ->
  cls (self st') = cls (self st) /\
  trace st' = trace st /\
  forall n, n ∉ keys items -> slots (self st') !! n = slots (self st) !! n.
Proof.
  induction items as [|[k v] rest IH]; intros st st' r Hrun.
  - cbn in Hrun. injection Hrun as <- <-. repeat split.
  - rewrite from_dict_items_round in Hrun.
    assert (Hrest : forall n, n ∉ keys ((k, v) :: rest) ->
                              k <> n /\ n ∉ keys rest).
    { intros n H. unfold keys in *. rewrite fmap_cons in H.
      cbn [fst] in H.
      apply not_elem_of_cons in H as [H1 H2].
      split; [intros E; apply H1; symmetry; exact E|exact H2]. }
    destruct (read_attr (self st) "log") as [l|e];
      [|injection Hrun as <- <-; repeat split].
    destruct l; try (injection Hrun as <- <-; repeat split; fail).
    destruct (hasattr_class (cls (self st)) k).
    + destruct (stored_form u (self st) k v) as [w|e].
      * apply IH in Hrun. cbn [self log trace] in Hrun.
        rewrite cls_assign in Hrun. destruct Hrun as (Hc & Ht & Hn).
        split; [exact Hc|]. split; [exact Ht|].
        intros n H. destruct (Hrest n H) as [Hne Hin].
        rewrite (Hn n Hin). apply slots_assign_ne, Hne.
      * injection Hrun as <- <-. repeat split.
    + apply IH in Hrun. cbn [self log trace] in Hrun.
      destruct Hrun as (Hc & Ht & Hn).
      split; [exact Hc|]. split; [exact Ht|].
      intros n H. apply Hn, (Hrest n H).
Qed.

(** What the loop keeps on ordinary keys, whatever its outcome: the
    logger, and every name that is not a declared key of the payload;
    and it only appends to the log. *)
Lemma from_dict_items_keeps (items : list (string * value)) :
  forall (st st' : state) (r : outcome unit) (c0 : class_name),
  dict (self st) !! "log" = Some (VLogger c0) ->
  Forall (fun kv => ordinary (cls (self st)) kv.1 = true) items ->
  from_dict_items u items st = (r, st') ->
  cls (self st') = cls (self st) /\
  trace st' = trace st /\
  dict (self st') !! "log" = Some (VLogger c0) /\
  (exists evs, log st' = log st ++ evs) /\
  forall n, (n ∉ keys items \/ hasattr_class (cls (self st)) n = false) ->
    dict (self st') !! n = dict (self st) !! n /\
    slots (self st') !! n = slots (self st) !! n.
Proof.
  induction items as [|[k v] rest IH]; intros st st' r c0 Hl Hord Hrun.
  - cbn in Hrun. injection Hrun as <- <-.
    repeat split; try assumption. exists []. symmetry; apply app_nil_r.
  - rewrite (from_dict_items_cons _ _ _ _ _ Hl) in Hrun.
    apply list.Forall_cons in Hord as [Hk0 Hord]. cbn [fst] in Hk0.
    assert (Hrest : forall n,
      n ∉ keys ((k, v) :: rest) \/ hasattr_class (cls (self st)) n = false ->
      n ∉ keys rest \/ hasattr_class (cls (self st)) n = false).
    { intros n [H|H]; [left|right; exact H].
      unfold keys in *. rewrite fmap_cons in H.
      apply not_elem_of_cons in H. apply H. }
    destruct (hasattr_class (cls (self st)) k) eqn:Hk.
    + pose proof (hasattr_not_log _ _ Hk) as Hklog.
      assert (Hkd : k <> "__dict__").
      { apply (declares_not_dict (cls (self st))).
        rewrite <- (hasattr_ordinary _ _ Hk0). exact Hk. }
      assert (Hne : forall n,
        n ∉ keys ((k, v) :: rest) \/ hasattr_class (cls (self st)) n = false ->
        k <> n).
      { intros n [H|H] ->.
        - apply H. unfold keys. rewrite fmap_cons. left.
        - rewrite Hk in H. discriminate H. }
      destruct (stored_form u (self st) k v) as [w|e] eqn:Hs.
      * apply IH with (c0 := c0) in Hrun.
        2:{ cbn [self]. rewrite dict_assign_ne by assumption. exact Hl. }
        2:{ cbn [self]. rewrite cls_assign. exact Hord. }
        cbn [self log trace] in Hrun. rewrite cls_assign in Hrun.
        destruct Hrun as (Hc & Ht & Hlog & [evs Hevs] & Hn).
        split; [exact Hc|]. split; [exact Ht|]. split; [exact Hlog|].
        split. { eexists. rewrite Hevs, <- !app_assoc. reflexivity. }
        intros n H. destruct (Hn n (Hrest n H)) as [Hd Hsl].
        rewrite Hd, Hsl.
        split; [apply dict_assign_ne; [apply Hne, H|exact Hkd]
               |apply slots_assign_ne, Hne, H].
      * injection Hrun as <- <-. cbn [self log trace].
        split; [reflexivity|]. split; [reflexivity|]. split; [exact Hl|].
        split. { eexists. rewrite <- app_assoc. reflexivity. }
        intros n _. split; reflexivity.
    + apply IH with (c0 := c0) in Hrun; [|exact Hl|exact Hord].
      cbn [self log trace] in Hrun.
      destruct Hrun as (Hc & Ht & Hlog & [evs Hevs] & Hn).
      split; [exact Hc|]. split; [exact Ht|]. split; [exact Hlog|].
      split. { eexists. rewrite Hevs, <- app_assoc. reflexivity. }
      intros n H. apply Hn.
      destruct (decide (n = k)) as [->|Hnk]; [right; exact Hk|].
      apply Hrest, H.
Qed.

Lemma from_dict_items_app (items1 items2 : list (string * value)) :
  forall st : state,
  from_dict_items u (items1 ++ items2) st =
  match from_dict_items u items1 st with
  | (Return _, st1) => from_dict_items u items2 st1
  | (Raise e, st1) => (Raise e, st1)
  end.
Proof.
  induction items1 as [|[k v] rest IH]; intros st; [reflexivity|].
  cbn [app from_dict_items]. rewrite !bind_run. cbn [get_self].
  rewrite !bind_run.
  destruct ((if hasattr_class (cls (self st)) k
             then log_debug k v ;; setattr u k v
             else log_warning k) st) as [[[]|e] st1]; [apply IH|reflexivity].
Qed.

(** The loop does not read the log: started with another log it has the
    same outcome and builds the same object. *)
Lemma from_dict_items_any_log (items : list (string * value)) :
  forall (st st' : state) (r : outcome unit) (lg : list event),
  from_dict_items u items st = (r, st') ->
  exists lg',
    from_dict_items u items (State (self st) lg (trace st)) =
      (r, State (self st') lg' (trace st')).
Proof.
  induction items as [|[k v] rest IH]; intros st st' r lg Hrun.
  - cbn in Hrun. injection Hrun as <- <-. exists lg. reflexivity.
  - rewrite from_dict_items_round in Hrun.
    rewrite from_dict_items_round. cbn [self log trace].
    destruct (read_attr (self st) "log") as [l|e];
      [|injection Hrun as <- <-; eexists; reflexivity].
    destruct l; try (injection Hrun as <- <-; eexists; reflexivity).
    destruct (hasattr_class (cls (self st)) k).
    + destruct (stored_form u (self st) k v) as [w|e].
      * eapply IH in Hrun. exact Hrun.
      * injection Hrun as <- <-. eexists. reflexivity.
    + eapply IH in Hrun. exact Hrun.
Qed.

(** On a payload of ordinary keys, the keys the class does not declare
    change neither the outcome nor the object. *)
Lemma from_dict_items_declared (items : list (string * value)) :
  forall (st st' : state) (r : outcome unit) (c0 : class_name),
  dict (self st) !! "log" = Some (VLogger c0) ->
  Forall (fun kv => ordinary (cls (self st)) kv.1 = true) items ->
  from_dict_items u items st = (r, st') ->
  exists lg',
    from_dict_items u (declared_part (cls (self st)) items) st =
      (r, State (self st') lg' (trace st')).
Proof.
  induction items as [|[k v] rest IH]; intros st st' r c0 Hl Hord Hrun.
  - cbn in Hrun. injection Hrun as <- <-. exists (log st).
    destruct st; reflexivity.
  - rewrite (from_dict_items_cons _ _ _ _ _ Hl) in Hrun.
    apply list.Forall_cons in Hord as [Hk0 Hord]. cbn [fst] in Hk0.
    unfold declared_part. cbn [List.filter fst].
    destruct (hasattr_class (cls (self st)) k) eqn:Hk.
    + pose proof (hasattr_not_log _ _ Hk) as Hklog.
      assert (Hkd : k <> "__dict__").
      { apply (declares_not_dict (cls (self st))).
        rewrite <- (hasattr_ordinary _ _ Hk0). exact Hk. }
      rewrite (from_dict_items_cons _ _ _ _ _ Hl), Hk.
      destruct (stored_form u (self st) k v) as [w|e].
      * eapply IH in Hrun.
        2:{ cbn [self]. rewrite dict_assign_ne by assumption. exact Hl. }
        2:{ cbn [self]. rewrite cls_assign. exact Hord. }
        cbn [self] in Hrun. rewrite cls_assign in Hrun. exact Hrun.
      * injection Hrun as <- <-. eexists. reflexivity.
    + eapply IH in Hrun; [|exact Hl|exact Hord]. cbn [self] in Hrun.
      destruct Hrun as [lg' Hrun].
      eapply (from_dict_items_any_log _ _ _ _ (log st)) in Hrun.
      cbn [self trace] in Hrun. destruct st; exact Hrun.
Qed.

(** Every key the class does not have leaves a warning in the log of a
    population that returns. *)
Lemma from_dict_items_warns (items : list (string * value)) :
  forall (st st' : state) (c0 : class_name) (k : string),
  dict (self st) !! "log" = Some (VLogger c0) ->
  Forall (fun kv => ordinary (cls (self st)) kv.1 = true) items ->
  from_dict_items u items st = (Return tt, st') ->
  k ∈ keys items -> hasattr_class (cls (self st)) k = false ->
  LogWarning (VLogger c0) k ∈ log st'.
Proof.
  induction items as [|[k0 v0] rest IH]; intros st st' c0 k Hl Hord Hrun Hin Hk.
  - unfold keys in Hin. cbn in Hin. inversion Hin.
  - rewrite (from_dict_items_cons _ _ _ _ _ Hl) in Hrun.
    apply list.Forall_cons in Hord as [Hk0' Hord]. cbn [fst] in Hk0'.
    unfold keys in Hin. rewrite fmap_cons in Hin. cbn [fst] in Hin.
    destruct (hasattr_class (cls (self st)) k0) eqn:Hk0.
    + assert (Hne : k <> k0) by (intros ->; rewrite Hk0 in Hk; discriminate).
      apply elem_of_cons in Hin as [Hin|Hin]; [contradiction|].
      pose proof (hasattr_not_log _ _ Hk0) as Hklog.
      assert (Hkd : k0 <> "__dict__").
      { apply (declares_not_dict (cls (self st))).
        rewrite <- (hasattr_ordinary _ _ Hk0'). exact Hk0. }
      destruct (stored_form u (self st) k0 v0) as [w|e]; [|discriminate Hrun].
      eapply IH; [| | exact Hrun | exact Hin |].
      * cbn [self]. rewrite dict_assign_ne by assumption. exact Hl.
      * cbn [self]. rewrite cls_assign. exact Hord.
      * cbn [self]. rewrite cls_assign. exact Hk.
    + apply elem_of_cons in Hin as [->|Hin].
      * eapply from_dict_items_keeps in Hrun;
          [|cbn [self]; exact Hl|cbn [self]; exact Hord].
        destruct Hrun as (_ & _ & _ & [evs Hevs] & _).
        rewrite Hevs. cbn [log]. apply elem_of_app. left.
        apply elem_of_app. right. apply list_elem_of_singleton. reflexivity.
      * eapply IH; [| | exact Hrun | exact Hin | exact Hk];
          [exact Hl|exact Hord].
Qed.

(** The round of a declared key [k] in a population of ordinary keys
    that returns: the keys before it have populated an object on which
    the assignment of [k] keeps some [w], and what the final object
    holds for [k] is what that assignment wrote. *)
Lemma from_dict_items_reaches (items1 items2 : list (string * value))
    (k : string) (v : value) (st st' : state) (c0 : class_name) :
  dict (self st) !! "log" = Some (VLogger c0) ->
  Forall (fun kv => ordinary (cls (self st)) kv.1 = true)
         (items1 ++ (k, v) :: items2) ->
  NoDup (keys (items1 ++ (k, v) :: items2)) ->
  hasattr_class (cls (self st)) k = true ->
  from_dict_items u (items1 ++ (k, v) :: items2) st = (Return tt, st') ->
  exists st1 w,
    from_dict_items u items1 st = (Return tt, st1) /\
    stored_form u (self st1) k v = Return w /\
    cls (self st1) = cls (self st) /\
    cls (self st') = cls (self st) /\
    dict (self st1) !! k = dict (self st) !! k /\
    slots (self st1) !! k = slots (self st) !! k /\
    dict (self st') !! k = dict (assign (self st1) k w) !! k /\
    slots (self st') !! k = slots (assign (self st1) k w) !! k.
Proof.
  intros Hl Hord Hnd Hk Hrun. rewrite from_dict_items_app in Hrun.
  apply list.Forall_app in Hord as [Hord1 Hord2].
  apply list.Forall_cons in Hord2 as [Hk0 Hord2]. cbn [fst] in Hk0.
  destruct (from_dict_items u items1 st) as [[[]|e] st1] eqn:H1;
    [|discriminate Hrun].
  pose proof (from_dict_items_keeps _ _ _ _ _ Hl Hord1 H1)
    as (Hc1 & _ & Hl1 & _ & Hn1).
  rewrite (from_dict_items_cons _ _ _ _ _ Hl1) in Hrun.
  rewrite Hc1, Hk in Hrun.
  destruct (stored_form u (self st1) k v) as [w|e] eqn:Hs; [|discriminate Hrun].
  pose proof (hasattr_not_log _ _ Hk) as Hklog.
  assert (Hkd : k <> "__dict__").
  { apply (declares_not_dict (cls (self st))).
    rewrite <- (hasattr_ordinary _ _ Hk0). exact Hk. }
  eapply from_dict_items_keeps in Hrun.
  2:{ cbn [self]. rewrite dict_assign_ne by assumption. exact Hl1. }
  2:{ cbn [self]. rewrite cls_assign, Hc1. exact Hord2. }
  destruct Hrun as (Hc & _ & _ & _ & Hn). cbn [self] in Hc, Hn.
  rewrite cls_assign in Hc.
  unfold keys in Hnd. rewrite fmap_app, fmap_cons in Hnd. cbn [fst] in Hnd.
  apply list.NoDup_app in Hnd as (_ & Hnot1 & Hnd).
  apply list.NoDup_cons in Hnd as [Hnot2 _].
  assert (Hk1 : k ∉ keys items1).
  { intros Hin. apply (Hnot1 k Hin). left. }
  exists st1, w.
  split; [reflexivity|]. split; [exact Hs|]. split; [exact Hc1|].
  split; [rewrite Hc; exact Hc1|].
  split; [apply (Hn1 k (or_introl Hk1))|].
  split; [apply (Hn1 k (or_introl Hk1))|].
  split; apply (Hn k (or_introl Hnot2)).
Qed.

(** A declared key of a payload of distinct ordinary keys reads, once
    the population has returned, the value its assignment kept. *)
Lemma from_dict_items_sets (items1 items2 : list (string * value))
    (k : string) (v : value) (st st' : state) (c0 : class_name) :
  dict (self st) !! "log" = Some (VLogger c0) ->
  Forall (fun kv => ordinary (cls (self st)) kv.1 = true)
         (items1 ++ (k, v) :: items2) ->
  NoDup (keys (items1 ++ (k, v) :: items2)) ->
  hasattr_class (cls (self st)) k = true ->
  from_dict_items u (items1 ++ (k, v) :: items2) st = (Return tt, st') ->
  exists st1,
    from_dict_items u items1 st = (Return tt, st1) /\
    read_attr (self st') k = stored_form u (self st1) k v.
Proof.
  intros Hl Hord Hnd Hk Hrun.
  destruct (from_dict_items_reaches _ _ _ _ _ _ _ Hl Hord Hnd Hk Hrun)
    as (st1 & w & H1 & Hs & Hc1 & Hc & _ & _ & Hd & Hsl).
  exists st1. split; [exact H1|]. rewrite Hs.
  rewrite <- (read_assign u (self st1) k v w).
  - apply read_attr_ext; [rewrite cls_assign, Hc, Hc1; reflexivity| |];
      assumption.
  - apply declares_true. rewrite Hc1.
    apply list.Forall_app in Hord as [_ Hord].
    apply list.Forall_cons in Hord as [Hk0 _]. cbn [fst] in Hk0.
    rewrite <- (hasattr_ordinary _ _ Hk0). exact Hk.
  - exact Hs.
Qed.

(** A key bound to a descriptor, in any payload of distinct keys whose
    population returns: the keys before it have populated, the
    conversion of its value has returned, and the field reads the
    converted value. *)
Lemma from_dict_items_descriptor (items1 items2 : list (string * value))
    (k : string) (v : value) (d : descriptor) (st st' : state) :
  NoDup (keys (items1 ++ (k, v) :: items2)) ->
  class_lookup (cls (self st)) k = Some (CDescr d) ->
  from_dict_items u (items1 ++ (k, v) :: items2) st = (Return tt, st') ->
  exists st1 w,
    from_dict_items u items1 st = (Return tt, st1) /\
    cls (self st1) = cls (self st) /\
    cls (self st') = cls (self st) /\
    stored_form u (self st1) k v = Return w /\
    read_attr (self st') k = Return w.
Proof.
  intros Hnd Hd Hrun. rewrite from_dict_items_app in Hrun.
  destruct (from_dict_items u items1 st) as [[[]|e] st1] eqn:H1;
    [|discriminate Hrun].
  destruct (from_dict_items_class _ _ _ _ H1) as (Hc1 & _ & _).
  rewrite from_dict_items_round in Hrun.
  destruct (read_attr (self st1) "log") as [l|e]; [|discriminate Hrun].
  destruct l; try discriminate Hrun.
  assert (Hh : hasattr_class (cls (self st1)) k = true).
  { apply hasattr_declares, declares_true. rewrite Hc1, Hd. eauto. }
  rewrite Hh in Hrun.
  destruct (stored_form u (self st1) k v) as [w|e] eqn:Hs; [|discriminate Hrun].
  destruct (from_dict_items_class _ _ _ _ Hrun) as (Hc & _ & Hn).
  cbn [self] in Hc, Hn. rewrite cls_assign in Hc.
  unfold keys in Hnd. rewrite fmap_app, fmap_cons in Hnd. cbn [fst] in Hnd.
  apply list.NoDup_app in Hnd as (_ & _ & Hnd).
  apply list.NoDup_cons in Hnd as [Hnot2 _].
  exists st1, w. split; [reflexivity|]. split; [exact Hc1|].
  split; [rewrite Hc; exact Hc1|]. split; [exact Hs|].
  unfold read_attr, descriptor_get. rewrite Hc, Hc1, Hd.
  rewrite (Hn k Hnot2). unfold assign. rewrite Hc1, Hd.
  cbn [set_slot slots]. rewrite lookup_insert_eq. reflexivity.
Qed.

End Runs.

(** ** The new object and [deserialize] *)

Lemma cls_fresh (c : class_name) (bc : option value) : cls (fresh c bc) = c.
Proof. unfold fresh. destruct (is_bound c); reflexivity. Qed.

Lemma log_fresh (c : class_name) (bc : option value) :
  dict (fresh c bc) !! "log" = Some (VLogger c).
Proof. unfold fresh. destruct (is_bound c); reflexivity. Qed.

Lemma slots_fresh (c : class_name) (bc : option value) (k : string) :
  slots (fresh c bc) !! k = None.
Proof. unfold fresh. destruct (is_bound c); reflexivity. Qed.

Lemma log_start (c : class_name) (bc : option value) (st : state) :
  dict (self (start c bc st)) !! "log" = Some (VLogger c).
Proof. apply log_fresh. Qed.

Lemma cls_start (c : class_name) (bc : option value) (st : state) :
  cls (self (start c bc st)) = c.
Proof. apply cls_fresh. Qed.

(** The methods the classes inherit: those of [BoundEntity] below it,
    those of [BaseEntity] elsewhere. *)
Lemma bound_dispatch (c : class_name) :
  let owner := if is_bound c then BoundEntity else BaseEntity in
  class_lookup c "__init__" = Some (CMethod owner) /\
  class_lookup c "deserialize" = Some (CMethod owner).
Proof. destruct c; split; reflexivity. Qed.

(** The assignments of the two initialisers are plain dictionary writes. *)
Lemma init_assignments_plain (c : class_name) :
  class_lookup c "log" = None /\
  (class_lookup c "bind_client" =
     if is_bound c then Some CNone else None).
Proof. destruct c; split; reflexivity. Qed.

(** So [self.log = ...] and [self.bind_client = ...], written as
    dictionary writes in the two initialisers, are what [setattr] does. *)
Lemma init_assignments_are_setattr
    (u : descriptor -> value -> value -> list event * outcome value)
    (k : string) (v : value) (st : state) :
  k = "log" \/ k = "bind_client" ->
  setattr u k v st = put_self (set_dict (self st) k v) st.
Proof.
  intros Hk. rewrite setattr_run.
  unfold stored_form, assign, nested_log.
  destruct (init_assignments_plain (cls (self st))) as [Hl Hb].
  destruct Hk as [-> | ->].
  - rewrite Hl, app_nil_r. reflexivity.
  - rewrite Hb. destruct (is_bound _); rewrite app_nil_r; reflexivity.
Qed.

(** The calls through the new object in the initialisers and in
    [deserialize] reach the methods of the class: the object holds
    nothing under a method name. *)
Lemma fresh_holds_no_method (c : class_name) (bc : option value) (k : string) :
  k ∈ ["from_dict"; "assert_bind_client"; "hydrate"; "deserialize"] ->
  dict (fresh c bc) !! k = None.
Proof.
  intros Hk. unfold fresh.
  repeat (apply elem_of_cons in Hk as [-> | Hk];
          [destruct (is_bound c); reflexivity|]).
  inversion Hk.
Qed.

Lemma accepts_bound (c : class_name) (bc : option value) :
  is_bound c = true -> accepts c bc = true.
Proof. intros H. unfold accepts. rewrite H. reflexivity. Qed.

Lemma accepts_no_client (c : class_name) : accepts c None = true.
Proof. unfold accepts. apply orb_true_r. Qed.

Lemma assoc_not_in {A : Type} (k : string) (l : list (string * A)) :
  k ∉ l.*1 -> assoc k l = None.
Proof.
  induction l as [|[k' a] rest IH]; intros H; [reflexivity|].
  rewrite fmap_cons in H. apply not_elem_of_cons in H as [Hk Hrest].
  cbn [assoc]. destruct (String.eqb_spec k k') as [->|_]; [contradiction|].
  apply IH, Hrest.
Qed.

Lemma assoc_elem_of {A : Type} (k : string) (l : list (string * A)) (a : A) :
  assoc k l = Some a -> (k, a) ∈ l.
Proof.
  induction l as [|[k' a'] rest IH]; intros H; [discriminate H|].
  cbn [assoc] in H. destruct (String.eqb_spec k k') as [->|_].
  - injection H as ->. left.
  - right. apply IH, H.
Qed.

Lemma assoc_in {A : Type} (k : string) (l : list (string * A)) :
  k ∈ l.*1 -> is_Some (assoc k l).
Proof.
  induction l as [|[k' a] rest IH]; intros H; [inversion H|].
  rewrite fmap_cons in H. cbn [assoc].
  destruct (String.eqb_spec k k') as [->|Hne]; [eauto|].
  apply elem_of_cons in H as [H|H]; [contradiction|]. apply IH, H.
Qed.

Section Population.

Variable u : descriptor -> value -> value -> list event * outcome value.

Lemma deserialize_any (c : class_name) (v : value) (bc : option value)
    (st : state) :
  accepts c bc = true ->
  deserialize u c v bc st = from_dict u v (start c bc st).
Proof.
  unfold deserialize, accepts, start, fresh.
  destruct (is_bound c); [intros _; reflexivity|].
  destruct bc; [discriminate|]. intros _. reflexivity.
Qed.

Lemma deserialize_run (c : class_name) (items : list (string * value))
    (bc : option value) (st : state) :
  accepts c bc = true ->
  deserialize u c (VDict items) bc st = from_dict_items u items (start c bc st).
Proof. apply deserialize_any. Qed.

(** A client given to a class outside [BoundEntity]. *)
Lemma deserialize_rejects (c : class_name) (v : value) (bc : option value)
    (st : state) :
  accepts c bc = false ->
  deserialize u c v bc st = (Raise TypeError, st).
Proof.
  unfold deserialize, accepts.
  destruct (is_bound c); [discriminate|].
  destruct bc; [reflexivity|discriminate].
Qed.

Lemma deserialize_returns_accepts (c : class_name) (v : value)
    (bc : option value) (st st' : state) :
  deserialize u c v bc st = (Return tt, st') -> accepts c bc = true.
Proof.
  intros H. destruct (accepts c bc) eqn:Ha; [reflexivity|].
  rewrite (deserialize_rejects _ _ _ _ Ha) in H. discriminate H.
Qed.

Lemma construct_run (c : class_name) (args : list (string * value))
    (st : state) :
  assoc "self" args = None ->
  construct u c args st =
  from_dict_items u
    (if is_bound c then filter (fun kv => kv.1 ≠ "bind_client") args else args)
    (start c (assoc "bind_client" args) st).
Proof.
  intros Hs. unfold construct, start, fresh. rewrite !bind_run. cbn [put_self].
  rewrite Hs. destruct (is_bound c); reflexivity.
Qed.

(** A keyword named [self]. *)
Lemma construct_self (c : class_name) (args : list (string * value))
    (st : state) :
  "self" ∈ keys args ->
  construct u c args st
    = (Raise TypeError, State (Instance c ∅ ∅) (log st) (trace st)).
Proof.
  intros H. apply assoc_in in H as [x Hx].
  unfold construct. rewrite bind_run. cbn [put_self]. rewrite Hx. reflexivity.
Qed.

(** What a new object reads for a name. *)
Lemma read_fresh_descriptor (c : class_name) (bc : option value) (n : string)
    (d : descriptor) :
  class_lookup c n = Some (CDescr d) -> read_attr (fresh c bc) n = Return VNone.
Proof.
  intros H. unfold read_attr, descriptor_get.
  rewrite cls_fresh, H, slots_fresh. reflexivity.
Qed.

Lemma declared_part_ordinary (c c' : class_name)
    (items : list (string * value)) :
  Forall (fun kv => ordinary c kv.1 = true) items ->
  Forall (fun kv => ordinary c kv.1 = true) (declared_part c' items).
Proof.
  unfold declared_part. intros H. rewrite list.Forall_forall in H.
  apply list.Forall_forall. intros kv Hin.
  apply H. apply list_elem_of_In. apply list_elem_of_In, filter_In in Hin.
  apply Hin.
Qed.

(** C5 (amended).  In a payload whose keys are field names, the keys
    that the class does not have never make the population raise: when
    the declared part of the payload populates, the whole payload
    populates too and builds the very same object; each key the class
    does not have has its warning in the log, and the object holds
    nothing for it; each declared key of the payload reads the value its
    assignment kept. *)
Theorem unknown_keys_are_dropped (c : class_name)
    (items : list (string * value)) (bc : option value) (st st1 : state) :
  api_keys items ->
  deserialize u c (VDict (declared_part c items)) bc st = (Return tt, st1) ->
  exists st',
    deserialize u c (VDict items) bc st = (Return tt, st') /\
    self st' = self st1 /\
    (forall k, k ∈ keys items -> hasattr_class c k = false ->
       LogWarning (VLogger c) k ∈ log st' /\
       dict (self st') !! k = dict (fresh c bc) !! k /\
       slots (self st') !! k = None) /\
    (forall items1 k v items2,
       NoDup (keys items) -> items = items1 ++ (k, v) :: items2 ->
       hasattr_class c k = true ->
       exists st2,
         from_dict_items u items1 (start c bc st) = (Return tt, st2) /\
         read_attr (self st') k = stored_form u (self st2) k v).
Proof.
  intros Hapi Hdecl.
  pose proof (deserialize_returns_accepts _ _ _ _ _ Hdecl) as Hacc.
  rewrite (deserialize_run _ _ _ _ Hacc) in Hdecl.
  destruct (deserialize u c (VDict items) bc st) as [r st'] eqn:Hrun.
  rewrite (deserialize_run _ _ _ _ Hacc) in Hrun.
  assert (Hl : dict (self (start c bc st)) !! "log" = Some (VLogger c))
    by apply log_fresh.
  assert (Hc : cls (self (start c bc st)) = c) by apply cls_fresh.
  assert (Hord : Forall (fun kv => ordinary (cls (self (start c bc st))) kv.1
                                   = true) items)
    by (apply api_keys_ordinary, Hapi).
  destruct (from_dict_items_declared u _ _ _ _ _ Hl Hord Hrun) as [lg' Hd].
  rewrite Hc, Hdecl in Hd. injection Hd as <- ->.
  exists st'. split; [reflexivity|]. split; [reflexivity|]. split.
  - intros k Hin Hk. split.
    + eapply from_dict_items_warns;
        [exact Hl | exact Hord | exact Hrun | exact Hin |].
      rewrite Hc. exact Hk.
    + pose proof (from_dict_items_keeps u _ _ _ _ _ Hl Hord Hrun)
        as (_ & _ & _ & _ & Hn).
      rewrite Hc in Hn. destruct (Hn k (or_intror Hk)) as [Hdk Hsk].
      split; [exact Hdk|]. rewrite Hsk. apply slots_fresh.
  - intros items1 k v items2 Hnd -> Hk.
    eapply from_dict_items_sets; [exact Hl | exact Hord | exact Hnd | | exact Hrun].
    rewrite Hc. exact Hk.
Qed.

(** C6.  For a payload whose keys are all declared by the class and are
    distinct, every field of the deserialized object reads the payload
    value of its key in the form its assignment keeps: the descriptor's
    conversion of the value for a name bound to a descriptor, the value
    itself for any other declared name. *)
Theorem known_fields_round_trip (respond : list call -> call -> outcome value)
    (c : class_name) (items : list (string * value)) (bc : option value)
    (st st' : state) :
  Forall (fun kv => declares c kv.1 = true) items ->
  NoDup (keys items) ->
  deserialize u c (VDict items) bc st = (Return tt, st') ->
  forall items1 k v items2, items = items1 ++ (k, v) :: items2 ->
  exists st1 w,
    from_dict_items u items1 (start c bc st) = (Return tt, st1) /\
    getattr u respond k st' = (Return w, st') /\
    read_attr (self st') k = Return w /\
    (forall d, class_lookup c k = Some (CDescr d) ->
       (u d (owner_client (self st1)) v).2 = Return w) /\
    ((forall d, class_lookup c k <> Some (CDescr d)) -> w = v).
Proof.
  intros Hall Hnd Hrun items1 k v items2 ->.
  pose proof (deserialize_returns_accepts _ _ _ _ _ Hrun) as Hacc.
  rewrite (deserialize_run _ _ _ _ Hacc) in Hrun.
  assert (Hl : dict (self (start c bc st)) !! "log" = Some (VLogger c))
    by apply log_fresh.
  assert (Hc : cls (self (start c bc st)) = c) by apply cls_fresh.
  assert (Hord : Forall (fun kv => ordinary (cls (self (start c bc st))) kv.1
                                   = true) (items1 ++ (k, v) :: items2)).
  { rewrite Hc. eapply list.Forall_impl; [exact Hall|].
    intros kv. apply declares_ordinary. }
  assert (Hd : declares c k = true).
  { apply list.Forall_app in Hall as [_ Hall].
    apply list.Forall_cons in Hall as [Hall _]. exact Hall. }
  pose proof (hasattr_declares _ _ Hd) as Hk.
  destruct (from_dict_items_sets u items1 items2 k v _ _ _ Hl Hord Hnd
              ltac:(rewrite Hc; exact Hk) Hrun) as (st1 & H1 & Hread).
  pose proof (proj1 (list.Forall_app _ _ _) Hord) as [Hord1 _].
  pose proof (from_dict_items_keeps u _ _ _ _ _ Hl Hord1 H1) as (Hc1 & _).
  pose proof (from_dict_items_keeps u _ _ _ _ _ Hl Hord Hrun) as (Hc' & _).
  rewrite Hc in Hc1, Hc'.
  assert (Hs : exists w, stored_form u (self st1) k v = Return w).
  { rewrite from_dict_items_app, H1 in Hrun.
    pose proof (from_dict_items_keeps u _ _ _ _ _ Hl Hord1 H1)
      as (_ & _ & Hl1 & _).
    rewrite (from_dict_items_cons u _ _ _ _ _ Hl1), Hc1, Hk in Hrun.
    destruct (stored_form u (self st1) k v) as [w|e]; [eauto|discriminate]. }
  destruct Hs as [w Hs]. rewrite Hs in Hread.
  exists st1, w. split; [exact H1|].
  unfold stored_form in Hs. rewrite Hc1 in Hs.
  apply declares_true in Hd as [a Ha]. rewrite Ha in Hs.
  split; [|split; [exact Hread|split]].
  - unfold getattr. rewrite bind_run. cbn [get_self]. rewrite Hc', Ha.
    destruct a; try discriminate Hs; rewrite load_run, Hread; reflexivity.
  - intros d Hd. rewrite Ha in Hd. injection Hd as ->. exact Hs.
  - intros Hnd'. destruct a as [d| | | | |];
      try (injection Hs as ->; reflexivity); try discriminate Hs.
    exfalso. apply (Hnd' d). exact Ha.
Qed.

(** C7.  When the keys before [k], all of them field names, have
    populated the object and the assignment of [k] raises, [from_dict]
    raises that exception and the object is left exactly as the earlier
    keys built it: each of them still reads the value its assignment
    kept, nothing is undone, and for a name that is not among them the
    object holds what a new object holds, so that every such descriptor
    field reads [None]. *)
Theorem population_is_not_atomic (c : class_name)
    (items1 : list (string * value)) (k : string) (v : value)
    (items2 : list (string * value)) (bc : option value) (st st1 : state)
    (e : exn) :
  api_keys items1 ->
  deserialize u c (VDict items1) bc st = (Return tt, st1) ->
  hasattr_class c k = true ->
  stored_form u (self st1) k v = Raise e ->
  exists st2,
    deserialize u c (VDict (items1 ++ (k, v) :: items2)) bc st = (Raise e, st2) /\
    self st2 = self st1 /\
    (forall a k' v' b, NoDup (keys items1) ->
       items1 = a ++ (k', v') :: b -> hasattr_class c k' = true ->
       exists st', from_dict_items u a (start c bc st) = (Return tt, st') /\
         read_attr (self st2) k' = stored_form u (self st') k' v') /\
    (forall n, n ∉ keys items1 ->
       dict (self st2) !! n = dict (fresh c bc) !! n /\
       slots (self st2) !! n = None) /\
    (forall n d, n ∉ keys items1 -> class_lookup c n = Some (CDescr d) ->
       read_attr (self st2) n = Return VNone).
Proof.
  intros Hapi H1 Hk Hs.
  pose proof (deserialize_returns_accepts _ _ _ _ _ H1) as Hacc.
  rewrite (deserialize_run _ _ _ _ Hacc) in H1.
  assert (Hl : dict (self (start c bc st)) !! "log" = Some (VLogger c))
    by apply log_fresh.
  assert (Hc : cls (self (start c bc st)) = c) by apply cls_fresh.
  assert (Hord : Forall (fun kv => ordinary (cls (self (start c bc st))) kv.1
                                   = true) items1)
    by (apply api_keys_ordinary, Hapi).
  pose proof (from_dict_items_keeps u _ _ _ _ _ Hl Hord H1)
    as (Hc1 & _ & Hl1 & _ & Hn).
  rewrite Hc in Hc1.
  eexists. rewrite (deserialize_run _ _ _ _ Hacc), from_dict_items_app, H1.
  rewrite (from_dict_items_cons u _ _ _ _ _ Hl1), Hc1, Hk, Hs.
  split; [reflexivity|]. cbn [self].
  split; [reflexivity|].
  split; [|split].
  - intros a k' v' b Hnd -> Hk'.
    eapply from_dict_items_sets; [exact Hl | exact Hord | exact Hnd | | exact H1].
    rewrite Hc. exact Hk'.
  - intros n Hnot. destruct (Hn n (or_introl Hnot)) as [Hd Hsl].
    split; [exact Hd|]. rewrite Hsl. apply slots_fresh.
  - intros n d Hnot Hd. destruct (Hn n (or_introl Hnot)) as [_ Hsl].
    unfold read_attr, descriptor_get. rewrite Hc1, Hd, Hsl.
    cbn [start self]. rewrite slots_fresh. reflexivity.
Qed.

(** On ordinary keys, [from_dict] leaves alone every name the class does
    not have. *)
Lemma from_dict_keeps_undeclared (v : value) (st st' : state)
    (r : outcome unit) (c0 : class_name) (n : string) :
  dict (self st) !! "log" = Some (VLogger c0) ->
  (forall items, v = VDict items ->
     Forall (fun kv => ordinary (cls (self st)) kv.1 = true) items) ->
  from_dict u v st = (r, st') ->
  hasattr_class (cls (self st)) n = false ->
  cls (self st') = cls (self st) /\ dict (self st') !! n = dict (self st) !! n.
Proof.
  intros Hl Hord Hrun Hn.
  destruct v; try (injection Hrun as <- <-; split; reflexivity).
  cbn [from_dict] in Hrun.
  pose proof (from_dict_items_keeps u _ _ _ _ _ Hl (Hord _ eq_refl) Hrun)
    as (Hc & _ & _ & _ & H).
  split; [exact Hc|]. apply (H n (or_intror Hn)).
Qed.

(** On a club that holds nothing under [_members], the getter of
    [members] stops at its first line; likewise for [activities]. *)
Lemma club_getters_without_cache
    (respond : list call -> call -> outcome value) (st : state) :
  cls (self st) = Club ->
  dict (self st) !! "_members" = None ->
  dict (self st) !! "_activities" = None ->
  getattr u respond "members" st = (Raise AttributeError, st) /\
  getattr u respond "activities" st = (Raise AttributeError, st).
Proof.
  intros Hc Hm Ha. split.
  - unfold getattr. rewrite bind_run. cbn [get_self]. rewrite Hc.
    change (class_lookup Club "members") with (Some (CProperty p_members)).
    cbn [property_get]. unfold Club_members.
    rewrite bind_run, load_run. unfold read_attr, descriptor_get. rewrite Hc.
    change (class_lookup Club "_members") with (@None class_attr).
    rewrite Hm. reflexivity.
  - unfold getattr. rewrite bind_run. cbn [get_self]. rewrite Hc.
    change (class_lookup Club "activities")
      with (Some (CProperty p_activities)).
    cbn [property_get]. unfold Club_activities.
    rewrite bind_run, load_run. unfold read_attr, descriptor_get. rewrite Hc.
    change (class_lookup Club "_activities") with (@None class_attr).
    rewrite Ha. reflexivity.
Qed.

(** C2.  Whatever the keyword arguments of the constructor (none of
    them named [self]), whatever the payload and the client given to
    [deserialize], as long as their keys are field names, and whether
    population returns or raises, the
    object holds nothing under [_members] and [_activities], which the
    class does not bind either; the first access of [members] or
    [activities] raises [AttributeError] and leaves the state as it was:
    the client check and the fetch are not reached. *)
Theorem club_caches_are_never_initialised
    (respond : list call -> call -> outcome value)
    (args : list (string * value)) (v : value) (bc : option value)
    (st : state) :
  api_keys args -> "self" ∉ keys args ->
  (forall items, v = VDict items -> api_keys items) ->
  let built := (construct u Club args st).2 in
  let loaded := (deserialize u Club v bc st).2 in
  class_lookup Club "_members" = None /\
  class_lookup Club "_activities" = None /\
  dict (self built) !! "_members" = None /\
  dict (self built) !! "_activities" = None /\
  dict (self loaded) !! "_members" = None /\
  dict (self loaded) !! "_activities" = None /\
  getattr u respond "members" built = (Raise AttributeError, built) /\
  getattr u respond "activities" built = (Raise AttributeError, built) /\
  getattr u respond "members" loaded = (Raise AttributeError, loaded) /\
  getattr u respond "activities" loaded = (Raise AttributeError, loaded).
Proof.
  intros Hargs Hself Hv built loaded.
  apply assoc_not_in in Hself.
  assert (Hb : cls (self built) = Club /\
               dict (self built) !! "_members" = None /\
               dict (self built) !! "_activities" = None).
  { subst built. rewrite (construct_run _ _ _ Hself).
    destruct (from_dict_items u _ _) as [r st'] eqn:Hrun. cbn [snd].
    eapply from_dict_items_keeps in Hrun; [|apply log_fresh|].
    2:{ apply api_keys_ordinary. change (is_bound Club) with true. cbv iota.
        unfold api_keys in *. apply list.Forall_forall. intros kv Hin.
        rewrite list.Forall_forall in Hargs. apply Hargs.
        apply list_elem_of_filter in Hin. apply Hin. }
    destruct Hrun as (Hc & _ & _ & _ & Hn). cbn [start self] in Hc, Hn.
    rewrite cls_fresh in Hc, Hn. split; [exact Hc|]. split.
    - rewrite (proj1 (Hn "_members" (or_intror eq_refl))). reflexivity.
    - rewrite (proj1 (Hn "_activities" (or_intror eq_refl))). reflexivity. }
  assert (Hd : cls (self loaded) = Club /\
               dict (self loaded) !! "_members" = None /\
               dict (self loaded) !! "_activities" = None).
  { subst loaded. rewrite (deserialize_any _ _ _ _ (accepts_bound Club bc eq_refl)).
    destruct (from_dict u v _) as [r st'] eqn:Hrun. cbn [snd].
    pose proof (fun n => from_dict_keeps_undeclared v (start Club bc st) st'
                  r Club n (log_fresh Club bc)
                  (fun items E => api_keys_ordinary _ items (Hv items E))
                  Hrun) as Hn.
    cbn [start self] in Hn. rewrite cls_fresh in Hn. split; [|split].
    - apply (Hn "_members" eq_refl).
    - rewrite (proj2 (Hn "_members" eq_refl)). reflexivity.
    - rewrite (proj2 (Hn "_activities" eq_refl)). reflexivity. }
  destruct Hb as (Hcb & Hbm & Hba), Hd as (Hcd & Hdm & Hda).
  destruct (club_getters_without_cache respond built Hcb Hbm Hba) as [G1 G2].
  destruct (club_getters_without_cache respond loaded Hcd Hdm Hda) as [G3 G4].
  repeat (split; [first [reflexivity | assumption]|]). exact G4.
Qed.

(** C10.  Each of the nine names is bound by [Activity] to a one-element
    tuple that holds a descriptor, and a new activity reads that tuple
    for it; assigning the name writes the raw value into the instance
    dictionary without calling any conversion; so a population of field
    names that returns leaves the raw payload value under the name, and
    no descriptor holds a value for it. *)
Theorem comma_attributes_store_raw (k : string) (v : value) :
  k ∈ comma_names ->
  (exists d, class_lookup Activity k = Some (CTuple d) /\
     forall bc, read_attr (fresh Activity bc) k = Return (VTuple [VDescr d])) /\
  (forall st, cls (self st) = Activity ->
     setattr u k v st =
       (Return tt, State (set_dict (self st) k v) (log st) (trace st))) /\
  (forall items bc st st',
     api_keys items ->
     NoDup (keys items) -> (k, v) ∈ items ->
     deserialize u Activity (VDict items) bc st = (Return tt, st') ->
     read_attr (self st') k = Return v /\
     dict (self st') !! k = Some v /\
     slots (self st') !! k = None).
Proof.
  intros Hk.
  assert (Hd : exists d, class_lookup Activity k = Some (CTuple d)).
  { unfold comma_names in Hk.
    repeat (apply elem_of_cons in Hk as [->|Hk]; [eexists; reflexivity|]).
    inversion Hk. }
  destruct Hd as [d Hd]. split; [|split].
  - exists d. split; [exact Hd|]. intros bc.
    unfold read_attr, descriptor_get. rewrite cls_fresh, Hd. cbn [class_value].
    unfold comma_names in Hk.
    repeat (apply elem_of_cons in Hk as [->|Hk]; [reflexivity|]).
    inversion Hk.
  - intros st Hc. rewrite setattr_run.
    unfold stored_form, assign, nested_log. rewrite Hc, Hd, app_nil_r.
    reflexivity.
  - intros items bc st st' Hapi Hnd Hin Hrun.
    apply list_elem_of_split in Hin as (items1 & items2 & ->).
    rewrite (deserialize_run _ _ _ _ (accepts_bound Activity bc eq_refl)) in Hrun.
    assert (Hh : hasattr_class (cls (self (start Activity bc st))) k = true).
    { cbn [start self]. rewrite cls_fresh. apply hasattr_declares, declares_true.
      rewrite Hd. eauto. }
    destruct (from_dict_items_reaches u items1 items2 k v
                (start Activity bc st) st' Activity
                (log_fresh Activity bc) (api_keys_ordinary _ _ Hapi) Hnd Hh Hrun)
      as (st1 & w & H1 & Hs & Hc1 & Hc & Hd1 & Hsl1 & Hd' & Hsl').
    cbn [start self] in Hc1, Hc, Hsl1. rewrite cls_fresh in Hc1, Hc.
    unfold stored_form in Hs. rewrite Hc1, Hd in Hs. injection Hs as <-.
    unfold assign in Hd', Hsl'. rewrite Hc1, Hd in Hd', Hsl'.
    cbn [set_dict dict slots] in Hd', Hsl'.
    rewrite lookup_insert_eq in Hd'. rewrite Hsl1, slots_fresh in Hsl'.
    split; [|split; assumption].
    unfold read_attr, descriptor_get. rewrite Hc, Hd, Hd'. reflexivity.
Qed.

End Population.

Lemma unknown_keys_are_dropped_witness :
  let u := unmarshal typed_scalars in
  let items := [("id", VInt 1); ("name", VStr "Alice"); ("firstname", VStr "Al")] in
  let st1 :=
    (deserialize u Athlete (VDict (declared_part Athlete items)) None st0).2 in
  api_keys items /\
  deserialize u Athlete (VDict (declared_part Athlete items)) None st0
    = (Return tt, st1) /\
  exists st',
    deserialize u Athlete (VDict items) None st0 = (Return tt, st') /\
    self st' = self st1 /\
    (forall k, k ∈ keys items -> hasattr_class Athlete k = false ->
       LogWarning (VLogger Athlete) k ∈ log st' /\
       dict (self st') !! k = dict (fresh Athlete None) !! k /\
       slots (self st') !! k = None) /\
    (forall items1 k v items2,
       NoDup (keys items) -> items = items1 ++ (k, v) :: items2 ->
       hasattr_class Athlete k = true ->
       exists st2,
         from_dict_items u items1 (start Athlete None st0) = (Return tt, st2) /\
         read_attr (self st') k = stored_form u (self st2) k v).
Proof.
  intros u items st1.
  assert (Ha : api_keys items) by (repeat constructor).
  assert (H : deserialize u Athlete (VDict (declared_part Athlete items)) None st0
              = (Return tt, st1)) by (vm_compute; reflexivity).
  split; [exact Ha|]. split; [exact H|].
  exact (unknown_keys_are_dropped u Athlete items None st0 st1 Ha H).
Defined.

(** The claim C5 at a payload with a key that the class does not
    declare: [Club] binds no [__class__], the declared part of the
    payload populates, and the whole payload does not: the class has the
    name from [object], so the key is assigned, and the assignment
    raises [TypeError]. *)
Lemma unknown_keys_counterexample :
  let u := unmarshal typed_scalars in
  let items := [("id", VInt 7); ("__class__", VStr "x")] in
  class_lookup Club "__class__" = None /\
  (exists st1,
     deserialize u Club (VDict [("id", VInt 7)]) None st0 = (Return tt, st1)) /\
  (exists st',
     deserialize u Club (VDict items) None st0 = (Raise TypeError, st')) /\
  ~ (exists st',
       deserialize u Club (VDict items) None st0 = (Return tt, st')).
Proof.
  intros u items.
  split; [reflexivity|].
  split; [eexists; vm_compute; reflexivity|].
  split; [eexists; vm_compute; reflexivity|].
  intros [st' H]. vm_compute in H. discriminate H.
Qed.

Lemma known_fields_round_trip_witness :
  let u := unmarshal typed_scalars in
  let items := [("id", VInt 7); ("name", VStr "Riders"); ("bind_client", VNone)] in
  let st' := (deserialize u Club (VDict items) (Some (VClient 0)) st0).2 in
  Forall (fun kv => declares Club kv.1 = true) items /\
  NoDup (keys items) /\
  deserialize u Club (VDict items) (Some (VClient 0)) st0 = (Return tt, st') /\
  forall items1 k v items2, items = items1 ++ (k, v) :: items2 ->
  exists st1 w,
    from_dict_items u items1 (start Club (Some (VClient 0)) st0)
      = (Return tt, st1) /\
    getattr u alice_client k st' = (Return w, st') /\
    read_attr (self st') k = Return w /\
    (forall d, class_lookup Club k = Some (CDescr d) ->
       (u d (owner_client (self st1)) v).2 = Return w) /\
    ((forall d, class_lookup Club k <> Some (CDescr d)) -> w = v).
Proof.
  intros u items st'.
  assert (Hall : Forall (fun kv => declares Club kv.1 = true) items)
    by (repeat constructor).
  assert (Hnd : NoDup (keys items))
    by (apply (bool_decide_unpack _); vm_compute; exact I).
  assert (H : deserialize u Club (VDict items) (Some (VClient 0)) st0
              = (Return tt, st'))
    by (vm_compute; reflexivity).
  split; [exact Hall|]. split; [exact Hnd|]. split; [exact H|].
  exact (known_fields_round_trip u alice_client Club items (Some (VClient 0))
           st0 st' Hall Hnd H).
Defined.

Lemma population_is_not_atomic_witness :
  let u := unmarshal typed_scalars in
  let items1 := [("id", VInt 7); ("name", VStr "Riders")] in
  let k := "resource_state" in
  let v := VStr "two" in
  let items2 := [("bind_client", VNone)] in
  let bc := Some (VClient 0) in
  let st1 := (deserialize u Club (VDict items1) bc st0).2 in
  api_keys items1 /\
  deserialize u Club (VDict items1) bc st0 = (Return tt, st1) /\
  hasattr_class Club k = true /\
  stored_form u (self st1) k v = Raise ValueError /\
  exists st2,
    deserialize u Club (VDict (items1 ++ (k, v) :: items2)) bc st0
      = (Raise ValueError, st2) /\
    self st2 = self st1 /\
    (forall a k' v' b, NoDup (keys items1) ->
       items1 = a ++ (k', v') :: b -> hasattr_class Club k' = true ->
       exists st',
         from_dict_items u a (start Club bc st0) = (Return tt, st') /\
         read_attr (self st2) k' = stored_form u (self st') k' v') /\
    (forall n, n ∉ keys items1 ->
       dict (self st2) !! n = dict (fresh Club bc) !! n /\
       slots (self st2) !! n = None) /\
    (forall n d, n ∉ keys items1 -> class_lookup Club n = Some (CDescr d) ->
       read_attr (self st2) n = Return VNone).
Proof.
  intros u items1 k v items2 bc st1.
  assert (Ha : api_keys items1) by (repeat constructor).
  assert (H : deserialize u Club (VDict items1) bc st0 = (Return tt, st1))
    by (vm_compute; reflexivity).
  assert (Hk : hasattr_class Club k = true) by reflexivity.
  assert (Hs : stored_form u (self st1) k v = Raise ValueError)
    by (vm_compute; reflexivity).
  split; [exact Ha|]. split; [exact H|]. split; [exact Hk|]. split; [exact Hs|].
  exact (population_is_not_atomic u Club items1 k v items2 bc st0 st1
           ValueError Ha H Hk Hs).
Defined.

Lemma club_caches_are_never_initialised_witness :
  let u := unmarshal typed_scalars in
  let args := [("bind_client", VClient 0); ("id", VInt 7); ("zzz", VNone)] in
  let v := VDict [("id", VInt 7); ("resource_state", VStr "two")] in
  let bc := Some (VClient 0) in
  let built := (construct u Club args st0).2 in
  let loaded := (deserialize u Club v bc st0).2 in
  api_keys args /\ ("self" ∉ keys args) /\
  (forall items, v = VDict items -> api_keys items) /\
  (construct u Club args st0).1 = Return tt /\
  (deserialize u Club v bc st0).1 = Raise ValueError /\
  class_lookup Club "_members" = None /\
  class_lookup Club "_activities" = None /\
  dict (self built) !! "_members" = None /\
  dict (self built) !! "_activities" = None /\
  dict (self loaded) !! "_members" = None /\
  dict (self loaded) !! "_activities" = None /\
  getattr u alice_client "members" built = (Raise AttributeError, built) /\
  getattr u alice_client "activities" built = (Raise AttributeError, built) /\
  getattr u alice_client "members" loaded = (Raise AttributeError, loaded) /\
  getattr u alice_client "activities" loaded = (Raise AttributeError, loaded).
Proof.
  intros u args v bc built loaded.
  assert (H1 : api_keys args) by (repeat constructor).
  assert (H2 : "self" ∉ keys args)
    by (apply (bool_decide_unpack _); vm_compute; exact I).
  assert (H3 : forall items, v = VDict items -> api_keys items).
  { intros items E. injection E as <-. repeat constructor. }
  assert (H4 : (construct u Club args st0).1 = Return tt)
    by (vm_compute; reflexivity).
  assert (H5 : (deserialize u Club v bc st0).1 = Raise ValueError)
    by (vm_compute; reflexivity).
  repeat (split; [assumption|]).
  exact (club_caches_are_never_initialised u alice_client args v bc st0
           H1 H2 H3).
Defined.

Lemma comma_attributes_store_raw_witness :
  let u := unmarshal typed_scalars in
  let k := "kudos_count" in
  let v := VStr "many" in
  k ∈ comma_names /\
  (exists d, class_lookup Activity k = Some (CTuple d) /\
     forall bc, read_attr (fresh Activity bc) k = Return (VTuple [VDescr d])) /\
  (forall st, cls (self st) = Activity ->
     setattr u k v st =
       (Return tt, State (set_dict (self st) k v) (log st) (trace st))) /\
  (forall items bc st st',
     api_keys items ->
     NoDup (keys items) -> (k, v) ∈ items ->
     deserialize u Activity (VDict items) bc st = (Return tt, st') ->
     read_attr (self st') k = Return v /\
     dict (self st') !! k = Some v /\
     slots (self st') !! k = None).
Proof.
  intros u k v.
  assert (Hk : k ∈ comma_names)
    by (apply (bool_decide_unpack _); vm_compute; exact I).
  split; [exact Hk|].
  exact (comma_attributes_store_raw u k v Hk).
Defined.

(** ** The lazily loaded relations *)

Lemma ret_run {A : Type} (a : A) (st : state) :
  (mret a : M A) st = (Return a, st).
Proof. reflexivity. Qed.

Lemma not_special (k : string) :
  k ∉ ["__class__"; "__dict__"; "__weakref__"] ->
  String.eqb k "__class__" = false /\
  String.eqb k "__dict__" = false /\
  String.eqb k "__weakref__" = false.
Proof.
  intros H.
  repeat split; apply String.eqb_neq; intros ->; apply H;
    [left | right; left | right; right; left].
Qed.

Lemma setattr_plain
    (u : descriptor -> value -> value -> list event * outcome value)
    (k : string) (v : value) (st : state) :
  plain_name (cls (self st)) k ->
  setattr u k v st =
    (Return tt, State (set_dict (self st) k v) (log st) (trace st)).
Proof.
  intros H. rewrite setattr_run.
  unfold plain_name in H. unfold stored_form, assign, nested_log.
  destruct (class_lookup (cls (self st)) k) as [[]|];
    try contradiction; rewrite app_nil_r; try reflexivity.
  destruct (not_special _ H) as (E1 & E2 & E3). rewrite E1, E2, E3.
  reflexivity.
Qed.

Lemma read_set_dict (o : instance) (k : string) (v : value) :
  plain_name (cls o) k -> read_attr (set_dict o k v) k = Return v.
Proof.
  intros H. unfold read_attr, descriptor_get, plain_name in *. cbn [set_dict cls dict].
  rewrite lookup_insert_eq.
  destruct (class_lookup (cls o) k) as [[]|]; try contradiction; reflexivity.
Qed.

(** The cache attributes are plain names of their classes. *)
Lemma plain_cache (p : property_name) : plain_name (owner_of p) (cache_of p).
Proof.
  destruct p; cbn; try exact I; intros H;
    repeat (apply elem_of_cons in H as [H|H]; [discriminate H|]);
    inversion H.
Qed.

Section Lazy.

Variable u : descriptor -> value -> value -> list event * outcome value.
Variable respond : list call -> call -> outcome value.

Ltac run_getter H0 H1 H2 H3 :=
  repeat (rewrite ?bind_run, ?load_run, ?ret_run, ?H0, ?H1, ?H2, ?H3;
          cbn [is_none call_client get_self self log trace]).

Lemma Club_members_first (st : state) (c : nat) (i r : value) :
  cls (self st) = Club ->
  dict (self st) !! "assert_bind_client" = None ->
  read_attr (self st) "_members" = Return VNone ->
  read_attr (self st) "bind_client" = Return (VClient c) ->
  read_attr (self st) "id" = Return i ->
  respond (trace st) (Call c "get_club_members" i) = Return r ->
  Club_members u respond st =
    (Return r,
     State (set_dict (self st) "_members" r) (log st)
           (trace st ++ [Call c "get_club_members" i])).
Proof.
  intros Hc Hs Hm Hb Hi Hr.
  unfold Club_members, call_assert_bind_client, assert_bind_client.
  run_getter Hs Hm Hb Hi. rewrite Hr.
  rewrite setattr_plain
    by (cbn [self]; rewrite Hc; apply (plain_cache p_members)).
  run_getter Hs Hm Hb Hi.
  rewrite read_set_dict by (rewrite Hc; apply (plain_cache p_members)).
  reflexivity.
Qed.

Lemma Club_activities_first (st : state) (c : nat) (i r : value) :
  cls (self st) = Club ->
  dict (self st) !! "assert_bind_client" = None ->
  read_attr (self st) "_activities" = Return VNone ->
  read_attr (self st) "bind_client" = Return (VClient c) ->
  read_attr (self st) "id" = Return i ->
  respond (trace st) (Call c "get_club_activities" i) = Return r ->
  Club_activities u respond st =
    (Return r,
     State (set_dict (self st) "_activities" r) (log st)
           (trace st ++ [Call c "get_club_activities" i])).
Proof.
  intros Hc Hs Hm Hb Hi Hr.
  unfold Club_activities, call_assert_bind_client, assert_bind_client.
  run_getter Hs Hm Hb Hi. rewrite Hr.
  rewrite setattr_plain
    by (cbn [self]; rewrite Hc; apply (plain_cache p_activities)).
  run_getter Hs Hm Hb Hi.
  rewrite read_set_dict by (rewrite Hc; apply (plain_cache p_activities)).
  reflexivity.
Qed.

Lemma Activity_gear_first (st : state) (c : nat) (g r : value) :
  cls (self st) = Activity ->
  dict (self st) !! "assert_bind_client" = None ->
  read_attr (self st) "_gear" = Return VNone ->
  read_attr (self st) "bind_client" = Return (VClient c) ->
  read_attr (self st) "gear_id" = Return g ->
  g <> VNone ->
  respond (trace st) (Call c "get_gear" g) = Return r ->
  Activity_gear u respond st =
    (Return r,
     State (set_dict (self st) "_gear" r) (log st)
           (trace st ++ [Call c "get_gear" g])).
Proof.
  intros Hc Hs Hm Hb Hi Hg Hr.
  unfold Activity_gear, call_assert_bind_client, assert_bind_client.
  run_getter Hs Hm Hb Hi.
  assert (Hn : is_none g = false) by (destruct g; try reflexivity; contradiction).
  rewrite Hn. run_getter Hs Hm Hb Hi. rewrite Hr.
  rewrite setattr_plain by (cbn [self]; rewrite Hc; exact I).
  run_getter Hs Hm Hb Hi.
  rewrite read_set_dict by (rewrite Hc; exact I). reflexivity.
Qed.

(** Once the cache holds a value other than [None], a getter returns it
    and touches nothing. *)
Lemma getter_cached (p : property_name) (st : state) (r : value) :
  read_attr (self st) (cache_of p) = Return r -> r <> VNone ->
  property_get u respond p st = (Return r, st).
Proof.
  intros Hm Hr.
  assert (Hn : is_none r = false) by (destruct r; try reflexivity; contradiction).
  destruct p; cbn [property_get cache_of] in *;
    unfold Club_members, Club_activities, Activity_gear;
    run_getter Hm Hm Hm Hm; rewrite Hn; run_getter Hm Hm Hm Hm; reflexivity.
Qed.

Lemma getattr_property (p : property_name) (st : state) :
  cls (self st) = owner_of p ->
  getattr u respond (name_of p) st = property_get u respond p st.
Proof.
  intros Hc. unfold getattr. rewrite bind_run. cbn [get_self]. rewrite Hc.
  destruct p; reflexivity.
Qed.

Lemma accesses_cached (p : property_name) (st : state) (r : value) (n : nat) :
  cls (self st) = owner_of p ->
  read_attr (self st) (cache_of p) = Return r -> r <> VNone ->
  accesses (getattr u respond (name_of p)) n st = (Return (replicate n r), st).
Proof.
  intros Hc Hm Hr. induction n as [|n IH]; [reflexivity|].
  cbn [accesses replicate]. rewrite bind_run.
  rewrite (getattr_property p st Hc), (getter_cached p st r Hm Hr).
  rewrite bind_run, IH. reflexivity.
Qed.

(** The first access of a relation whose fetch returns. *)
Lemma getter_first (p : property_name) (st : state) (c : nat) (a r : value) :
  cls (self st) = owner_of p ->
  dict (self st) !! "assert_bind_client" = None ->
  read_attr (self st) (cache_of p) = Return VNone ->
  read_attr (self st) "bind_client" = Return (VClient c) ->
  read_attr (self st) (key_of p) = Return a ->
  (p = p_gear -> a <> VNone) ->
  respond (trace st) (Call c (fetch_of p) a) = Return r ->
  getattr u respond (name_of p) st =
    (Return r,
     State (set_dict (self st) (cache_of p) r) (log st)
           (trace st ++ [Call c (fetch_of p) a])).
Proof.
  intros Hc Hs Hm Hb Hk Ha Hq.
  rewrite (getattr_property p st Hc).
  destruct p; cbn [property_get owner_of cache_of key_of fetch_of] in *.
  - apply Club_members_first; assumption.
  - apply Club_activities_first; assumption.
  - apply Activity_gear_first; try assumption. apply Ha. reflexivity.
Qed.

(** C3 (amended).  On a club whose [_members] reads [None], which is
    bound to a client and holds no attribute of its own under
    [assert_bind_client], the access of [members] returns the very value
    that the client's [get_club_members] answered for the club's id, and
    keeps it under [_members]: the answer is not converted, so a client
    that answers with a sequence of raw mappings gives a sequence of raw
    mappings. *)
Theorem club_members_returns_client_answer (st : state) (c : nat)
    (i r : value) :
  cls (self st) = Club ->
  dict (self st) !! "assert_bind_client" = None ->
  read_attr (self st) "_members" = Return VNone ->
  read_attr (self st) "bind_client" = Return (VClient c) ->
  read_attr (self st) "id" = Return i ->
  respond (trace st) (Call c "get_club_members" i) = Return r ->
  getattr u respond "members" st =
    (Return r,
     State (set_dict (self st) "_members" r) (log st)
           (trace st ++ [Call c "get_club_members" i])).
Proof.
  intros Hc Hs Hm Hb Hi Hr.
  change "members" with (name_of p_members).
  rewrite (getattr_property p_members st Hc).
  apply Club_members_first; assumption.
Qed.

(** C4 (amended).  For each of the three relations, on an entity bound
    to a client whose cache attribute reads [None] and which holds no
    attribute of its own under [assert_bind_client] (and, for [gear],
    whose [gear_id] is not [None]): the first access makes exactly one
    call of the fetch method, with the entity's [id] (with [gear_id] for
    [gear]), and when the client answers, it keeps the answer in the
    cache attribute and returns it; when the answer is not [None], any
    number of further accesses return it and leave the state, and so the
    trace of client calls, unchanged. *)
Theorem lazy_relation_fetches_once (p : property_name) (st : state)
    (c : nat) (a r : value) :
  cls (self st) = owner_of p ->
  dict (self st) !! "assert_bind_client" = None ->
  read_attr (self st) (cache_of p) = Return VNone ->
  read_attr (self st) "bind_client" = Return (VClient c) ->
  read_attr (self st) (key_of p) = Return a ->
  (p = p_gear -> a <> VNone) ->
  respond (trace st) (Call c (fetch_of p) a) = Return r ->
  let st1 := State (set_dict (self st) (cache_of p) r) (log st)
                   (trace st ++ [Call c (fetch_of p) a]) in
  getattr u respond (name_of p) st = (Return r, st1) /\
  (r <> VNone ->
   forall n,
     accesses (getattr u respond (name_of p)) n st1
       = (Return (replicate n r), st1)).
Proof.
  intros Hc Hs Hm Hb Hk Ha Hq st1. split.
  - apply getter_first; assumption.
  - intros Hr n. apply accesses_cached.
    + subst st1. cbn [self set_dict cls]. exact Hc.
    + subst st1. cbn [self]. apply read_set_dict. rewrite Hc.
      apply plain_cache.
    + exact Hr.
Qed.

End Lazy.

Lemma club_members_returns_client_answer_witness :
  let u := unmarshal typed_scalars in
  let club := (deserialize u Club (VDict [("id", VInt 5)])
                 (Some (VClient 0)) st0).2 in
  let st := State (set_dict (self club) "_members" VNone) (log club) (trace club) in
  let q := Call 0 "get_club_members" (VInt 5) in
  cls (self st) = Club /\
  dict (self st) !! "assert_bind_client" = None /\
  read_attr (self st) "_members" = Return VNone /\
  read_attr (self st) "bind_client" = Return (VClient 0) /\
  read_attr (self st) "id" = Return (VInt 5) /\
  alice_client (trace st) q = Return (VList [VDict alice]) /\
  getattr u alice_client "members" st =
    (Return (VList [VDict alice]),
     State (set_dict (self st) "_members" (VList [VDict alice])) (log st)
           (trace st ++ [q])).
Proof.
  intros u club st q.
  assert (H1 : cls (self st) = Club) by reflexivity.
  assert (H0 : dict (self st) !! "assert_bind_client" = None)
    by (vm_compute; reflexivity).
  assert (H2 : read_attr (self st) "_members" = Return VNone) by reflexivity.
  assert (H3 : read_attr (self st) "bind_client" = Return (VClient 0))
    by reflexivity.
  assert (H4 : read_attr (self st) "id" = Return (VInt 5))
    by (vm_compute; reflexivity).
  assert (H5 : alice_client (trace st) q = Return (VList [VDict alice]))
    by reflexivity.
  repeat (split; [assumption|]).
  exact (club_members_returns_client_answer u alice_client st 0%nat (VInt 5)
           (VList [VDict alice]) H1 H0 H2 H3 H4 H5).
Defined.

Lemma lazy_relation_fetches_once_witness :
  let u := unmarshal typed_scalars in
  let st := (deserialize u Activity
               (VDict [("id", VInt 7); ("gear_id", VStr "b77")])
               (Some (VClient 0)) st0).2 in
  let bike := VDict [("id", VStr "b77"); ("name", VStr "Tarmac")] in
  let q := Call 0 "get_gear" (VStr "b77") in
  cls (self st) = owner_of p_gear /\
  dict (self st) !! "assert_bind_client" = None /\
  read_attr (self st) (cache_of p_gear) = Return VNone /\
  read_attr (self st) "bind_client" = Return (VClient 0) /\
  read_attr (self st) (key_of p_gear) = Return (VStr "b77") /\
  (p_gear = p_gear -> VStr "b77" <> VNone) /\
  bike_client (trace st) (Call 0 (fetch_of p_gear) (VStr "b77")) = Return bike /\
  let st1 := State (set_dict (self st) (cache_of p_gear) bike) (log st)
                   (trace st ++ [Call 0 (fetch_of p_gear) (VStr "b77")]) in
  getattr u bike_client (name_of p_gear) st = (Return bike, st1) /\
  (bike <> VNone ->
   forall n,
     accesses (getattr u bike_client (name_of p_gear)) n st1
       = (Return (replicate n bike), st1)).
Proof.
  intros u st bike q.
  assert (H1 : cls (self st) = owner_of p_gear) by reflexivity.
  assert (H0 : dict (self st) !! "assert_bind_client" = None)
    by (vm_compute; reflexivity).
  assert (H2 : read_attr (self st) (cache_of p_gear) = Return VNone)
    by reflexivity.
  assert (H3 : read_attr (self st) "bind_client" = Return (VClient 0))
    by reflexivity.
  assert (H4 : read_attr (self st) (key_of p_gear) = Return (VStr "b77"))
    by (vm_compute; reflexivity).
  assert (H5 : p_gear = p_gear -> VStr "b77" <> VNone) by discriminate.
  assert (H6 : bike_client (trace st) (Call 0 (fetch_of p_gear) (VStr "b77"))
               = Return bike) by reflexivity.
  repeat (split; [assumption|]).
  exact (lazy_relation_fetches_once u bike_client p_gear st 0%nat (VStr "b77")
           bike H1 H0 H2 H3 H4 H5 H6).
Defined.

(** The claim C3 at its input: a club bound to a stub client that answers
    [[{"id": 1, "name": "Alice"}]].  The access of [members] gives no
    sequence of one entity: it raises; and from a club whose [_members]
    has been set to [None] it returns the stub's raw mapping; and
    [Athlete] declares no attribute [name]. *)
Lemma club_members_counterexample :
  let u := unmarshal typed_scalars in
  let club := (deserialize u Club (VDict [("id", VInt 5)])
                 (Some (VClient 0)) st0).2 in
  let primed := State (set_dict (self club) "_members" VNone) (log club)
                      (trace club) in
  ~ (exists a st',
       getattr u alice_client "members" club = (Return (VList [VEntity a]), st')) /\
  ~ (exists a st',
       getattr u alice_client "members" primed = (Return (VList [VEntity a]), st')) /\
  getattr u alice_client "members" primed
    = (Return (VList [VDict alice]),
       State (set_dict (self primed) "_members" (VList [VDict alice]))
             (log primed) [Call 0 "get_club_members" (VInt 5)]) /\
  class_lookup Athlete "name" = None.
Proof.
  intros u club primed.
  split; [|split; [|split; [vm_compute; reflexivity|reflexivity]]];
    intros (a & st' & H); vm_compute in H; discriminate H.
Qed.

(** The claim C4 at a bound activity: without a [gear_id] the first
    access of [gear] makes no call at all; and with a client that answers
    [None] the second access calls the client again. *)
Lemma lazy_relations_counterexample :
  let u := unmarshal typed_scalars in
  let plain := (deserialize u Activity (VDict [("id", VInt 7)])
                  (Some (VClient 0)) st0).2 in
  let geared := (deserialize u Activity
                   (VDict [("id", VInt 7); ("gear_id", VStr "b77")])
                   (Some (VClient 0)) st0).2 in
  ~ (exists r st',
       getattr u bike_client "gear" plain = (r, st') /\
       length (trace st') = 1%nat) /\
  ~ (exists r st',
       accesses (getattr u no_gear_client "gear") 2 geared = (r, st') /\
       length (trace st') = 1%nat).
Proof.
  intros u plain geared.
  split; intros (r & st' & H & Hlen); vm_compute in H;
    injection H as _ <-; discriminate Hlen.
Qed.

(** C1.  The code at the input of the claim: a club built without a
    client, by the constructor or by [deserialize], raises
    [AttributeError] on [members] and on [activities], where the claim
    has [UnboundEntity]; an activity built the same way raises
    [UnboundEntity] on [gear], because [Activity] binds [_gear = None]
    and [Club] has no such line for [_members] and [_activities]. *)
Theorem unbound_club_raises_attribute_error
    (u : descriptor -> value -> value -> list event * outcome value)
    (respond : list call -> call -> outcome value) :
  let club := (construct u Club [] st0).2 in
  let loaded := (deserialize u Club (VDict []) None st0).2 in
  let activity := (construct u Activity [] st0).2 in
  owner_client (self club) = VNone /\
  getattr u respond "members" club = (Raise AttributeError, club) /\
  getattr u respond "activities" club = (Raise AttributeError, club) /\
  getattr u respond "members" loaded = (Raise AttributeError, loaded) /\
  getattr u respond "activities" loaded = (Raise AttributeError, loaded) /\
  getattr u respond "gear" activity = (Raise UnboundEntity, activity).
Proof. repeat split; vm_compute; reflexivity. Qed.

(** ** Nested entities *)

Section Nested.

Variable other : descriptor -> value -> value -> outcome value.

(** What [build] makes of a deserialization that returns is an entity of
    the class asked for. *)
Lemma build_deserialize_class (c : class_name) (items : list (string * value))
    (bc : option value) (w : value) (evs : list event) :
  build (deserialize (unmarshal other) c (VDict items) bc) c = (evs, Return w) ->
  exists a, w = VEntity a /\ cls a = c.
Proof.
  unfold build. intros H.
  destruct (deserialize _ _ _ _ _) as [[[]|e] st1] eqn:Hrun;
    [|discriminate H].
  injection H as _ <-. eexists. split; [reflexivity|].
  pose proof (deserialize_returns_accepts _ _ _ _ _ _ Hrun) as Hacc.
  rewrite (deserialize_run _ _ _ _ _ Hacc) in Hrun.
  apply from_dict_items_class in Hrun.
  destruct Hrun as (Hc & _). rewrite Hc. apply cls_fresh.
Qed.

(** C9.  In a payload of an effort class that populates, the value of
    the key [activity], a mapping, is stored as an entity of class
    [Activity]: the name ["Activity"] of the declaration is resolved when
    the descriptor converts, and the entity is the one that
    [Activity.deserialize] builds from the sub-mapping with the client of
    the owning effort. *)
Theorem effort_activity_is_typed (c : class_name)
    (items sub : list (string * value)) (bc : option value) (st st' : state) :
  c ∈ [BaseEffort; BestEffort; SegmentEffort] ->
  NoDup (keys items) ->
  ("activity", VDict sub) ∈ items ->
  deserialize (unmarshal other) c (VDict items) bc st = (Return tt, st') ->
  class_lookup c "activity"
    = Some (CDescr (EntityAttribute (ByName "Activity") SD)) /\
  resolve (ByName "Activity") = Some Activity /\
  exists (a : instance) (items1 items2 : list (string * value))
         (st1 : state) (evs : list event),
    items = items1 ++ ("activity", VDict sub) :: items2 /\
    from_dict_items (unmarshal other) items1 (start c bc st) = (Return tt, st1) /\
    build (deserialize (unmarshal other) Activity (VDict sub)
             (Some (owner_client (self st1)))) Activity
      = (evs, Return (VEntity a)) /\
    cls a = Activity /\
    read_attr (self st') "activity" = Return (VEntity a).
Proof.
  intros Hin Hnd Hkv Hrun.
  assert (Hd : class_lookup c "activity"
               = Some (CDescr (EntityAttribute (ByName "Activity") SD))).
  { repeat (apply elem_of_cons in Hin as [-> | Hin]; [reflexivity|]).
    inversion Hin. }
  split; [exact Hd|]. split; [reflexivity|].
  apply list_elem_of_split in Hkv as (items1 & items2 & ->).
  pose proof (deserialize_returns_accepts _ _ _ _ _ _ Hrun) as Hacc.
  rewrite (deserialize_run _ _ _ _ _ Hacc) in Hrun.
  destruct (from_dict_items_descriptor (unmarshal other) items1 items2
              "activity" (VDict sub)
              (EntityAttribute (ByName "Activity") SD) (start c bc st) st'
              Hnd ltac:(rewrite cls_start; exact Hd) Hrun)
    as (st1 & w & H1 & Hc1 & Hc & Hs & Hread).
  rewrite cls_start in Hc1.
  unfold stored_form in Hs. rewrite Hc1, Hd in Hs.
  cbn [unmarshal] in Hs.
  change (resolve (ByName "Activity")) with (Some Activity) in Hs.
  change (is_bound Activity) with true in Hs.
  cbv beta iota in Hs.
  destruct (build _ Activity) as [evs r] eqn:Hb. cbn [snd] in Hs. subst r.
  destruct (build_deserialize_class _ _ _ _ _ Hb) as (a & -> & Ha).
  exists a, items1, items2, st1, evs.
  repeat split; assumption.
Qed.

End Nested.

Lemma effort_activity_is_typed_witness :
  let u := unmarshal typed_scalars in
  let sub := [("id", VInt 9); ("name", VStr "Ride"); ("zzz", VNone)] in
  let items := [("id", VInt 7); ("activity", VDict sub)] in
  let bc := Some (VClient 0) in
  let st' := (deserialize u SegmentEffort (VDict items) bc st0).2 in
  SegmentEffort ∈ [BaseEffort; BestEffort; SegmentEffort] /\
  NoDup (keys items) /\
  ("activity", VDict sub) ∈ items /\
  deserialize u SegmentEffort (VDict items) bc st0 = (Return tt, st') /\
  class_lookup SegmentEffort "activity"
    = Some (CDescr (EntityAttribute (ByName "Activity") SD)) /\
  resolve (ByName "Activity") = Some Activity /\
  exists (a : instance) (items1 items2 : list (string * value))
         (st1 : state) (evs : list event),
    items = items1 ++ ("activity", VDict sub) :: items2 /\
    from_dict_items u items1 (start SegmentEffort bc st0)
      = (Return tt, st1) /\
    build (deserialize u Activity (VDict sub) (Some (owner_client (self st1))))
          Activity
      = (evs, Return (VEntity a)) /\
    cls a = Activity /\
    read_attr (self st') "activity" = Return (VEntity a).
Proof.
  intros u sub items bc st'.
  assert (H1 : SegmentEffort ∈ [BaseEffort; BestEffort; SegmentEffort])
    by (apply (bool_decide_unpack _); vm_compute; exact I).
  assert (H2 : NoDup (keys items))
    by (apply (bool_decide_unpack _); vm_compute; exact I).
  assert (H3 : ("activity", VDict sub) ∈ items)
    by (right; left).
  assert (H4 : deserialize u SegmentEffort (VDict items) bc st0
               = (Return tt, st')) by (vm_compute; reflexivity).
  repeat (split; [assumption|]).
  exact (effort_activity_is_typed typed_scalars SegmentEffort items sub
           bc st0 st' H1 H2 H3 H4).
Defined.

(** ** The class tables *)

(** The linearisation written out in [mro] starts with the class and
    contains the linearisation of each of its bases. *)
Lemma mro_extends_bases (c : class_name) :
  head (mro c) = Some c /\
  Forall (fun b => mro b ⊆ mro c) (bases c).
Proof.
  split; [destruct c; reflexivity|].
  destruct c; apply (bool_decide_unpack _); vm_compute; exact I.
Qed.

(** The names that the methods and getters of the module read on [self]
    are bound to a property in no class, so reading them is [read_attr]. *)
Lemma method_reads_are_plain (c : class_name) (k : string) (p : property_name) :
  k ∈ ["log"; "bind_client"; "id"; "gear_id"; "_members"; "_activities";
       "_gear"] ->
  class_lookup c k <> Some (CProperty p).
Proof.
  intros Hk.
  repeat (apply elem_of_cons in Hk as [-> | Hk];
          [destruct c; discriminate|]).
  inversion Hk.
Qed.

Lemma getattr_plain
    (u : descriptor -> value -> value -> list event * outcome value)
    (respond : list call -> call -> outcome value) (k : string) (st : state) :
  (forall p, class_lookup (cls (self st)) k <> Some (CProperty p)) ->
  getattr u respond k st = load k st.
Proof.
  intros H. unfold getattr. rewrite bind_run. cbn [get_self].
  destruct (class_lookup (cls (self st)) k) as [[]|]; try reflexivity.
  exfalso. eapply H. reflexivity.
Qed.

Lemma loadable_bind_client (c : class_name) :
  LoadableEntity ∈ mro c -> class_lookup c "bind_client" = Some CNone.
Proof.
  intros H. apply (bool_decide_eq_true_2 _) in H.
  destruct c; first [reflexivity | discriminate H].
Qed.

Lemma lookup_in_elem_of (cs : list class_name) (k : string) (a : class_attr) :
  lookup_in cs k = Some a ->
  exists c, c ∈ cs /\ (k, a) ∈ own_attrs c.
Proof.
  induction cs as [|c cs IH]; intros H; [discriminate H|].
  cbn [lookup_in] in H.
  destruct (assoc k (own_attrs c)) as [a'|] eqn:Ha.
  - injection H as ->. exists c. split; [left|apply assoc_elem_of, Ha].
  - destruct (IH H) as (c' & Hc' & Hin). exists c'. split; [right|]; assumption.
Qed.

Lemma own_tuples (c : class_name) (k : string) (d : descriptor) :
  (k, CTuple d) ∈ own_attrs c -> c = Activity /\ k ∈ comma_names.
Proof.
  intros H.
  destruct c; cbn [own_attrs] in H;
    cbv [att attu att0 attu0 att_comma] in H;
    repeat (apply elem_of_cons in H as [H|H];
            [first [discriminate H
                   | injection H as -> _; split; [reflexivity|];
                     apply (bool_decide_unpack _); vm_compute; exact I]|]);
    inversion H.
Qed.

Lemma own_properties (c : class_name) (k : string) (p : property_name) :
  (k, CProperty p) ∈ own_attrs c -> c = Club \/ c = Activity.
Proof.
  intros H.
  destruct c; cbn [own_attrs] in H;
    cbv [att attu att0 attu0 att_comma] in H;
    repeat (apply elem_of_cons in H as [H|H];
            [first [discriminate H | left; reflexivity | right; reflexivity]|]);
    inversion H.
Qed.

Lemma Activity_has_no_subclass (c : class_name) :
  Activity ∈ mro c -> c = Activity.
Proof.
  intros H. apply (bool_decide_eq_true_2 _) in H.
  destruct c; first [reflexivity | discriminate H].
Qed.

Lemma Club_has_no_subclass (c : class_name) :
  Club ∈ mro c -> c = Club.
Proof.
  intros H. apply (bool_decide_eq_true_2 _) in H.
  destruct c; first [reflexivity | discriminate H].
Qed.

(** Only [Club] and [Activity] have properties, and both are below
    [BoundEntity]. *)
Lemma property_owner_bound (c : class_name) (k : string) (p : property_name) :
  class_lookup c k = Some (CProperty p) -> is_bound c = true.
Proof.
  intros H. unfold class_lookup in H.
  destruct (lookup_in_elem_of _ _ _ H) as (c' & Hc' & Hin).
  destruct (own_properties _ _ _ Hin) as [-> | ->].
  - rewrite (Club_has_no_subclass _ Hc'). reflexivity.
  - rewrite (Activity_has_no_subclass _ Hc'). reflexivity.
Qed.

(** ** [LoadableEntity.hydrate] *)

(** C8.  On every entity of a class below [LoadableEntity], [hydrate]
    raises: [UnboundEntity] when [self.bind_client] is [None] (or any
    other false value), [NotImplementedError] when a client is bound.  It
    never returns normally, and the instance, the log and the trace of
    client calls are left as they were, so no fetch is started. *)
Theorem hydrate_fails_loudly (st : state) :
  LoadableEntity ∈ mro (cls (self st)) ->
  exists bc,
    read_attr (self st) "bind_client" = Return bc /\
    hydrate st =
      (Raise (if truthy bc then NotImplementedError else UnboundEntity), st) /\
    (bc = VNone -> hydrate st = (Raise UnboundEntity, st)) /\
    (forall c, bc = VClient c -> hydrate st = (Raise NotImplementedError, st)).
Proof.
  intros Hc.
  pose proof (loadable_bind_client _ Hc) as Hb.
  exists (default VNone (dict (self st) !! "bind_client")).
  assert (Hread : read_attr (self st) "bind_client"
                  = Return (default VNone (dict (self st) !! "bind_client"))).
  { unfold read_attr. rewrite Hb. reflexivity. }
  assert (Hrun : hydrate st =
    (Raise (if truthy (default VNone (dict (self st) !! "bind_client"))
            then NotImplementedError else UnboundEntity), st)).
  { unfold hydrate. rewrite bind_run, load_run, Hread.
    destruct (truthy _); reflexivity. }
  split; [exact Hread|]. split; [exact Hrun|]. split.
  - intros E. rewrite Hrun, E. reflexivity.
  - intros c E. rewrite Hrun, E. reflexivity.
Qed.

Lemma hydrate_fails_loudly_witness :
  let bound := State (fresh Club (Some (VClient 0))) [] [] in
  let unbound := State (fresh Activity None) [] [] in
  (LoadableEntity ∈ mro (cls (self bound)) /\
   exists bc,
     read_attr (self bound) "bind_client" = Return bc /\
     hydrate bound =
       (Raise (if truthy bc then NotImplementedError else UnboundEntity),
        bound) /\
     (bc = VNone -> hydrate bound = (Raise UnboundEntity, bound)) /\
     (forall c, bc = VClient c ->
                hydrate bound = (Raise NotImplementedError, bound))) /\
  (LoadableEntity ∈ mro (cls (self unbound)) /\
   exists bc,
     read_attr (self unbound) "bind_client" = Return bc /\
     hydrate unbound =
       (Raise (if truthy bc then NotImplementedError else UnboundEntity),
        unbound) /\
     (bc = VNone -> hydrate unbound = (Raise UnboundEntity, unbound)) /\
     (forall c, bc = VClient c ->
                hydrate unbound = (Raise NotImplementedError, unbound))).
Proof.
  intros bound unbound.
  assert (H1 : LoadableEntity ∈ mro (cls (self bound)))
    by (apply (bool_decide_unpack _); vm_compute; exact I).
  assert (H2 : LoadableEntity ∈ mro (cls (self unbound)))
    by (apply (bool_decide_unpack _); vm_compute; exact I).
  split; (split; [assumption|]).
  - exact (hydrate_fails_loudly bound H1).
  - exact (hydrate_fails_loudly unbound H2).
Defined.

(** * Further properties of the module *)

(** ** The order of the keys of a payload *)

Lemma owner_client_assign (o : instance) (k : string) (w : value) :
  k <> "bind_client" -> k <> "__dict__" ->
  owner_client (assign o k w) = owner_client o.
Proof.
  intros Hk Hd. unfold owner_client.
  rewrite (read_attr_ext o (assign o k w) "bind_client");
    [reflexivity | apply cls_assign | apply dict_assign_ne; assumption
    | apply slots_assign_ne, Hk].
Qed.

Lemma stored_form_assign
    (u : descriptor -> value -> value -> list event * outcome value)
    (o : instance) (k k' : string) (v w : value) :
  k' <> "bind_client" -> k' <> "__dict__" ->
  stored_form u (assign o k' w) k v = stored_form u o k v.
Proof.
  intros Hk Hd. unfold stored_form.
  rewrite cls_assign, (owner_client_assign _ _ _ Hk Hd). reflexivity.
Qed.

Lemma assign_commute (o : instance) (k1 k2 : string) (w1 w2 : value) :
  k1 <> k2 -> k1 <> "__dict__" -> k2 <> "__dict__" ->
  assign (assign o k1 w1) k2 w2 = assign (assign o k2 w2) k1 w1.
Proof.
  intros Hne Hd1 Hd2. unfold assign at 1 3. rewrite !cls_assign. unfold assign.
  assert (Hne' : k2 <> k1) by congruence.
  apply String.eqb_neq in Hd1, Hd2.
  destruct (class_lookup (cls o) k1) as [[]|],
           (class_lookup (cls o) k2) as [[]|];
    rewrite ?Hd1, ?Hd2;
    unfold set_dict, set_slot; cbn [cls dict slots];
    rewrite ?(insert_insert_ne _ k2 k1) by exact Hne'; reflexivity.
Qed.

Section Order.

Variable u : descriptor -> value -> value -> list event * outcome value.

(** On an ordinary key that the class has, the class binds the key. *)
Lemma ordinary_declared (c : class_name) (k : string) :
  ordinary c k = true -> hasattr_class c k = true ->
  declares c k = true /\ k <> "log" /\ k <> "__dict__".
Proof.
  intros Ho Hh. rewrite (hasattr_ordinary _ _ Ho) in Hh.
  split; [exact Hh|]. split; [|exact (declares_not_dict _ _ Hh)].
  apply (hasattr_not_log c), hasattr_declares, Hh.
Qed.

Lemma item_result_keeps (k : string) (v : value) (o o' : instance)
    (c0 : class_name) :
  dict o !! "log" = Some (VLogger c0) ->
  ordinary (cls o) k = true ->
  item_result u k v o = Some o' ->
  cls o' = cls o /\ dict o' !! "log" = Some (VLogger c0).
Proof.
  unfold item_result. intros Hl Ho H.
  destruct (hasattr_class (cls o) k) eqn:Hk.
  - destruct (stored_form u o k v) as [w|e]; [|discriminate H].
    injection H as <-. split; [apply cls_assign|].
    destruct (ordinary_declared _ _ Ho Hk) as (_ & Hlog & Hd).
    rewrite dict_assign_ne by assumption. exact Hl.
  - injection H as <-. split; [reflexivity|exact Hl].
Qed.

(** A round that does not raise hands its object to the rest of the loop;
    a loop that returns has passed every round. *)
Lemma from_dict_items_passes (k : string) (v : value)
    (rest : list (string * value)) (st : state) (c0 : class_name)
    (o' : instance) :
  dict (self st) !! "log" = Some (VLogger c0) ->
  item_result u k v (self st) = Some o' ->
  exists lg,
    from_dict_items u ((k, v) :: rest) st =
    from_dict_items u rest (State o' lg (trace st)).
Proof.
  intros Hl H. rewrite (from_dict_items_cons u _ _ _ _ _ Hl).
  unfold item_result in H.
  destruct (hasattr_class (cls (self st)) k).
  - destruct (stored_form u (self st) k v) as [w|e]; [|discriminate H].
    injection H as <-. eexists. reflexivity.
  - injection H as <-. eexists. reflexivity.
Qed.

Lemma from_dict_items_returned (k : string) (v : value)
    (rest : list (string * value)) (st st1 : state) (c0 : class_name) :
  dict (self st) !! "log" = Some (VLogger c0) ->
  from_dict_items u ((k, v) :: rest) st = (Return tt, st1) ->
  exists o' lg,
    item_result u k v (self st) = Some o' /\
    from_dict_items u rest (State o' lg (trace st)) = (Return tt, st1).
Proof.
  intros Hl H. rewrite (from_dict_items_cons u _ _ _ _ _ Hl) in H.
  unfold item_result.
  destruct (hasattr_class (cls (self st)) k).
  - destruct (stored_form u (self st) k v) as [w|e]; [|discriminate H].
    eauto.
  - eauto.
Qed.

(** Two rounds on distinct ordinary keys, neither of which is
    [bind_client], can be exchanged. *)
Lemma item_result_commute (k1 k2 : string) (v1 v2 : value)
    (o o1 o12 : instance) :
  k1 <> k2 -> k1 <> "bind_client" -> k2 <> "bind_client" ->
  ordinary (cls o) k1 = true -> ordinary (cls o) k2 = true ->
  item_result u k1 v1 o = Some o1 ->
  item_result u k2 v2 o1 = Some o12 ->
  exists o2,
    item_result u k2 v2 o = Some o2 /\ item_result u k1 v1 o2 = Some o12.
Proof.
  intros Hne Hb1 Hb2 Ho1 Ho2. unfold item_result. intros H1 H2.
  destruct (hasattr_class (cls o) k1) eqn:Hk1.
  - destruct (ordinary_declared _ _ Ho1 Hk1) as (_ & _ & Hd1).
    destruct (stored_form u o k1 v1) as [w1|e] eqn:Hs1; [|discriminate H1].
    injection H1 as <-. rewrite cls_assign in H2.
    rewrite (stored_form_assign u o k2 k1 v2 w1 Hb1 Hd1) in H2.
    destruct (hasattr_class (cls o) k2) eqn:Hk2.
    + destruct (ordinary_declared _ _ Ho2 Hk2) as (_ & _ & Hd2).
      destruct (stored_form u o k2 v2) as [w2|e] eqn:Hs2; [|discriminate H2].
      injection H2 as <-. eexists. split; [reflexivity|].
      rewrite cls_assign, Hk1, (stored_form_assign u o k1 k2 v1 w2 Hb2 Hd2), Hs1.
      rewrite (assign_commute o k1 k2 w1 w2 Hne Hd1 Hd2). reflexivity.
    + injection H2 as <-. eexists. split; [reflexivity|].
      rewrite Hk1, Hs1. reflexivity.
  - injection H1 as <-.
    destruct (hasattr_class (cls o) k2) eqn:Hk2.
    + destruct (stored_form u o k2 v2) as [w2|e] eqn:Hs2; [|discriminate H2].
      injection H2 as <-. eexists. split; [reflexivity|].
      rewrite cls_assign, Hk1. reflexivity.
    + injection H2 as <-. eexists. split; [reflexivity|].
      rewrite Hk1. reflexivity.
Qed.

Lemma from_dict_items_permutation (items items' : list (string * value)) :
  items ≡ₚ items' ->
  forall (st st1 : state) (c0 : class_name),
  dict (self st) !! "log" = Some (VLogger c0) ->
  Forall (fun kv => ordinary (cls (self st)) kv.1 = true) items ->
  NoDup (keys items) ->
  "bind_client" ∉ keys items ->
  from_dict_items u items st = (Return tt, st1) ->
  exists lg,
    from_dict_items u items' st = (Return tt, State (self st1) lg (trace st1)).
Proof.
  induction 1 as [|[k v] items items' Hp IH|[k2 v2] [k1 v1] items
                 |items items' items'' Hp1 IH1 Hp2 IH2];
    intros st st1 c0 Hl Hord Hnd Hnb Hrun.
  - cbn in Hrun. injection Hrun as <-. exists (log st). destruct st; reflexivity.
  - unfold keys in Hnd, Hnb. rewrite fmap_cons in Hnd, Hnb.
    apply list.NoDup_cons in Hnd as [_ Hnd].
    apply not_elem_of_cons in Hnb as [_ Hnb].
    apply list.Forall_cons in Hord as [Ho Hord]. cbn [fst] in Ho.
    destruct (from_dict_items_returned _ _ _ _ _ _ Hl Hrun)
      as (o' & lg & Hi & Hrest).
    destruct (item_result_keeps _ _ _ _ _ Hl Ho Hi) as [Hc' Hl'].
    destruct (from_dict_items_passes k v items' st c0 o' Hl Hi) as [lg' ->].
    destruct (from_dict_items_any_log u items (State o' lg (trace st)) st1
                (Return tt) lg' Hrest) as [lg1 H1].
    cbn [self trace] in H1.
    destruct (IH (State o' lg' (trace st)) _ c0 Hl'
                ltac:(cbn [self]; rewrite Hc'; exact Hord) Hnd Hnb H1)
      as [lg2 H2].
    cbn [self trace] in H2. eauto.
  - unfold keys in Hnd, Hnb. rewrite !fmap_cons in Hnd, Hnb. cbn [fst] in *.
    apply list.NoDup_cons in Hnd as [Hne Hnd].
    apply not_elem_of_cons in Hne as [Hne _].
    apply not_elem_of_cons in Hnb as [Hb1 Hnb].
    apply not_elem_of_cons in Hnb as [Hb2 _].
    apply list.Forall_cons in Hord as [Ho1 Hord]. cbn [fst] in Ho1.
    apply list.Forall_cons in Hord as [Ho2 Hord]. cbn [fst] in Ho2.
    destruct (from_dict_items_returned _ _ _ _ _ _ Hl Hrun)
      as (o1 & lg1 & Hi1 & Hrun1).
    destruct (item_result_keeps _ _ _ _ _ Hl Ho1 Hi1) as [Hc1 Hl1].
    destruct (from_dict_items_returned k2 v2 items (State o1 lg1 (trace st))
                st1 c0 Hl1 Hrun1) as (o12 & lg12 & Hi2 & Hrest).
    cbn [self trace] in Hi2, Hrest.
    destruct (item_result_keeps _ _ _ _ _ Hl1
                ltac:(rewrite Hc1; exact Ho2) Hi2) as [_ Hl12].
    destruct (item_result_commute k1 k2 v1 v2 _ _ _ Hne
                ltac:(congruence) ltac:(congruence) Ho1 Ho2 Hi1 Hi2)
      as (o2 & Hj2 & Hj1).
    destruct (item_result_keeps _ _ _ _ _ Hl Ho2 Hj2) as [_ Hl2].
    destruct (from_dict_items_passes k2 v2 ((k1, v1) :: items) st c0 o2 Hl Hj2)
      as [lga ->].
    destruct (from_dict_items_passes k1 v1 items (State o2 lga (trace st)) c0 o12
                Hl2 Hj1) as [lgb ->].
    cbn [trace].
    destruct (from_dict_items_any_log u items (State o12 lg12 (trace st)) st1
                (Return tt) lgb Hrest) as [lgc Hc].
    cbn [self trace] in Hc. eauto.
  - destruct (IH1 st st1 c0 Hl Hord Hnd Hnb Hrun) as [lg1 H1].
    assert (Hord' : Forall (fun kv => ordinary (cls (self st)) kv.1 = true) items').
    { rewrite <- Hp1. exact Hord. }
    assert (Hnd' : NoDup (keys items')).
    { unfold keys in *. rewrite <- Hp1. exact Hnd. }
    assert (Hnb' : "bind_client" ∉ keys items').
    { unfold keys in *. rewrite <- Hp1. exact Hnb. }
    destruct (IH2 st _ c0 Hl Hord' Hnd' Hnb' H1) as [lg2 H2].
    cbn [self trace] in H2. eauto.
Qed.

(** X1.  The object that [deserialize] builds does not depend on the order
    in which the mapping yields its items: for a payload of distinct
    field names that does not carry the key [bind_client], if the
    population returns for one order of the items, it returns for every
    other order and builds the same object, without any client call. *)
Theorem population_order_is_irrelevant (c : class_name)
    (items items' : list (string * value)) (bc : option value)
    (st st1 : state) :
  items ≡ₚ items' ->
  api_keys items ->
  NoDup (keys items) ->
  "bind_client" ∉ keys items ->
  deserialize u c (VDict items) bc st = (Return tt, st1) ->
  exists st2,
    deserialize u c (VDict items') bc st = (Return tt, st2) /\
    self st2 = self st1 /\ trace st2 = trace st1 /\ trace st1 = trace st.
Proof.
  intros Hp Hapi Hnd Hnb Hrun.
  pose proof (deserialize_returns_accepts _ _ _ _ _ _ Hrun) as Hacc.
  rewrite (deserialize_run _ _ _ _ _ Hacc) in Hrun.
  destruct (from_dict_items_permutation _ _ Hp (start c bc st) st1 c
              (log_fresh c bc) (api_keys_ordinary _ _ Hapi) Hnd Hnb Hrun)
    as [lg H].
  eexists. rewrite (deserialize_run _ _ _ _ _ Hacc). split; [exact H|].
  split; [reflexivity|]. split; [reflexivity|].
  apply from_dict_items_class in Hrun. apply Hrun.
Qed.

End Order.

Lemma population_order_is_irrelevant_witness :
  let u := unmarshal typed_scalars in
  let items := [("id", VInt 7); ("zzz", VNone); ("name", VStr "Riders")] in
  let items' := [("name", VStr "Riders"); ("id", VInt 7); ("zzz", VNone)] in
  let bc := Some (VClient 0) in
  let st1 := (deserialize u Club (VDict items) bc st0).2 in
  (items ≡ₚ items') /\
  api_keys items /\
  NoDup (keys items) /\
  ("bind_client" ∉ keys items) /\
  deserialize u Club (VDict items) bc st0 = (Return tt, st1) /\
  exists st2,
    deserialize u Club (VDict items') bc st0 = (Return tt, st2) /\
    self st2 = self st1 /\ trace st2 = trace st1 /\ trace st1 = trace st0.
Proof.
  intros u items items' bc st1.
  assert (H1 : items ≡ₚ items').
  { subst items items'.
    apply (Permutation_cons_app [("name", VStr "Riders")]
             [("zzz", VNone)] ("id", VInt 7)).
    apply (Permutation_cons_app [("name", VStr "Riders")] [] ("zzz", VNone)).
    reflexivity. }
  assert (Ha : api_keys items) by (repeat constructor).
  assert (H2 : NoDup (keys items))
    by (apply (bool_decide_unpack _); vm_compute; exact I).
  assert (H3 : "bind_client" ∉ keys items)
    by (apply (bool_decide_unpack _); vm_compute; exact I).
  assert (H4 : deserialize u Club (VDict items) bc st0 = (Return tt, st1))
    by (vm_compute; reflexivity).
  repeat (split; [assumption|]).
  exact (population_order_is_irrelevant u Club items items' bc st0 st1
           H1 Ha H2 H3 H4).
Defined.

(** ** Population of an object that exists *)

Lemma is_Some_assign_dict (o : instance) (k n : string) (w : value) :
  k <> "__dict__" ->
  is_Some (dict o !! n) -> is_Some (dict (assign o k w) !! n).
Proof.
  intros Hd H. unfold assign. apply String.eqb_neq in Hd.
  destruct (class_lookup (cls o) k) as [[]|]; rewrite ?Hd;
    cbn [set_dict set_slot dict];
    try exact H; apply lookup_insert_is_Some';
    right; exact H.
Qed.

Lemma is_Some_assign_slots (o : instance) (k n : string) (w : value) :
  is_Some (slots o !! n) -> is_Some (slots (assign o k w) !! n).
Proof.
  intros H. unfold assign.
  destruct (class_lookup (cls o) k) as [[]|]; cbn [set_dict set_slot slots];
    try exact H; try (apply lookup_insert_is_Some'; right; exact H).
  destruct (String.eqb k "__dict__"); [destruct w|]; exact H.
Qed.

Section Repopulation.

Variable u : descriptor -> value -> value -> list event * outcome value.

Lemma from_dict_items_grows (items : list (string * value)) :
  forall (st st' : state) (r : outcome unit) (c0 : class_name) (n : string),
  dict (self st) !! "log" = Some (VLogger c0) ->
  Forall (fun kv => ordinary (cls (self st)) kv.1 = true) items ->
  from_dict_items u items st = (r, st') ->
  (is_Some (dict (self st) !! n) -> is_Some (dict (self st') !! n)) /\
  (is_Some (slots (self st) !! n) -> is_Some (slots (self st') !! n)).
Proof.
  induction items as [|[k v] rest IH]; intros st st' r c0 n Hl Hord Hrun.
  - cbn in Hrun. injection Hrun as <- <-. split; intros H; exact H.
  - rewrite (from_dict_items_cons u _ _ _ _ _ Hl) in Hrun.
    apply list.Forall_cons in Hord as [Ho Hord]. cbn [fst] in Ho.
    destruct (hasattr_class (cls (self st)) k) eqn:Hk.
    + destruct (ordinary_declared _ _ Ho Hk) as (_ & Hlog & Hd).
      destruct (stored_form u (self st) k v) as [w|e].
      * eapply (IH _ _ _ c0 n) in Hrun.
        2:{ cbn [self]. rewrite dict_assign_ne by assumption. exact Hl. }
        2:{ cbn [self]. rewrite cls_assign. exact Hord. }
        cbn [self] in Hrun. destruct Hrun as [Hd' Hs].
        split; intros H; [apply Hd', is_Some_assign_dict; assumption
                         |apply Hs, is_Some_assign_slots, H].
      * injection Hrun as <- <-. split; intros H; exact H.
    + eapply (IH _ _ _ c0 n) in Hrun; [|exact Hl|exact Hord]. exact Hrun.
Qed.

(** X2.  Whatever its outcome, [from_dict] on an object that its
    constructor has initialised, given any argument whose keys (if it is
    a mapping) are field names, makes no call of the client, keeps the
    class and the logger of the object, only appends to the log, removes
    no attribute, and leaves every name untouched that is not a declared
    key of the payload. *)
Theorem from_dict_frame (v : value) (st st' : state) (r : outcome unit)
    (c0 : class_name) :
  dict (self st) !! "log" = Some (VLogger c0) ->
  (forall items, v = VDict items -> api_keys items) ->
  from_dict u v st = (r, st') ->
  trace st' = trace st /\
  cls (self st') = cls (self st) /\
  dict (self st') !! "log" = Some (VLogger c0) /\
  (exists evs, log st' = log st ++ evs) /\
  (forall n, is_Some (dict (self st) !! n) -> is_Some (dict (self st') !! n)) /\
  (forall n, is_Some (slots (self st) !! n) -> is_Some (slots (self st') !! n)) /\
  (forall n items, v = VDict items ->
     n ∉ keys items \/ hasattr_class (cls (self st)) n = false ->
     dict (self st') !! n = dict (self st) !! n /\
     slots (self st') !! n = slots (self st) !! n).
Proof.
  intros Hl Hapi Hrun.
  destruct v;
    try (cbn [from_dict] in Hrun; unfold raise in Hrun;
         injection Hrun as <- <-;
         repeat (split; [first [reflexivity | exact Hl
                               | exists []; symmetry; apply app_nil_r
                               | intros ? ?; assumption]|]);
         reflexivity).
  cbn [from_dict] in Hrun.
  pose proof (api_keys_ordinary (cls (self st)) _ (Hapi _ eq_refl)) as Hord.
  pose proof (from_dict_items_keeps u _ _ _ _ _ Hl Hord Hrun)
    as (Hc & Ht & Hlog & Hevs & Hn).
  split; [exact Ht|]. split; [exact Hc|]. split; [exact Hlog|].
  split; [exact Hevs|].
  split; [intros n; apply (from_dict_items_grows _ _ _ _ _ n Hl Hord Hrun)|].
  split; [intros n; apply (from_dict_items_grows _ _ _ _ _ n Hl Hord Hrun)|].
  intros n items Hv. injection Hv as <-. apply Hn.
Qed.

Lemma filter_keys_subset (args : list (string * value)) (n : string) :
  n ∉ keys args ->
  n ∉ keys (filter (fun kv : string * value => kv.1 ≠ "bind_client") args).
Proof.
  unfold keys. intros H Hin. apply H.
  apply list_elem_of_fmap in Hin as (kv & -> & Hin).
  apply list_elem_of_filter in Hin as [_ Hin].
  apply list_elem_of_fmap. eauto.
Qed.

Lemma filter_api_keys (args : list (string * value)) :
  api_keys args ->
  api_keys (filter (fun kv : string * value => kv.1 ≠ "bind_client") args).
Proof.
  unfold api_keys. intros H. apply list.Forall_forall. intros kv Hin.
  rewrite list.Forall_forall in H. apply H.
  apply list_elem_of_filter in Hin. apply Hin.
Qed.

(** X3.  A second population overwrites.  After the constructor, given
    field names as keywords and none named [self] or [from_dict], the
    object holds nothing under [from_dict], so that the call
    [o.from_dict(items)] reaches the method; when both return, each
    declared key of the second payload (its keys being distinct field
    names) reads the value that its assignment kept, whatever the
    constructor had put there; and the final state is the one that a
    single run of the loop reaches on a new object, over the keywords
    followed by the items of the payload. *)
Theorem repopulation_overwrites (c : class_name)
    (args items : list (string * value)) (st st1 st2 : state) :
  api_keys args -> "self" ∉ keys args -> "from_dict" ∉ keys args ->
  api_keys items -> NoDup (keys items) ->
  construct u c args st = (Return tt, st1) ->
  from_dict u (VDict items) st1 = (Return tt, st2) ->
  let kwargs := if is_bound c
                then filter (fun kv => kv.1 ≠ "bind_client") args
                else args in
  dict (self st1) !! "from_dict" = None /\
  (forall a k v b, items = a ++ (k, v) :: b -> hasattr_class c k = true ->
     exists st', from_dict_items u a st1 = (Return tt, st') /\
       read_attr (self st2) k = stored_form u (self st') k v) /\
  from_dict_items u (kwargs ++ items) (start c (assoc "bind_client" args) st)
    = (Return tt, st2).
Proof.
  intros Hargs Hself Hfd Hitems Hnd H1 H2 kwargs.
  rewrite (construct_run _ _ _ _ (assoc_not_in _ _ Hself)) in H1.
  fold kwargs in H1.
  assert (Hk : api_keys kwargs /\ "from_dict" ∉ keys kwargs).
  { subst kwargs. destruct (is_bound c); [|split; assumption].
    split; [apply filter_api_keys, Hargs|apply filter_keys_subset, Hfd]. }
  destruct Hk as [Hka Hkf].
  pose proof (from_dict_items_keeps u _ _ _ _ _ (log_start c _ st)
                (api_keys_ordinary _ _ Hka) H1) as (Hc1 & _ & Hl1 & _ & Hn).
  rewrite cls_start in Hc1.
  split; [|split].
  - rewrite (proj1 (Hn "from_dict" (or_introl Hkf))).
    apply fresh_holds_no_method. left.
  - intros a k v b -> Hk. cbn [from_dict] in H2.
    eapply from_dict_items_sets;
      [exact Hl1 | apply api_keys_ordinary, Hitems | exact Hnd | | exact H2].
    rewrite Hc1. exact Hk.
  - rewrite from_dict_items_app, H1. exact H2.
Qed.

(** X4.  A payload key that names a property of the class makes the
    population raise: [deserialize] never returns for a payload that
    carries such a key, and when the keys before it populate, the
    exception is the [AttributeError] of the assignment and the object is
    left as those keys built it. *)
Theorem property_key_raises (c : class_name) (k : string) (p : property_name)
    (v : value) (items : list (string * value)) (bc : option value)
    (st : state) :
  class_lookup c k = Some (CProperty p) ->
  (k, v) ∈ items ->
  exists e st',
    deserialize u c (VDict items) bc st = (Raise e, st') /\
    forall a b st1, items = a ++ (k, v) :: b ->
      deserialize u c (VDict a) bc st = (Return tt, st1) ->
      e = AttributeError /\ self st' = self st1 /\ trace st' = trace st1.
Proof.
  intros Hp Hin.
  pose proof (accepts_bound c bc (property_owner_bound _ _ _ Hp)) as Hacc.
  assert (Hstep : forall a b st1,
            from_dict_items u a (start c bc st) = (Return tt, st1) ->
            exists lg, from_dict_items u (a ++ (k, v) :: b) (start c bc st)
                       = (Raise AttributeError, State (self st1) lg (trace st1))).
  { intros a b st1 H1.
    pose proof (from_dict_items_class u _ _ _ _ H1) as (Hc1 & _).
    rewrite cls_start in Hc1.
    rewrite from_dict_items_app, H1, from_dict_items_round.
    unfold read_attr at 1. rewrite class_never_binds_log.
    destruct (dict (self st1) !! "log") as [l|];
      [|exists (log st1); destruct st1; reflexivity].
    destruct l; try (exists (log st1); destruct st1; reflexivity).
    unfold hasattr_class, declares, stored_form. rewrite Hc1, Hp.
    eexists. reflexivity. }
  destruct (deserialize u c (VDict items) bc st) as [r st'] eqn:Hrun.
  rewrite (deserialize_run _ _ _ _ _ Hacc) in Hrun.
  assert (Hr : exists e, r = Raise e).
  { apply list_elem_of_split in Hin as (a & b & ->).
    rewrite from_dict_items_app in Hrun.
    destruct (from_dict_items u a (start c bc st)) as [[[]|e] st1] eqn:H1.
    - destruct (Hstep a b st1 H1) as [lg Hs].
      rewrite from_dict_items_app, H1 in Hs. rewrite Hs in Hrun.
      injection Hrun as <- _. eauto.
    - injection Hrun as <- _. eauto. }
  destruct Hr as [e ->]. exists e, st'. split; [reflexivity|].
  intros a b st1 -> H1. rewrite (deserialize_run _ _ _ _ _ Hacc) in H1.
  destruct (Hstep a b st1 H1) as [lg Hs]. rewrite Hs in Hrun.
  injection Hrun as <- <-. repeat split.
Qed.

(** After a population of field names that returns, a declared name that
    is bound neither to a descriptor nor to a property holds the raw
    payload value. *)
Lemma plain_key_after_population (c : class_name) (k : string) (v : value) :
  declares c k = true ->
  plain_name c k ->
  forall items bc st st',
  api_keys items ->
  NoDup (keys items) -> (k, v) ∈ items ->
  deserialize u c (VDict items) bc st = (Return tt, st') ->
  read_attr (self st') k = Return v /\ dict (self st') !! k = Some v.
Proof.
  intros Hk Hplain items bc st st' Hapi Hnd Hin Hrun.
  apply list_elem_of_split in Hin as (items1 & items2 & ->).
  pose proof (deserialize_returns_accepts _ _ _ _ _ _ Hrun) as Hacc.
  rewrite (deserialize_run _ _ _ _ _ Hacc) in Hrun.
  assert (Hh : hasattr_class (cls (self (start c bc st))) k = true).
  { cbn [start self]. rewrite cls_fresh. apply hasattr_declares, Hk. }
  destruct (from_dict_items_reaches u items1 items2 k v
              (start c bc st) st' c
              (log_fresh c bc) (api_keys_ordinary _ _ Hapi) Hnd Hh Hrun)
    as (st1 & w & H1 & Hs & Hc1 & Hc & _ & _ & Hd' & _).
  cbn [start self] in Hc1, Hc. rewrite cls_fresh in Hc1, Hc.
  unfold plain_name in Hplain. apply declares_true in Hk as [a Ha].
  unfold stored_form in Hs. unfold assign in Hd'.
  rewrite Hc1, Ha in Hs, Hd'. rewrite Ha in Hplain.
  unfold read_attr. rewrite Hc, Ha.
  destruct a; try contradiction; injection Hs as <-;
    cbn [set_dict dict] in Hd'; rewrite lookup_insert_eq in Hd';
    rewrite Hd'; split; reflexivity.
Qed.

(** X5.  A name that the class binds neither to a descriptor nor to a
    property (a method, [bind_client], [athlete], [_gear], the comma
    names) takes the payload value as it is: the assignment writes the
    instance dictionary without any conversion, and after a population
    of field names that returns, the name reads the raw payload value,
    which hides the class binding. *)
Theorem plain_names_store_raw (c : class_name) (k : string) (v : value) :
  declares c k = true ->
  plain_name c k ->
  (forall st, cls (self st) = c ->
     setattr u k v st =
       (Return tt, State (set_dict (self st) k v) (log st) (trace st))) /\
  (forall items bc st st',
     api_keys items ->
     NoDup (keys items) -> (k, v) ∈ items ->
     deserialize u c (VDict items) bc st = (Return tt, st') ->
     read_attr (self st') k = Return v /\ dict (self st') !! k = Some v).
Proof.
  intros Hk Hplain. split.
  - intros st Hc. apply setattr_plain. rewrite Hc. exact Hplain.
  - intros items bc st st'. apply plain_key_after_population; assumption.
Qed.

End Repopulation.

Lemma from_dict_frame_witness :
  let u := unmarshal typed_scalars in
  let st := (construct u Club [("bind_client", VClient 0); ("id", VInt 7)] st0).2 in
  let v := VDict [("name", VStr "Riders"); ("id", VStr "seven"); ("zzz", VNone)] in
  let r := (from_dict u v st).1 in
  let st' := (from_dict u v st).2 in
  dict (self st) !! "log" = Some (VLogger Club) /\
  (forall items, v = VDict items -> api_keys items) /\
  from_dict u v st = (r, st') /\
  r = Raise ValueError /\
  trace st' = trace st /\
  cls (self st') = cls (self st) /\
  dict (self st') !! "log" = Some (VLogger Club) /\
  (exists evs, log st' = log st ++ evs) /\
  (forall n, is_Some (dict (self st) !! n) -> is_Some (dict (self st') !! n)) /\
  (forall n, is_Some (slots (self st) !! n) -> is_Some (slots (self st') !! n)) /\
  (forall n items, v = VDict items ->
     n ∉ keys items \/ hasattr_class (cls (self st)) n = false ->
     dict (self st') !! n = dict (self st) !! n /\
     slots (self st') !! n = slots (self st) !! n).
Proof.
  intros u st v r st'.
  assert (H1 : dict (self st) !! "log" = Some (VLogger Club)) by reflexivity.
  assert (Ha : forall items, v = VDict items -> api_keys items).
  { intros items E. injection E as <-. repeat constructor. }
  assert (H2 : from_dict u v st = (r, st')) by (vm_compute; reflexivity).
  assert (H3 : r = Raise ValueError) by (vm_compute; reflexivity).
  repeat (split; [assumption|]).
  exact (from_dict_frame u v st st' r Club H1 Ha H2).
Defined.

Lemma repopulation_overwrites_witness :
  let u := unmarshal typed_scalars in
  let args := [("bind_client", VClient 0); ("id", VInt 7); ("name", VStr "Old")] in
  let items := [("name", VStr "New"); ("resource_state", VInt 2)] in
  let st1 := (construct u Club args st0).2 in
  let st2 := (from_dict u (VDict items) st1).2 in
  api_keys args /\ ("self" ∉ keys args) /\ ("from_dict" ∉ keys args) /\
  api_keys items /\ NoDup (keys items) /\
  construct u Club args st0 = (Return tt, st1) /\
  from_dict u (VDict items) st1 = (Return tt, st2) /\
  read_attr (self st1) "name" = Return (VStr "Old") /\
  read_attr (self st2) "name" = Return (VStr "New") /\
  read_attr (self st2) "id" = Return (VInt 7) /\
  dict (self st1) !! "from_dict" = None /\
  (forall a k v b, items = a ++ (k, v) :: b -> hasattr_class Club k = true ->
     exists st', from_dict_items u a st1 = (Return tt, st') /\
       read_attr (self st2) k = stored_form u (self st') k v) /\
  from_dict_items u ([("id", VInt 7); ("name", VStr "Old")] ++ items)
    (start Club (Some (VClient 0)) st0) = (Return tt, st2).
Proof.
  intros u args items st1 st2.
  assert (Ha : api_keys args) by (repeat constructor).
  assert (Hs : "self" ∉ keys args)
    by (apply (bool_decide_unpack _); vm_compute; exact I).
  assert (Hf : "from_dict" ∉ keys args)
    by (apply (bool_decide_unpack _); vm_compute; exact I).
  assert (Hi : api_keys items) by (repeat constructor).
  assert (H3 : NoDup (keys items))
    by (apply (bool_decide_unpack _); vm_compute; exact I).
  assert (H1 : construct u Club args st0 = (Return tt, st1))
    by (vm_compute; reflexivity).
  assert (H2 : from_dict u (VDict items) st1 = (Return tt, st2))
    by (vm_compute; reflexivity).
  repeat (split; [assumption|]).
  do 3 (split; [vm_compute; reflexivity|]).
  exact (repopulation_overwrites u Club args items st0 st1 st2
           Ha Hs Hf Hi H3 H1 H2).
Defined.

Lemma property_key_raises_witness :
  let u := unmarshal typed_scalars in
  let gear := VDict [("id", VStr "b77"); ("name", VStr "Tarmac")] in
  let items := [("id", VInt 7); ("gear", gear); ("name", VStr "Ride")] in
  let bc := Some (VClient 0) in
  class_lookup Activity "gear" = Some (CProperty p_gear) /\
  ("gear", gear) ∈ items /\
  exists e st',
    deserialize u Activity (VDict items) bc st0 = (Raise e, st') /\
    forall a b st1, items = a ++ ("gear", gear) :: b ->
      deserialize u Activity (VDict a) bc st0 = (Return tt, st1) ->
      e = AttributeError /\ self st' = self st1 /\ trace st' = trace st1.
Proof.
  intros u gear items bc.
  assert (H1 : class_lookup Activity "gear" = Some (CProperty p_gear))
    by reflexivity.
  assert (H2 : ("gear", gear) ∈ items) by (right; left).
  repeat (split; [assumption|]).
  exact (property_key_raises u Activity "gear" p_gear gear items bc
           st0 H1 H2).
Defined.

Lemma plain_names_store_raw_witness :
  let u := unmarshal typed_scalars in
  let who := VDict [("id", VInt 1); ("resource_state", VInt 1)] in
  declares Activity "athlete" = true /\
  plain_name Activity "athlete" /\
  (forall st, cls (self st) = Activity ->
     setattr u "athlete" who st =
       (Return tt, State (set_dict (self st) "athlete" who) (log st) (trace st))) /\
  (forall items bc st st',
     api_keys items ->
     NoDup (keys items) -> ("athlete", who) ∈ items ->
     deserialize u Activity (VDict items) bc st = (Return tt, st') ->
     read_attr (self st') "athlete" = Return who /\
     dict (self st') !! "athlete" = Some who).
Proof.
  intros u who.
  assert (H1 : declares Activity "athlete" = true) by reflexivity.
  assert (H2 : plain_name Activity "athlete") by exact I.
  repeat (split; [assumption|]).
  exact (plain_names_store_raw u Activity "athlete" who H1 H2).
Defined.

(** ** The guards and the getters, case by case *)

Section Guards.

Variable u : descriptor -> value -> value -> list event * outcome value.
Variable respond : list call -> call -> outcome value.

Ltac run_reads H0 H1 H2 H3 :=
  repeat (rewrite ?bind_run, ?load_run, ?ret_run, ?H0, ?H1, ?H2, ?H3;
          cbn [is_none call_client get_self self log trace]).

(** X6.  [assert_bind_client] raises [UnboundEntity] exactly when
    [self.bind_client] is [None], and changes nothing.  It tests for
    [None] where [hydrate] tests for truth: on an entity whose
    [bind_client] is a false value other than [None], the guard passes
    and [hydrate] reports the entity as unbound. *)
Theorem bind_client_guards (st : state) (bc : value) :
  read_attr (self st) "bind_client" = Return bc ->
  assert_bind_client st
    = (if is_none bc then Raise UnboundEntity else Return tt, st) /\
  (is_none bc = false -> truthy bc = false ->
   assert_bind_client st = (Return tt, st) /\
   hydrate st = (Raise UnboundEntity, st)).
Proof.
  intros Hb.
  assert (Ha : assert_bind_client st
               = (if is_none bc then Raise UnboundEntity else Return tt, st)).
  { unfold assert_bind_client. rewrite bind_run, load_run, Hb.
    destruct (is_none bc); reflexivity. }
  split; [exact Ha|]. intros Hn Ht. rewrite Ha, Hn. split; [reflexivity|].
  unfold hydrate. rewrite bind_run, load_run, Hb, Ht. reflexivity.
Qed.

(** X7.  A payload of an activity may carry the key [_gear]: the class
    binds that name to [None], so the value is stored as it is, and
    after a population of field names the getter of [gear] returns it
    without looking at the client: no call is made and no
    [UnboundEntity] is raised, bound or not. *)
Theorem gear_cache_from_payload (items : list (string * value))
    (g : value) (bc : option value) (st st' : state) :
  api_keys items ->
  NoDup (keys items) ->
  ("_gear", g) ∈ items ->
  g <> VNone ->
  deserialize u Activity (VDict items) bc st = (Return tt, st') ->
  getattr u respond "gear" st' = (Return g, st').
Proof.
  intros Hapi Hnd Hin Hg Hrun.
  destruct (plain_key_after_population u Activity "_gear" g eq_refl I
              items bc st st' Hapi Hnd Hin Hrun) as [Hread _].
  assert (Hc : cls (self st') = Activity).
  { rewrite (deserialize_run _ _ _ _ _ (accepts_bound Activity bc eq_refl))
      in Hrun.
    apply from_dict_items_class in Hrun.
    destruct Hrun as (Hc & _). rewrite Hc. apply cls_fresh. }
  change "gear" with (name_of p_gear).
  rewrite (getattr_property u respond p_gear st' Hc).
  apply getter_cached; assumption.
Qed.

(** X8.  [Activity.gear] when nothing is fetched, on an activity that
    holds no attribute of its own under [assert_bind_client].  With
    [_gear] unset, the client is checked before [gear_id] is looked at:
    an unbound activity raises [UnboundEntity] whether it has a
    [gear_id] or not; a bound activity without [gear_id] returns [None]
    and makes no call.  Either way the state is left as it was. *)
Theorem gear_without_fetch (st : state) (bc : value) :
  cls (self st) = Activity ->
  dict (self st) !! "assert_bind_client" = None ->
  read_attr (self st) "_gear" = Return VNone ->
  read_attr (self st) "bind_client" = Return bc ->
  (bc = VNone -> getattr u respond "gear" st = (Raise UnboundEntity, st)) /\
  (bc <> VNone -> read_attr (self st) "gear_id" = Return VNone ->
   getattr u respond "gear" st = (Return VNone, st)).
Proof.
  intros Hc Hs Hg Hb.
  change "gear" with (name_of p_gear).
  rewrite (getattr_property u respond p_gear st Hc).
  cbn [property_get].
  unfold Activity_gear, call_assert_bind_client, assert_bind_client. split.
  - intros ->. run_reads Hs Hg Hb Hb. reflexivity.
  - intros Hn Hi.
    assert (Hnone : is_none bc = false)
      by (destruct bc; try reflexivity; contradiction).
    run_reads Hs Hg Hb Hi. rewrite Hnone. run_reads Hs Hg Hb Hi. reflexivity.
Qed.

(** X9.  A fetch that raises is not cached.  On an entity that holds no
    attribute of its own under [assert_bind_client], when the client
    raises in the first access of a relation, the getter raises the same
    exception; the call is recorded, the object is left untouched, so
    the cache still reads [None]; and the next access calls the client
    again, keeping and returning its answer if it answers then. *)
Theorem failed_fetch_is_retried (p : property_name) (st : state)
    (c : nat) (a r : value) (e : exn) :
  cls (self st) = owner_of p ->
  dict (self st) !! "assert_bind_client" = None ->
  read_attr (self st) (cache_of p) = Return VNone ->
  read_attr (self st) "bind_client" = Return (VClient c) ->
  read_attr (self st) (key_of p) = Return a ->
  (p = p_gear -> a <> VNone) ->
  let q := Call c (fetch_of p) a in
  respond (trace st) q = Raise e ->
  respond (trace st ++ [q]) q = Return r ->
  let st1 := State (self st) (log st) (trace st ++ [q]) in
  getattr u respond (name_of p) st = (Raise e, st1) /\
  getattr u respond (name_of p) st1 =
    (Return r,
     State (set_dict (self st) (cache_of p) r) (log st) (trace st ++ [q; q])).
Proof.
  intros Hc Hs Hm Hb Hk Ha q He Hr st1. split.
  - rewrite (getattr_property u respond p st Hc).
    assert (Hn : p = p_gear -> is_none a = false).
    { intros Hp. specialize (Ha Hp). destruct a; try reflexivity; contradiction. }
    subst q st1.
    destruct p; cbn [property_get owner_of cache_of key_of fetch_of] in *;
      unfold Club_members, Club_activities, Activity_gear,
             call_assert_bind_client, assert_bind_client;
      run_reads Hs Hm Hb Hk; rewrite ?(Hn eq_refl); run_reads Hs Hm Hb Hk;
      rewrite He; reflexivity.
  - subst q st1.
    rewrite (getter_first u respond p
               (State (self st) (log st) (trace st ++ [Call c (fetch_of p) a]))
               c a r Hc Hs Hm Hb Hk Ha Hr).
    cbn [self log trace]. rewrite <- app_assoc. reflexivity.
Qed.

End Guards.

Lemma bind_client_guards_witness :
  let u := unmarshal typed_scalars in
  let st := (deserialize u Club (VDict [("bind_client", VInt 0)])
               (Some (VClient 0)) st0).2 in
  read_attr (self st) "bind_client" = Return (VInt 0) /\
  assert_bind_client st
    = (if is_none (VInt 0) then Raise UnboundEntity else Return tt, st) /\
  (is_none (VInt 0) = false -> truthy (VInt 0) = false ->
   assert_bind_client st = (Return tt, st) /\
   hydrate st = (Raise UnboundEntity, st)).
Proof.
  intros u st.
  assert (H : read_attr (self st) "bind_client" = Return (VInt 0))
    by reflexivity.
  split; [exact H|]. exact (bind_client_guards st (VInt 0) H).
Defined.

Lemma gear_cache_from_payload_witness :
  let u := unmarshal typed_scalars in
  let items := [("id", VInt 7); ("_gear", VStr "b77")] in
  let st' := (deserialize u Activity (VDict items) None st0).2 in
  api_keys items /\
  NoDup (keys items) /\
  ("_gear", VStr "b77") ∈ items /\
  VStr "b77" <> VNone /\
  deserialize u Activity (VDict items) None st0 = (Return tt, st') /\
  getattr u bike_client "gear" st' = (Return (VStr "b77"), st').
Proof.
  intros u items st'.
  assert (Ha : api_keys items) by (repeat constructor).
  assert (H1 : NoDup (keys items))
    by (apply (bool_decide_unpack _); vm_compute; exact I).
  assert (H2 : ("_gear", VStr "b77") ∈ items) by (right; left).
  assert (H3 : VStr "b77" <> VNone) by discriminate.
  assert (H4 : deserialize u Activity (VDict items) None st0 = (Return tt, st'))
    by (vm_compute; reflexivity).
  repeat (split; [assumption|]).
  exact (gear_cache_from_payload u bike_client items (VStr "b77") None st0 st'
           Ha H1 H2 H3 H4).
Defined.

Lemma gear_without_fetch_witness :
  let u := unmarshal typed_scalars in
  let unbound := (deserialize u Activity (VDict [("gear_id", VStr "b77")])
                    None st0).2 in
  let bound := (deserialize u Activity (VDict [("id", VInt 7)])
                  (Some (VClient 0)) st0).2 in
  (cls (self unbound) = Activity /\
   dict (self unbound) !! "assert_bind_client" = None /\
   read_attr (self unbound) "_gear" = Return VNone /\
   read_attr (self unbound) "bind_client" = Return VNone /\
   getattr u bike_client "gear" unbound = (Raise UnboundEntity, unbound)) /\
  (cls (self bound) = Activity /\
   dict (self bound) !! "assert_bind_client" = None /\
   read_attr (self bound) "_gear" = Return VNone /\
   read_attr (self bound) "bind_client" = Return (VClient 0) /\
   VClient 0 <> VNone /\
   read_attr (self bound) "gear_id" = Return VNone /\
   getattr u bike_client "gear" bound = (Return VNone, bound)).
Proof.
  intros u unbound bound. split.
  - assert (H1 : cls (self unbound) = Activity) by reflexivity.
    assert (H0 : dict (self unbound) !! "assert_bind_client" = None)
      by (vm_compute; reflexivity).
    assert (H2 : read_attr (self unbound) "_gear" = Return VNone)
      by reflexivity.
    assert (H3 : read_attr (self unbound) "bind_client" = Return VNone)
      by reflexivity.
    repeat (split; [assumption|]).
    exact (proj1 (gear_without_fetch u bike_client unbound VNone H1 H0 H2 H3)
             eq_refl).
  - assert (H1 : cls (self bound) = Activity) by reflexivity.
    assert (H0 : dict (self bound) !! "assert_bind_client" = None)
      by (vm_compute; reflexivity).
    assert (H2 : read_attr (self bound) "_gear" = Return VNone)
      by reflexivity.
    assert (H3 : read_attr (self bound) "bind_client" = Return (VClient 0))
      by reflexivity.
    assert (H4 : VClient 0 <> VNone) by discriminate.
    assert (H5 : read_attr (self bound) "gear_id" = Return VNone)
      by reflexivity.
    repeat (split; [assumption|]).
    exact (proj2 (gear_without_fetch u bike_client bound (VClient 0) H1 H0 H2 H3)
             H4 H5).
Defined.

Lemma failed_fetch_is_retried_witness :
  let u := unmarshal typed_scalars in
  let st := (deserialize u Activity
               (VDict [("id", VInt 7); ("gear_id", VStr "b77")])
               (Some (VClient 0)) st0).2 in
  let bike := VDict [("id", VStr "b77"); ("name", VStr "Tarmac")] in
  let q := Call 0 (fetch_of p_gear) (VStr "b77") in
  cls (self st) = owner_of p_gear /\
  dict (self st) !! "assert_bind_client" = None /\
  read_attr (self st) (cache_of p_gear) = Return VNone /\
  read_attr (self st) "bind_client" = Return (VClient 0) /\
  read_attr (self st) (key_of p_gear) = Return (VStr "b77") /\
  (p_gear = p_gear -> VStr "b77" <> VNone) /\
  flaky_client (trace st) q = Raise (ClientError 503) /\
  flaky_client (trace st ++ [q]) q = Return bike /\
  let st1 := State (self st) (log st) (trace st ++ [q]) in
  getattr u flaky_client (name_of p_gear) st = (Raise (ClientError 503), st1) /\
  getattr u flaky_client (name_of p_gear) st1 =
    (Return bike,
     State (set_dict (self st) (cache_of p_gear) bike) (log st)
           (trace st ++ [q; q])).
Proof.
  intros u st bike q.
  assert (H1 : cls (self st) = owner_of p_gear) by reflexivity.
  assert (H0 : dict (self st) !! "assert_bind_client" = None)
    by (vm_compute; reflexivity).
  assert (H2 : read_attr (self st) (cache_of p_gear) = Return VNone)
    by reflexivity.
  assert (H3 : read_attr (self st) "bind_client" = Return (VClient 0))
    by reflexivity.
  assert (H4 : read_attr (self st) (key_of p_gear) = Return (VStr "b77"))
    by (vm_compute; reflexivity).
  assert (H5 : p_gear = p_gear -> VStr "b77" <> VNone) by discriminate.
  assert (H6 : flaky_client (trace st) q = Raise (ClientError 503))
    by reflexivity.
  assert (H7 : flaky_client (trace st ++ [q]) q = Return bike) by reflexivity.
  repeat (split; [assumption|]).
  exact (failed_fetch_is_retried u flaky_client p_gear st 0%nat (VStr "b77")
           bike (ClientError 503) H1 H0 H2 H3 H4 H5 H6 H7).
Defined.

(** ** The constructor *)

Lemma filter_without_bind_client (items : list (string * value)) :
  "bind_client" ∉ keys items ->
  filter (fun kv : string * value => kv.1 ≠ "bind_client") items = items.
Proof.
  unfold keys. induction items as [|[k v] rest IH]; intros H; [reflexivity|].
  rewrite fmap_cons in H. apply not_elem_of_cons in H as [Hk Hrest].
  rewrite filter_cons_True
    by (intros E; apply Hk; symmetry; exact E).
  rewrite IH by exact Hrest. reflexivity.
Qed.

Section Construction.

Variable u : descriptor -> value -> value -> list event * outcome value.

(** X10.  Building an entity with keyword arguments is deserializing
    them: the class called with the items of a mapping as keywords runs
    as [cls.deserialize(items)], and below [BoundEntity], the class
    called with [bind_client=bc] and those keywords runs as
    [cls.deserialize(items, bind_client=bc)], for every mapping [items]
    without the keys [bind_client] and [self]. *)
Theorem constructor_is_deserialize (c : class_name)
    (items : list (string * value)) (bc : value) (st : state) :
  "bind_client" ∉ keys items ->
  "self" ∉ keys items ->
  construct u c items st = deserialize u c (VDict items) None st /\
  (is_bound c = true ->
   construct u c (("bind_client", bc) :: items) st
     = deserialize u c (VDict items) (Some bc) st).
Proof.
  intros H Hs. pose proof (assoc_not_in _ _ Hs) as Hself. split.
  - rewrite (construct_run _ _ _ _ Hself).
    rewrite (deserialize_run _ _ _ _ _ (accepts_no_client c)).
    rewrite (assoc_not_in _ _ H), (filter_without_bind_client _ H).
    destruct (is_bound c); reflexivity.
  - intros Hb.
    rewrite construct_run by (cbn [assoc]; exact Hself).
    rewrite (deserialize_run _ _ _ _ _ (accepts_bound c (Some bc) Hb)), Hb.
    cbn [assoc]. rewrite String.eqb_refl.
    rewrite filter_cons_False by (cbn; intros E; apply E; reflexivity).
    rewrite (filter_without_bind_client _ H). reflexivity.
Qed.

(** X11.  An entity of a class outside [BoundEntity] never holds a
    client.  [deserialize] of such a class takes no client: given one,
    it raises [TypeError] and builds nothing.  Whatever field names the
    constructor (with no keyword [self]) or [deserialize] is given, and
    whether population returns or raises, reading [bind_client] on the
    object raises [AttributeError]; a keyword [bind_client] given to the
    constructor is treated as an unknown field and leaves a warning. *)
Theorem unbound_classes_hold_no_client (c : class_name)
    (args : list (string * value)) (v : value) (st : state) :
  is_bound c = false ->
  api_keys args -> "self" ∉ keys args ->
  (forall items, v = VDict items -> api_keys items) ->
  let built := (construct u c args st).2 in
  let loaded := (deserialize u c v None st).2 in
  (forall bc, deserialize u c v (Some bc) st = (Raise TypeError, st)) /\
  read_attr (self built) "bind_client" = Raise AttributeError /\
  read_attr (self loaded) "bind_client" = Raise AttributeError /\
  owner_client (self built) = VNone /\
  owner_client (self loaded) = VNone /\
  ("bind_client" ∈ keys args -> (construct u c args st).1 = Return tt ->
   LogWarning (VLogger c) "bind_client" ∈ log built).
Proof.
  intros Hb Hargs Hs Hv built loaded.
  pose proof (assoc_not_in _ _ Hs) as Hself.
  split.
  { intros bc. apply deserialize_rejects. unfold accepts. rewrite Hb.
    reflexivity. }
  destruct (init_assignments_plain c) as [_ Hcl]. rewrite Hb in Hcl.
  assert (Hfresh : forall x, dict (fresh c x) !! "bind_client" = None).
  { intros x. unfold fresh. rewrite Hb. reflexivity. }
  assert (Hno : forall o, cls o = c -> dict o !! "bind_client" = None ->
                read_attr o "bind_client" = Raise AttributeError).
  { intros o Hc Hd. unfold read_attr. rewrite Hc, Hcl, Hd. reflexivity. }
  assert (Hh : hasattr_class c "bind_client" = false).
  { unfold hasattr_class. rewrite (proj2 (declares_false _ _) Hcl).
    reflexivity. }
  assert (Hbuilt : cls (self built) = c /\ dict (self built) !! "bind_client" = None).
  { subst built. rewrite (construct_run _ _ _ _ Hself), Hb.
    destruct (from_dict_items u args _) as [r st'] eqn:Hrun. cbn [snd].
    pose proof (from_dict_items_keeps u _ _ _ _ _ (log_start c _ st)
                  (api_keys_ordinary _ _ Hargs) Hrun)
      as (Hc & _ & _ & _ & Hn).
    rewrite cls_start in Hc, Hn. split; [exact Hc|].
    rewrite (proj1 (Hn "bind_client" (or_intror Hh))). apply Hfresh. }
  assert (Hloaded : cls (self loaded) = c /\ dict (self loaded) !! "bind_client" = None).
  { subst loaded. rewrite (deserialize_any _ _ _ _ _ (accepts_no_client c)).
    destruct (from_dict u v _) as [r st'] eqn:Hrun. cbn [snd].
    pose proof (from_dict_keeps_undeclared u v (start c None st) st' r
                  c "bind_client" (log_start c None st)
                  (fun items E => api_keys_ordinary _ items (Hv items E))
                  Hrun) as Hn.
    rewrite cls_start in Hn. destruct (Hn Hh) as [Hc Hd].
    split; [exact Hc|]. rewrite Hd. apply Hfresh. }
  destruct Hbuilt as [Hc1 Hd1], Hloaded as [Hc2 Hd2].
  pose proof (Hno _ Hc1 Hd1) as R1. pose proof (Hno _ Hc2 Hd2) as R2.
  split; [exact R1|]. split; [exact R2|].
  split; [unfold owner_client; rewrite R1; reflexivity|].
  split; [unfold owner_client; rewrite R2; reflexivity|].
  intros Hin Hret. subst built.
  rewrite (construct_run _ _ _ _ Hself), Hb in Hret |- *.
  destruct (from_dict_items u args _) as [r st'] eqn:Hrun.
  cbn [fst snd] in Hret |- *. subst r.
  eapply from_dict_items_warns;
    [apply (log_start c (assoc "bind_client" args) st)
    | apply api_keys_ordinary, Hargs
    | exact Hrun | exact Hin | rewrite cls_start; exact Hh].
Qed.

End Construction.

Lemma constructor_is_deserialize_witness :
  let u := unmarshal typed_scalars in
  let items := [("id", VInt 7); ("name", VStr "Riders")] in
  ("bind_client" ∉ keys items) /\
  ("self" ∉ keys items) /\
  construct u Club items st0 = deserialize u Club (VDict items) None st0 /\
  (is_bound Club = true ->
   construct u Club (("bind_client", VClient 0) :: items) st0
     = deserialize u Club (VDict items) (Some (VClient 0)) st0).
Proof.
  intros u items.
  assert (H : "bind_client" ∉ keys items)
    by (apply (bool_decide_unpack _); vm_compute; exact I).
  assert (Hs : "self" ∉ keys items)
    by (apply (bool_decide_unpack _); vm_compute; exact I).
  split; [exact H|]. split; [exact Hs|].
  exact (constructor_is_deserialize u Club items (VClient 0) st0 H Hs).
Defined.

Lemma unbound_classes_hold_no_client_witness :
  let u := unmarshal typed_scalars in
  let args := [("bind_client", VClient 0); ("id", VStr "b77")] in
  let built := (construct u Bike args st0).2 in
  let loaded := (deserialize u Bike (VDict args) None st0).2 in
  is_bound Bike = false /\
  api_keys args /\ ("self" ∉ keys args) /\
  (forall items, VDict args = VDict items -> api_keys items) /\
  (forall bc, deserialize u Bike (VDict args) (Some bc) st0
              = (Raise TypeError, st0)) /\
  read_attr (self built) "bind_client" = Raise AttributeError /\
  read_attr (self loaded) "bind_client" = Raise AttributeError /\
  owner_client (self built) = VNone /\
  owner_client (self loaded) = VNone /\
  ("bind_client" ∈ keys args -> (construct u Bike args st0).1 = Return tt ->
   LogWarning (VLogger Bike) "bind_client" ∈ log built).
Proof.
  intros u args built loaded.
  assert (H : is_bound Bike = false) by reflexivity.
  assert (Ha : api_keys args) by (repeat constructor).
  assert (Hs : "self" ∉ keys args)
    by (apply (bool_decide_unpack _); vm_compute; exact I).
  assert (Hv : forall items, VDict args = VDict items -> api_keys items).
  { intros items E. injection E as <-. exact Ha. }
  repeat (split; [assumption|]).
  exact (unbound_classes_hold_no_client u Bike args (VDict args) st0
           H Ha Hs Hv).
Defined.

(** ** The class bodies, once more *)

(** X12.  The nine names of [Activity] are the only ones that a trailing
    comma turns into a tuple: in every other class, and for every other
    name of [Activity], a name bound to [Attribute(...)] is bound to the
    descriptor itself. *)
Theorem comma_names_are_the_only_tuples (c : class_name) (k : string) :
  (exists d, class_lookup c k = Some (CTuple d)) <->
  c = Activity /\ k ∈ comma_names.
Proof.
  split.
  - intros [d H]. unfold class_lookup in H.
    destruct (lookup_in_elem_of _ _ _ H) as (c' & Hc' & Hin).
    destruct (own_tuples _ _ _ Hin) as [-> Hk].
    split; [apply Activity_has_no_subclass, Hc'|exact Hk].
  - intros [-> Hk]. unfold comma_names in Hk.
    repeat (apply elem_of_cons in Hk as [-> | Hk]; [eexists; reflexivity|]).
    inversion Hk.
Qed.

(** ** [BaseEntity.__repr__] *)

Lemma repr_names_are_descriptors (c : class_name) (k : string) :
  k ∈ ["id"; "name"; "resource_state"] ->
  hasattr_class c k = true ->
  exists d, class_lookup c k = Some (CDescr d).
Proof.
  intros Hk.
  repeat (apply elem_of_cons in Hk as [-> | Hk];
          [destruct c; intros H;
           first [discriminate H | eexists; reflexivity]|]).
  inversion Hk.
Qed.

Section ReprFacts.

Variable u : descriptor -> value -> value -> list event * outcome value.
Variable respond : list call -> call -> outcome value.
Variable py_str py_repr : value -> outcome string.

Lemma repr_read (k : string) (st : state) :
  k ∈ ["id"; "name"; "resource_state"] ->
  hasattr_class (cls (self st)) k = true ->
  getattr u respond k st = (Return (descriptor_get (self st) k), st).
Proof.
  intros Hk Hh.
  destruct (repr_names_are_descriptors _ _ Hk Hh) as [d Hd].
  rewrite getattr_plain by (intros p; rewrite Hd; discriminate).
  rewrite load_run. unfold read_attr. rewrite Hd. reflexivity.
Qed.

(** X13.  [__repr__] only reads: the names [id], [name] and
    [resource_state] are bound to descriptors in every class that has
    them, never to a property, so no getter runs, no client is called,
    and the state is left as it was, whether the formatting returns or
    raises.  When the formatting returns, the text is the class name
    followed by those of the three fields that the class declares, in
    that order; for a class that declares none it is the class name
    followed by a space. *)
Theorem repr_only_reads (st : state) :
  let o := self st in
  let c := cls o in
  (exists r, BaseEntity_repr u respond py_str py_repr st = (r, st)) /\
  forall s1 s2 s3,
    (hasattr_class c "id" = true ->
     py_str (descriptor_get o "id") = Return s1) ->
    (hasattr_class c "name" = true ->
     py_repr (descriptor_get o "name") = Return s2) ->
    (hasattr_class c "resource_state" = true ->
     py_str (descriptor_get o "resource_state") = Return s3) ->
    BaseEntity_repr u respond py_str py_repr st =
      (Return ("<" +:+ class_str c +:+ " " +:+
               String.concat " "
                 ((if hasattr_class c "id" then ["id=" +:+ s1] else []) ++
                  (if hasattr_class c "name" then ["name=" +:+ s2] else []) ++
                  (if hasattr_class c "resource_state"
                   then ["resource_state=" +:+ s3] else [])) +:+ ">"),
       st).
Proof.
  intros o c.
  assert (Hin1 : "id" ∈ ["id"; "name"; "resource_state"]) by (left).
  assert (Hin2 : "name" ∈ ["id"; "name"; "resource_state"]) by (right; left).
  assert (Hin3 : "resource_state" ∈ ["id"; "name"; "resource_state"])
    by (right; right; left).
  pose proof (repr_read "id" st Hin1) as R1.
  pose proof (repr_read "name" st Hin2) as R2.
  pose proof (repr_read "resource_state" st Hin3) as R3.
  fold o c in R1, R2, R3. split.
  - unfold BaseEntity_repr. rewrite bind_run. cbn [get_self]. fold o c.
    rewrite bind_run.
    destruct (hasattr_class c "id").
    + rewrite bind_run, (R1 eq_refl), bind_run. unfold lift at 1.
      destruct (py_str (descriptor_get o "id")) as [s1|e]; [|eauto].
      rewrite ret_run, bind_run.
      destruct (hasattr_class c "name").
      * rewrite bind_run, (R2 eq_refl), bind_run. unfold lift at 1.
        destruct (py_repr (descriptor_get o "name")) as [s2|e]; [|eauto].
        rewrite ret_run, bind_run.
        destruct (hasattr_class c "resource_state").
        -- rewrite bind_run, (R3 eq_refl), bind_run. unfold lift at 1.
           destruct (py_str (descriptor_get o "resource_state")) as [s3|e];
             eauto.
        -- eauto.
      * rewrite ret_run, bind_run.
        destruct (hasattr_class c "resource_state").
        -- rewrite bind_run, (R3 eq_refl), bind_run. unfold lift at 1.
           destruct (py_str (descriptor_get o "resource_state")) as [s3|e];
             eauto.
        -- eauto.
    + rewrite ret_run, bind_run.
      destruct (hasattr_class c "name").
      * rewrite bind_run, (R2 eq_refl), bind_run. unfold lift at 1.
        destruct (py_repr (descriptor_get o "name")) as [s2|e]; [|eauto].
        rewrite ret_run, bind_run.
        destruct (hasattr_class c "resource_state").
        -- rewrite bind_run, (R3 eq_refl), bind_run. unfold lift at 1.
           destruct (py_str (descriptor_get o "resource_state")) as [s3|e];
             eauto.
        -- eauto.
      * rewrite ret_run, bind_run.
        destruct (hasattr_class c "resource_state").
        -- rewrite bind_run, (R3 eq_refl), bind_run. unfold lift at 1.
           destruct (py_str (descriptor_get o "resource_state")) as [s3|e];
             eauto.
        -- eauto.
  - intros s1 s2 s3 H1 H2 H3.
    unfold BaseEntity_repr. rewrite bind_run. cbn [get_self]. fold o c.
    rewrite bind_run.
    destruct (hasattr_class c "id");
      [rewrite bind_run, (R1 eq_refl), bind_run; unfold lift at 1;
       rewrite (H1 eq_refl)|];
      rewrite ret_run, bind_run;
      (destruct (hasattr_class c "name");
       [rewrite bind_run, (R2 eq_refl), bind_run; unfold lift at 1;
        rewrite (H2 eq_refl)|];
       rewrite ret_run, bind_run;
       (destruct (hasattr_class c "resource_state");
        [rewrite bind_run, (R3 eq_refl), bind_run; unfold lift at 1;
         rewrite (H3 eq_refl)|];
        reflexivity)).
Qed.

End ReprFacts.

Lemma repr_only_reads_witness :
  let u := unmarshal typed_scalars in
  let club := (deserialize u Club
                 (VDict [("id", VInt 7); ("name", VStr "Riders")])
                 (Some (VClient 0)) st0).2 in
  let split := (deserialize u MetricSplit (VDict [("split", VInt 1)])
                  None st0).2 in
  BaseEntity_repr u alice_client example_str example_repr club
    = (Return "<Club id=7 name='Riders' resource_state=None>", club) /\
  BaseEntity_repr u alice_client example_str example_repr split
    = (Return "<MetricSplit >", split).
Proof.
  intros u club split. split.
  - exact (proj2 (repr_only_reads u alice_client example_str example_repr club)
             "7" "'Riders'" "None"
             (fun _ => eq_refl) (fun _ => eq_refl) (fun _ => eq_refl)).
  - exact (proj2 (repr_only_reads u alice_client example_str example_repr split)
             "" "" ""
             (fun H => match Bool.diff_false_true H with end)
             (fun H => match Bool.diff_false_true H with end)
             (fun H => match Bool.diff_false_true H with end)).
Defined.

(** ** The names that a class has from [object] *)

Lemma special_names_unbound (c : class_name) (k : string) :
  k ∈ ["__class__"; "__dict__"; "__weakref__"; "self"] ->
  class_lookup c k = None.
Proof.
  intros Hk.
  repeat (apply elem_of_cons in Hk as [-> | Hk]; [destruct c; reflexivity|]).
  inversion Hk.
Qed.

Section ObjectNames.

Variable u : descriptor -> value -> value -> list event * outcome value.
Variable respond : list call -> call -> outcome value.

(** The round of a key after a prefix of field names that has
    populated. *)
Lemma round_after_prefix (c : class_name) (a b : list (string * value))
    (k : string) (v : value) (bc : option value) (st st1 : state) :
  api_keys a ->
  deserialize u c (VDict a) bc st = (Return tt, st1) ->
  cls (self st1) = c /\
  dict (self st1) !! "log" = Some (VLogger c) /\
  deserialize u c (VDict (a ++ (k, v) :: b)) bc st
    = from_dict_items u ((k, v) :: b) st1.
Proof.
  intros Hapi H1.
  pose proof (deserialize_returns_accepts _ _ _ _ _ _ H1) as Hacc.
  rewrite (deserialize_run _ _ _ _ _ Hacc) in H1.
  pose proof (from_dict_items_keeps u _ _ _ _ _ (log_start c bc st)
                (api_keys_ordinary _ _ Hapi) H1) as (Hc & _ & Hl & _).
  rewrite cls_start in Hc.
  split; [exact Hc|]. split; [exact Hl|].
  rewrite (deserialize_run _ _ _ _ _ Hacc), from_dict_items_app, H1.
  reflexivity.
Qed.

(** X14.  The test of [from_dict] is [hasattr], which is true of the
    names that a class has from [object]: such a key is assigned, not
    dropped.  After keys that are field names have populated the
    object, a key [__class__] raises [TypeError] and a key [__weakref__]
    raises [AttributeError], the object being left as it was; a key
    [__dict__] raises [TypeError] unless its value is a mapping, and
    then the mapping becomes the instance dictionary: what the
    initialiser and the earlier keys had put there is gone, and unless
    the mapping has an entry [log], the next key raises
    [AttributeError] where the logger is looked up. *)
Theorem object_names_are_assigned (c : class_name)
    (a b : list (string * value)) (v : value) (bc : option value)
    (st st1 : state) :
  api_keys a ->
  deserialize u c (VDict a) bc st = (Return tt, st1) ->
  (exists st',
     deserialize u c (VDict (a ++ ("__class__", v) :: b)) bc st
       = (Raise TypeError, st') /\ self st' = self st1) /\
  (exists st',
     deserialize u c (VDict (a ++ ("__weakref__", v) :: b)) bc st
       = (Raise AttributeError, st') /\ self st' = self st1) /\
  ((forall kvs, v <> VDict kvs) ->
   exists st',
     deserialize u c (VDict (a ++ ("__dict__", v) :: b)) bc st
       = (Raise TypeError, st') /\ self st' = self st1) /\
  (forall kvs, v = VDict kvs ->
   exists st',
     deserialize u c (VDict (a ++ [("__dict__", v)])) bc st = (Return tt, st') /\
     cls (self st') = c /\
     dict (self st') = list_to_map kvs /\
     (forall k' v' b', "log" ∉ keys kvs ->
        deserialize u c (VDict (a ++ ("__dict__", v) :: (k', v') :: b')) bc st
          = (Raise AttributeError,
             State (self st') (log st') (trace st')))).
Proof.
  intros Hapi H1.
  assert (Hround : forall k b0,
    cls (self st1) = c /\
    dict (self st1) !! "log" = Some (VLogger c) /\
    deserialize u c (VDict (a ++ (k, v) :: b0)) bc st
      = from_dict_items u ((k, v) :: b0) st1)
    by (intros k b0; apply round_after_prefix; assumption).
  split; [|split; [|split]].
  - destruct (Hround "__class__" b) as (Hc & Hl & ->).
    rewrite (from_dict_items_cons u _ _ _ _ _ Hl).
    unfold stored_form. rewrite Hc, (special_names_unbound c "__class__")
      by (left).
    change (hasattr_class c "__class__")
      with (declares c "__class__" || true). rewrite orb_true_r.
    eexists. split; reflexivity.
  - destruct (Hround "__weakref__" b) as (Hc & Hl & ->).
    rewrite (from_dict_items_cons u _ _ _ _ _ Hl).
    unfold stored_form. rewrite Hc, (special_names_unbound c "__weakref__")
      by (right; right; left).
    change (hasattr_class c "__weakref__")
      with (declares c "__weakref__" || true). rewrite orb_true_r.
    eexists. split; reflexivity.
  - intros Hv. destruct (Hround "__dict__" b) as (Hc & Hl & ->).
    rewrite (from_dict_items_cons u _ _ _ _ _ Hl).
    unfold stored_form. rewrite Hc, (special_names_unbound c "__dict__")
      by (right; left).
    change (hasattr_class c "__dict__")
      with (declares c "__dict__" || true). rewrite orb_true_r.
    cbn [String.eqb Ascii.eqb Bool.eqb].
    destruct v; try (eexists; split; reflexivity).
    exfalso. eapply Hv. reflexivity.
  - intros kvs ->.
    assert (Hone : forall b0,
      deserialize u c (VDict (a ++ ("__dict__", VDict kvs) :: b0)) bc st
      = from_dict_items u b0
          (State (Instance c (list_to_map kvs) (slots (self st1)))
                 (log st1 ++ [LogDebug (VLogger c) "__dict__" (VDict kvs)])
                 (trace st1))).
    { intros b0. destruct (Hround "__dict__" b0) as (Hc & Hl & ->).
      rewrite (from_dict_items_cons u _ _ _ _ _ Hl).
      unfold stored_form, assign, nested_log.
      rewrite Hc, (special_names_unbound c "__dict__") by (right; left).
      change (hasattr_class c "__dict__")
        with (declares c "__dict__" || true). rewrite orb_true_r.
      cbn [String.eqb Ascii.eqb Bool.eqb]. rewrite app_nil_r. reflexivity. }
    eexists. split; [rewrite Hone; reflexivity|].
    cbn [self cls dict log trace]. split; [reflexivity|].
    split; [reflexivity|].
    intros k' v' b' Hlog. rewrite Hone, from_dict_items_round.
    unfold read_attr. cbn [self cls dict]. rewrite class_never_binds_log.
    assert (Hnone : (list_to_map kvs : gmap string value) !! "log" = None).
    { apply not_elem_of_list_to_map_1. exact Hlog. }
    rewrite Hnone. reflexivity.
Qed.

Ltac run_shadow H0 H1 :=
  repeat (rewrite ?bind_run, ?load_run, ?ret_run, ?H0, ?H1;
          cbn [is_none get_self self log trace]).

(** X15.  The getters call the guard through the instance.  On an
    entity that holds a value of a JSON kind under
    [assert_bind_client], an access of a relation whose cache reads
    [None] raises [TypeError] before any look at the client, and leaves
    the state as it was; and a payload can bring this about: after a
    population of distinct field names that carries the key
    [assert_bind_client] and not the key [_gear], the access of [gear]
    raises [TypeError], bound or not. *)
Theorem shadowed_guard_raises (x : value) :
  is_json x = true ->
  (forall p st,
     cls (self st) = owner_of p ->
     read_attr (self st) (cache_of p) = Return VNone ->
     dict (self st) !! "assert_bind_client" = Some x ->
     getattr u respond (name_of p) st = (Raise TypeError, st)) /\
  (forall items bc st st',
     api_keys items -> NoDup (keys items) ->
     ("assert_bind_client", x) ∈ items ->
     "_gear" ∉ keys items ->
     deserialize u Activity (VDict items) bc st = (Return tt, st') ->
     getattr u respond "gear" st' = (Raise TypeError, st')).
Proof.
  intros _.
  assert (Hstate : forall p st,
     cls (self st) = owner_of p ->
     read_attr (self st) (cache_of p) = Return VNone ->
     dict (self st) !! "assert_bind_client" = Some x ->
     getattr u respond (name_of p) st = (Raise TypeError, st)).
  { intros p st Hc Hm Hs. rewrite (getattr_property u respond p st Hc).
    destruct p; cbn [property_get cache_of] in *;
      unfold Club_members, Club_activities, Activity_gear,
             call_assert_bind_client;
      run_shadow Hm Hs; reflexivity. }
  split; [exact Hstate|].
  intros items bc st st' Hapi Hnd Hin Hg Hrun.
  destruct (plain_key_after_population u Activity "assert_bind_client" x
              eq_refl I items bc st st' Hapi Hnd Hin Hrun) as [_ Hd].
  rewrite (deserialize_run _ _ _ _ _ (accepts_bound Activity bc eq_refl)) in Hrun.
  pose proof (from_dict_items_keeps u _ _ _ _ _ (log_start Activity bc st)
                (api_keys_ordinary _ _ Hapi) Hrun) as (Hc & _ & _ & _ & Hn).
  rewrite cls_start in Hc.
  apply (Hstate p_gear st' Hc); [|exact Hd].
  cbn [cache_of]. unfold read_attr. rewrite Hc.
  change (class_lookup Activity "_gear") with (Some CNone).
  rewrite (proj1 (Hn "_gear" (or_introl Hg))).
  cbn [start self]. unfold fresh. change (is_bound Activity) with true.
  reflexivity.
Qed.

(** X16.  The keyword [self] belongs to the initialisers: a constructor
    call that passes a keyword of that name raises [TypeError] and
    populates nothing, whatever the class and the other keywords.
    [deserialize] has no such name: in a payload of field names it
    treats the key [self] as any field the class does not have, so that
    the payload populates whenever its declared part does, with a
    warning for the key. *)
Theorem self_keyword_is_rejected (c : class_name)
    (args : list (string * value)) (st : state) :
  "self" ∈ keys args ->
  construct u c args st
    = (Raise TypeError, State (Instance c ∅ ∅) (log st) (trace st)) /\
  (api_keys args ->
   forall bc st1,
     deserialize u c (VDict (declared_part c args)) bc st = (Return tt, st1) ->
     exists st2,
       deserialize u c (VDict args) bc st = (Return tt, st2) /\
       self st2 = self st1 /\
       LogWarning (VLogger c) "self" ∈ log st2).
Proof.
  intros Hin. split; [apply construct_self, Hin|].
  intros Hapi bc st1 Hdecl.
  pose proof (deserialize_returns_accepts _ _ _ _ _ _ Hdecl) as Hacc.
  rewrite (deserialize_run _ _ _ _ _ Hacc) in Hdecl.
  destruct (deserialize u c (VDict args) bc st) as [r st2] eqn:Hrun.
  rewrite (deserialize_run _ _ _ _ _ Hacc) in Hrun.
  pose proof (api_keys_ordinary (cls (self (start c bc st))) _ Hapi) as Hord.
  destruct (from_dict_items_declared u _ _ _ _ _ (log_start c bc st) Hord Hrun)
    as [lg' Hd].
  rewrite cls_start, Hdecl in Hd. injection Hd as <- ->.
  exists st2. split; [reflexivity|]. split; [reflexivity|].
  eapply from_dict_items_warns;
    [apply (log_start c bc st) | exact Hord | exact Hrun | exact Hin |].
  rewrite cls_start. unfold hasattr_class, declares.
  rewrite (special_names_unbound c "self") by (right; right; right; left).
  reflexivity.
Qed.

End ObjectNames.

Lemma object_names_are_assigned_witness :
  let u := unmarshal typed_scalars in
  let a := [("id", VInt 7)] in
  let v := VDict [("name", VStr "x")] in
  let st1 := (deserialize u Club (VDict a) (Some (VClient 0)) st0).2 in
  api_keys a /\
  deserialize u Club (VDict a) (Some (VClient 0)) st0 = (Return tt, st1) /\
  dict (self st1) !! "bind_client" = Some (VClient 0) /\
  (exists st',
     deserialize u Club (VDict (a ++ [("__dict__", v)])) (Some (VClient 0)) st0
       = (Return tt, st') /\
     cls (self st') = Club /\
     dict (self st') = list_to_map [("name", VStr "x")] /\
     (forall k' v' b', "log" ∉ keys [("name", VStr "x")] ->
        deserialize u Club (VDict (a ++ ("__dict__", v) :: (k', v') :: b'))
          (Some (VClient 0)) st0
          = (Raise AttributeError,
             State (self st') (log st') (trace st')))).
Proof.
  intros u a v st1.
  assert (Ha : api_keys a) by (repeat constructor).
  assert (H1 : deserialize u Club (VDict a) (Some (VClient 0)) st0
               = (Return tt, st1)) by (vm_compute; reflexivity).
  split; [exact Ha|]. split; [exact H1|].
  split; [vm_compute; reflexivity|].
  exact (proj2 (proj2 (proj2
           (object_names_are_assigned u Club a [] v (Some (VClient 0))
              st0 st1 Ha H1)))
           [("name", VStr "x")] eq_refl).
Defined.

Lemma shadowed_guard_raises_witness :
  let u := unmarshal typed_scalars in
  let items := [("assert_bind_client", VInt 5); ("gear_id", VStr "b77")] in
  let st' := (deserialize u Activity (VDict items) (Some (VClient 0)) st0).2 in
  is_json (VInt 5) = true /\
  api_keys items /\ NoDup (keys items) /\
  ("assert_bind_client", VInt 5) ∈ items /\
  ("_gear" ∉ keys items) /\
  deserialize u Activity (VDict items) (Some (VClient 0)) st0
    = (Return tt, st') /\
  getattr u bike_client "gear" st' = (Raise TypeError, st').
Proof.
  intros u items st'.
  assert (Hj : is_json (VInt 5) = true) by reflexivity.
  assert (Ha : api_keys items) by (repeat constructor).
  assert (Hnd : NoDup (keys items))
    by (apply (bool_decide_unpack _); vm_compute; exact I).
  assert (Hin : ("assert_bind_client", VInt 5) ∈ items) by (left).
  assert (Hg : "_gear" ∉ keys items)
    by (apply (bool_decide_unpack _); vm_compute; exact I).
  assert (H : deserialize u Activity (VDict items) (Some (VClient 0)) st0
              = (Return tt, st')) by (vm_compute; reflexivity).
  repeat (split; [assumption|]).
  exact (proj2 (shadowed_guard_raises u bike_client (VInt 5) Hj)
           items (Some (VClient 0)) st0 st' Ha Hnd Hin Hg H).
Defined.

Lemma self_keyword_is_rejected_witness :
  let u := unmarshal typed_scalars in
  let args := [("id", VInt 7); ("self", VInt 1)] in
  let st1 := (deserialize u Club (VDict (declared_part Club args)) None st0).2 in
  ("self" ∈ keys args) /\
  api_keys args /\
  deserialize u Club (VDict (declared_part Club args)) None st0
    = (Return tt, st1) /\
  construct u Club args st0
    = (Raise TypeError, State (Instance Club ∅ ∅) (log st0) (trace st0)) /\
  exists st2,
    deserialize u Club (VDict args) None st0 = (Return tt, st2) /\
    self st2 = self st1 /\
    LogWarning (VLogger Club) "self" ∈ log st2.
Proof.
  intros u args st1.
  assert (Hin : "self" ∈ keys args)
    by (apply (bool_decide_unpack _); vm_compute; exact I).
  assert (Ha : api_keys args) by (repeat constructor).
  assert (H : deserialize u Club (VDict (declared_part Club args)) None st0
              = (Return tt, st1)) by (vm_compute; reflexivity).
  split; [exact Hin|]. split; [exact Ha|]. split; [exact H|].
  pose proof (self_keyword_is_rejected u Club args st0 Hin) as [Hc Hd].
  split; [exact Hc|]. exact (Hd Ha None st1 H).
Defined.
